(** * go-logger: a shallow embedding of [logger/logger.go]

  The Go package [logger] formats leveled log entries, either as a coloured
  text line or as a JSON object, and writes them to an [io.Writer].  This
  file embeds the package in Rocq and proves the properties its
  specification states about it.

  Conventions.
  - A Go [string] is an immutable sequence of bytes: [string] of the
    Standard Library (a sequence of 8-bit [ascii]).
  - [LogLevel] is a Go [int]: [Z], with the five named constants.
  - A call that panics, blocks on the mutex or exits the process is made
    explicit in the [outcome] of the call.
  - What a call reads from the process is passed to it: the clock and the
    colour switch of package [color] ([Env]), and the stack of its caller.
  - Writers live in a heap ([gmap]) and loggers refer to them by address;
    every effect of a call is also recorded in a trace of events.
  - A formatter is a function of its arguments and of [Env]; the built-in
    ones follow the source, [encoding/json], [time] and [fatih/color]
    included as far as the logger uses them. *)

From Stdlib Require Import ZArith Ascii String DecimalString Lia Bool.
From Equations.Prop Require Import Equations Logic.
From stdpp Require Import base option gmap strings list.

Local Open Scope Z_scope.

(** * Part I: the embedding *)

(** ** Byte strings: the functions of package [strings] the logger calls *)

Module GoString.

(** [c] occurs in [s]. *)
Fixpoint has_byte (c : ascii) (s : string) : bool :=
  match s with
  | "" => false
  | String d s' => Ascii.eqb d c || has_byte c s'
  end.

(** Every byte of [s] satisfies [P]. *)
Fixpoint all_bytes (P : ascii -> bool) (s : string) : bool :=
  match s with
  | "" => true
  | String c s' => P c && all_bytes P s'
  end.

(** [strings.HasPrefix(s, p)]: what follows the prefix, when it is one. *)
Fixpoint strip_prefix (p s : string) : option string :=
  match p, s with
  | "", _ => Some s
  | String a p', String b s' => if Ascii.eqb a b then strip_prefix p' s' else None
  | String _ _, "" => None
  end.

(** [strings.Contains(s, sub)]. *)
Fixpoint Contains (s sub : string) : bool :=
  bool_decide (is_Some (strip_prefix sub s)) ||
  match s with
  | "" => false
  | String _ s' => Contains s' sub
  end.

(** [strings.ReplaceAll(s, old, new)] for a one-byte [old] and [new]. *)
Fixpoint ReplaceAll (s : string) (old new : ascii) : string :=
  match s with
  | "" => ""
  | String x s' => String (if Ascii.eqb x old then new else x) (ReplaceAll s' old new)
  end.

(** [strings.Join(elems, sep)]. *)
Fixpoint Join (elems : list string) (sep : string) : string :=
  match elems with
  | [] => ""
  | [x] => x
  | x :: rest => x +:+ sep +:+ Join rest sep
  end.

(** [strings.Split(s, sep)] for a one-byte separator: the pieces between
    the separators, always at least one piece. *)
Fixpoint Split (s : string) (sep : ascii) : list string :=
  match s with
  | "" => [""]
  | String c s' =>
      if Ascii.eqb c sep then "" :: Split s' sep
      else match Split s' sep with
           | [] => [String c ""]
           | w :: ws => String c w :: ws
           end
  end.

(** [strconv.Itoa]: what the verb [%d] prints. *)
Definition Itoa (n : Z) : string := NilZero.string_of_int (Z.to_int n).

End GoString.

Import GoString.

(** ** ANSI colour stripping

  [stripColors] is [regexp.MustCompile(`\x1b\[[0-9;]*[mGK]`)] followed by
  [ReplaceAllString(s, "")].  The pattern is made of ASCII bytes only, and
  its two character classes are disjoint, so at a given position there is at
  most one way to match: ESC, '[', the longest run of parameter bytes, one
  final byte.  [ReplaceAllString] walks the input once from the left and
  deletes the successive non-overlapping matches. *)

Module Ansi.

Definition ESC : ascii := "027"%char.

(** [[0-9;]] *)
Definition is_param (c : ascii) : bool :=
  match c with
  | "0" | "1" | "2" | "3" | "4" | "5" | "6" | "7" | "8" | "9" | ";" => true
  | _ => false
  end%char.

(** [[mGK]] *)
Definition is_final (c : ascii) : bool :=
  match c with
  | "m" | "G" | "K" => true
  | _ => false
  end%char.

(** [[0-9;]*[mGK]] at the head of [s]: what follows the match. *)
Fixpoint csi_tail (s : string) : option string :=
  match s with
  | "" => None
  | String c s' =>
      if is_param c then csi_tail s'
      else if is_final c then Some s'
      else None
  end.

(** The whole pattern at the head of [s]: what follows the match. *)
Definition csi_match (s : string) : option string :=
  match s with
  | String c1 (String c2 s') =>
      if Ascii.eqb c1 ESC && Ascii.eqb c2 "["%char then csi_tail s' else None
  | _ => None
  end.

Lemma csi_tail_shorter s r :
  csi_tail s = Some r -> (String.length r < String.length s)%nat.
Proof.
  revert r. induction s as [|c s IH]; intros r; simpl; [discriminate|].
  destruct (is_param c).
  - intros H. apply IH in H. lia.
  - destruct (is_final c); [|discriminate]. intros [= <-]. lia.
Qed.

Lemma csi_match_shorter s r :
  csi_match s = Some r -> (String.length r < String.length s)%nat.
Proof.
  destruct s as [|c1 [|c2 s]]; simpl; try discriminate.
  destruct (_ && _); [|discriminate].
  intros H. apply csi_tail_shorter in H. lia.
Qed.

(** [re.ReplaceAllString(s, "")] *)
Equations? stripColors (s : string) : string by wf (String.length s) lt :=
  stripColors s with inspect (csi_match s) => {
    | exist _ (Some rest) _ := stripColors rest;
    | exist _ None _ with s => {
        | "" := "";
        | String c s' := String c (stripColors s') } }.
Proof.
  - apply csi_match_shorter; assumption.
  - simpl. lia.
Qed.

(** Some position of [s] starts a match of the pattern. *)
Fixpoint has_csi (s : string) : bool :=
  match s with
  | "" => false
  | String _ s' => bool_decide (is_Some (csi_match s)) || has_csi s'
  end.

End Ansi.

Import Ansi.

(** ** Wall-clock time: [time.Now().Format(time.RFC3339)]

    The layout is [2006-01-02T15:04:05Z07:00].  Go prints the year on at
    least four digits, the other fields on two, and the zone as [Z] when the
    offset from UTC is zero, else as a sign, hours and minutes. *)

Module Time.

Record Time := mkTime {
  year : Z; month : Z; day : Z;
  hour : Z; minute : Z; second : Z;
  offset : Z  (* of the zone, seconds east of UTC *)
}.

Definition digit (d : Z) : ascii :=
  ascii_of_N (48 + Z.to_N (d mod 10)).

(** The [width] low decimal digits of [u], most significant first. *)
Fixpoint low_digits (width : nat) (u : Z) : string :=
  match width with
  | O => ""
  | S w => low_digits w (u / 10) +:+ String (digit u) ""
  end.

(** [appendInt(b, x, width)]: [x] in decimal, padded with zeros on the left
    to [width] digits, longer when [x] needs more. *)
Definition appendInt (x : Z) (width : nat) : string :=
  let u := Z.abs x in
  let body :=
    if u <? 10 ^ Z.of_nat width then low_digits width u else Itoa u in
  if x <? 0 then String "-" body else body.

(** The zone, [Z07:00]. *)
Definition appendZone (off : Z) : string :=
  let zone := Z.quot off 60 in
  if off =? 0 then "Z"
  else (if zone <? 0 then "-" else "+")
       +:+ appendInt (Z.abs zone / 60) 2 +:+ ":" +:+ appendInt (Z.abs zone mod 60) 2.

Definition FormatRFC3339 (t : Time) : string :=
  appendInt (year t) 4 +:+ "-" +:+ appendInt (month t) 2 +:+ "-" +:+ appendInt (day t) 2
  +:+ "T" +:+ appendInt (hour t) 2 +:+ ":" +:+ appendInt (minute t) 2
  +:+ ":" +:+ appendInt (second t) 2 +:+ appendZone (offset t).

(** A civil time as [time.Now()] returns it. *)
Definition valid (t : Time) : Prop :=
  0 <= year t <= 9999 /\ 1 <= month t <= 12 /\ 1 <= day t <= 31 /\
  0 <= hour t <= 23 /\ 0 <= minute t <= 59 /\ 0 <= second t <= 59 /\
  -86400 < offset t < 86400.

(** A recogniser of the RFC 3339 [date-time] production without fraction:
    [4DIGIT "-" 2DIGIT "-" 2DIGIT "T" 2DIGIT ":" 2DIGIT ":" 2DIGIT]
    followed by ["Z"] or [("+" / "-") 2DIGIT ":" 2DIGIT]. *)
Definition is_digit (c : ascii) : bool :=
  match c with
  | "0" | "1" | "2" | "3" | "4" | "5" | "6" | "7" | "8" | "9" => true
  | _ => false
  end%char.

(** The bytes a formatted time is made of. *)
Definition is_stamp_byte (c : ascii) : bool :=
  is_digit c ||
  match c with
  | "-" | ":" | "T" | "Z" | "+" => true
  | _ => false
  end%char.

Fixpoint take_digits (n : nat) (s : string) : option string :=
  match n, s with
  | O, _ => Some s
  | S n', String c s' => if is_digit c then take_digits n' s' else None
  | S _, "" => None
  end.

Definition expect (c : ascii) (s : string) : option string :=
  match s with
  | String d s' => if Ascii.eqb c d then Some s' else None
  | "" => None
  end.

Definition and_then (o : option string) (k : string -> option string) : option string :=
  match o with
  | Some s => k s
  | None => None
  end.

Local Infix ">>" := and_then (at level 50, left associativity).

Definition at_end (o : option string) : bool :=
  match o with
  | Some "" => true
  | _ => false
  end.

Definition zone_ok (s : string) : bool :=
  match s with
  | String c s' =>
      if Ascii.eqb c "Z" then at_end (Some s')
      else (Ascii.eqb c "+" || Ascii.eqb c "-") &&
           at_end (take_digits 2 s' >> expect ":" >> take_digits 2)
  | "" => false
  end.

Definition is_rfc3339 (s : string) : bool :=
  match take_digits 4 s >> expect "-" >> take_digits 2 >> expect "-"
        >> take_digits 2 >> expect "T" >> take_digits 2 >> expect ":"
        >> take_digits 2 >> expect ":" >> take_digits 2 with
  | Some z => zone_ok z
  | None => false
  end.

End Time.

(** ** Package [github.com/fatih/color]

    [color.New(a).Sprint(s)] wraps [s] between the escape sequence that
    selects attribute [a] and the reset sequence, unless colour is switched
    off for the process ([color.NoColor]: no terminal on standard output, or
    the environment asks for none), in which case it returns [s] as it is. *)

Module Color.

Inductive Attribute :=
| FgCyan | FgHiRed | FgHiGreen | FgHiYellow | FgHiBlue | FgHiMagenta | FgHiCyan | FgHiWhite.

(** The SGR parameter of each attribute. *)
Definition code (a : Attribute) : Z :=
  match a with
  | FgCyan => 36
  | FgHiRed => 91 | FgHiGreen => 92 | FgHiYellow => 93 | FgHiBlue => 94
  | FgHiMagenta => 95 | FgHiCyan => 96 | FgHiWhite => 97
  end.

Definition format (a : Attribute) : string :=
  String ESC ("[" +:+ Itoa (code a) +:+ "m").

Definition unformat : string := String ESC "[0m".

(** The [wrap] method of [Color] *)
Definition wrap (NoColor : bool) (a : Attribute) (s : string) : string :=
  if NoColor then s else format a +:+ s +:+ unformat.

Definition Sprint (NoColor : bool) (a : Attribute) (s : string) : string :=
  wrap NoColor a s.

End Color.

(** ** Package [runtime]: the call stack

    A goroutine's stack is the list of its active frames, innermost first;
    each frame records the source position its function has reached.
    [runtime.Caller(skip)] reports the position of the frame [skip] levels
    above the function that calls it, and [ok = false] past the outermost
    frame. *)

Module Runtime.

Record Frame := mkFrame { file : string; line : Z }.

Abbreviation Stack := (list Frame).

Definition Caller (stack : Stack) (skip : nat) : string * Z * bool :=
  match stack !! skip with
  | Some f => (file f, line f, true)
  | None => ("", 0, false)
  end.

End Runtime.

(** ** Package [encoding/json]: strings

    [json.Marshal] writes a Go string between double quotes.  Bytes of the
    HTML-safe ASCII set are copied; the quote and the backslash get a
    backslash; backspace, form feed, newline, carriage return and tab get
    their short escapes; the other control bytes and the bytes of the
    ampersand and of the angle brackets are written as a [u] escape of four
    hexadecimal digits.  A byte that does not start a well-formed UTF-8
    sequence is written as the escape of U+FFFD; U+2028 and U+2029 are
    written as their escapes; every other multi-byte sequence is copied. *)

Module Json.

Local Open Scope N_scope.

Definition byte (c : ascii) : N := N_of_ascii c.

Definition in_range (lo hi : N) (c : ascii) : bool :=
  (lo <=? byte c) && (byte c <=? hi).

Definition quote : ascii := "034".
Definition backslash : ascii := "092".

(** [hex[n]] for [n < 16]. *)
Definition hex (n : N) : ascii :=
  match String.get (N.to_nat n) "0123456789abcdef" with
  | Some c => c
  | None => "0"
  end.

(** [htmlSafeSet[b]] *)
Definition htmlSafe (c : ascii) : bool :=
  in_range 32 127 c &&
  match c with
  | "034" | "&" | "<" | ">" | "092" => false
  | _ => true
  end%char.

(** What is written for an ASCII byte outside the safe set. *)
Definition escape (c : ascii) : string :=
  match c with
  | "092" | "034" => String backslash (String c "")
  | "008" => String backslash "b"
  | "012" => String backslash "f"
  | "010" => String backslash "n"
  | "013" => String backslash "r"
  | "009" => String backslash "t"
  | _ => String backslash "u00"
         +:+ String (hex (N.shiftr (byte c) 4)) (String (hex (N.land (byte c) 15)) "")
  end%char.

(** [utf8.DecodeRuneInString]: the table [first] and the accept ranges.
    For a leading byte, the length of the sequence and the range of the
    second byte. *)
Definition accept (b0 : ascii) : option (nat * N * N) :=
  if in_range 194 223 b0 then Some (2%nat, 128, 191)
  else if in_range 224 224 b0 then Some (3%nat, 160, 191)
  else if in_range 225 236 b0 then Some (3%nat, 128, 191)
  else if in_range 237 237 b0 then Some (3%nat, 128, 159)
  else if in_range 238 239 b0 then Some (3%nat, 128, 191)
  else if in_range 240 240 b0 then Some (4%nat, 144, 191)
  else if in_range 241 243 b0 then Some (4%nat, 128, 191)
  else if in_range 244 244 b0 then Some (4%nat, 128, 143)
  else None.

(** The number of bytes that follow [b0] in the well-formed sequence that
    [b0 :: rest] starts, or [None] when it starts none (the decoder then
    reports [RuneError] with size 1). *)
Definition rune_tail (b0 : ascii) (rest : string) : option nat :=
  match accept b0 with
  | None => None
  | Some (size, lo, hi) =>
      match rest with
      | String b1 rest1 =>
          if in_range lo hi b1 then
            match size with
            | 2%nat => Some 1%nat
            | _ =>
                match rest1 with
                | String b2 rest2 =>
                    if in_range 128 191 b2 then
                      match size with
                      | 3%nat => Some 2%nat
                      | _ =>
                          match rest2 with
                          | String b3 _ =>
                              if in_range 128 191 b3 then Some 3%nat else None
                          | "" => None
                          end
                      end
                    else None
                | "" => None
                end
            end
          else None
      | "" => None
      end
  end.

(** The sequence [b0 b1 b2] is U+2028 or U+2029: [E2 80 A8], [E2 80 A9]. *)
Definition line_separator (b0 b1 b2 : ascii) : bool :=
  (byte b0 =? 226) && (byte b1 =? 128) && in_range 168 169 b2.

(** The escape of U+FFFD. *)
Definition replacement : string := String backslash "ufffd".

(** The loop of [appendString], between the quotes; [copy] counts the
    bytes still to copy of the sequence being copied. *)
Fixpoint appendBody (copy : nat) (s : string) : string :=
  match s with
  | "" => ""
  | String b s' =>
      match copy with
      | S k => String b (appendBody k s')
      | O =>
          if byte b <? 128 then
            (if htmlSafe b then String b "" else escape b) +:+ appendBody 0 s'
          else
            match rune_tail b s' with
            | None => replacement +:+ appendBody 0 s'
            | Some k =>
                match s' with
                | String b1 (String b2 s3) =>
                    if line_separator b b1 b2
                    then String backslash "u202"
                         +:+ String (hex (N.land (byte b2) 15)) (appendBody 0 s3)
                    else String b (appendBody k s')
                | _ => String b (appendBody k s')
                end
            end
      end
  end.

Definition appendString (s : string) : string :=
  String quote (appendBody 0 s +:+ String quote "").

(** *** Reading JSON back

    A parser of the fragment of RFC 8259 the logger produces: objects whose
    members are strings or objects, in compact form.  A string must be
    well-formed UTF-8 with its control bytes escaped; an escape of a
    surrogate half decodes to U+FFFD. *)

#[local] Set Warnings "-register-all".

Inductive value :=
| JString (s : string)
| JObject (members : list (string * value)).

(** The UTF-8 encoding of a code point of the basic plane. *)
Definition encode_rune (cp : N) : string :=
  if cp <? 128 then String (ascii_of_N cp) ""
  else if cp <? 2048 then
    String (ascii_of_N (192 + cp / 64)) (String (ascii_of_N (128 + cp mod 64)) "")
  else if (55296 <=? cp) && (cp <=? 57343) then
    String "239" (String "191" (String "189" ""))
  else
    String (ascii_of_N (224 + cp / 4096))
      (String (ascii_of_N (128 + (cp / 64) mod 64))
         (String (ascii_of_N (128 + cp mod 64)) "")).

Definition hex_value (c : ascii) : option N :=
  if in_range 48 57 c then Some (byte c - 48)
  else if in_range 97 102 c then Some (byte c - 87)
  else if in_range 65 70 c then Some (byte c - 55)
  else None.

Definition hex4 (h1 h2 h3 h4 : ascii) : option N :=
  match hex_value h1, hex_value h2, hex_value h3, hex_value h4 with
  | Some a, Some b, Some c, Some d => Some (((a * 16 + b) * 16 + c) * 16 + d)
  | _, _, _, _ => None
  end.

(** The byte a one-letter escape stands for. *)
Definition unescape (e : ascii) : option ascii :=
  match e with
  | "034" => Some "034"
  | "092" => Some "092"
  | "/" => Some "/"
  | "b" => Some "008"
  | "f" => Some "012"
  | "n" => Some "010"
  | "r" => Some "013"
  | "t" => Some "009"
  | _ => None
  end%char.

Definition prepend (x : string) (r : option (string * string)) : option (string * string) :=
  match r with
  | Some (str, rest) => Some (x +:+ str, rest)
  | None => None
  end.

(** A string after its opening quote: its content and what follows the
    closing quote. *)
Fixpoint parse_body (copy : nat) (s : string) : option (string * string) :=
  match s with
  | "" => None
  | String c s' =>
      match copy with
      | S k => prepend (String c "") (parse_body k s')
      | O =>
          if Ascii.eqb c quote then Some ("", s')
          else if Ascii.eqb c backslash then
            match s' with
            | String e s2 =>
                if Ascii.eqb e "u" then
                  match s2 with
                  | String h1 (String h2 (String h3 (String h4 s6))) =>
                      match hex4 h1 h2 h3 h4 with
                      | Some cp => prepend (encode_rune cp) (parse_body 0 s6)
                      | None => None
                      end
                  | _ => None
                  end
                else
                  match unescape e with
                  | Some ch => prepend (String ch "") (parse_body 0 s2)
                  | None => None
                  end
            | "" => None
            end
          else if byte c <? 32 then None
          else if byte c <? 128 then prepend (String c "") (parse_body 0 s')
          else
            match rune_tail c s' with
            | Some k => prepend (String c "") (parse_body k s')
            | None => None
            end
      end
  end.

Definition parse_string (s : string) : option (string * string) :=
  match s with
  | String c s' => if Ascii.eqb c quote then parse_body 0 s' else None
  | "" => None
  end.

Definition expect (c : ascii) (s : string) : option string :=
  match s with
  | String d s' => if Ascii.eqb c d then Some s' else None
  | "" => None
  end.

(** A value, and the members of an object after its opening brace; [fuel]
    bounds the nesting and the number of members. *)
Fixpoint parse_value (fuel : nat) (s : string) : option (value * string) :=
  match fuel with
  | O => None
  | S fuel' =>
      match s with
      | String c s' =>
          if Ascii.eqb c quote then
            match parse_body 0 s' with
            | Some (str, rest) => Some (JString str, rest)
            | None => None
            end
          else if Ascii.eqb c "{" then
            match expect "}" s' with
            | Some rest => Some (JObject [], rest)
            | None =>
                match parse_members fuel' s' with
                | Some (members, rest) => Some (JObject members, rest)
                | None => None
                end
            end
          else None
      | "" => None
      end
  end
with parse_members (fuel : nat) (s : string) : option (list (string * value) * string) :=
  match fuel with
  | O => None
  | S fuel' =>
      match parse_string s with
      | Some (key, s1) =>
          match expect ":" s1 with
          | Some s2 =>
              match parse_value fuel' s2 with
              | Some (v, s3) =>
                  match s3 with
                  | String c s4 =>
                      if Ascii.eqb c "}" then Some ([(key, v)], s4)
                      else if Ascii.eqb c "," then
                        match parse_members fuel' s4 with
                        | Some (members, rest) => Some ((key, v) :: members, rest)
                        | None => None
                        end
                      else None
                  | "" => None
                  end
              | None => None
              end
          | None => None
          end
      | None => None
      end
  end.

(** The whole input is one value. *)
Definition parse (s : string) : option value :=
  match parse_value (String.length s) s with
  | Some (v, "") => Some v
  | _ => None
  end.

(** The text of a Go string: its bytes, with U+FFFD for each byte that
    does not belong to a well-formed UTF-8 sequence. *)
Fixpoint text_from (copy : nat) (s : string) : string :=
  match s with
  | "" => ""
  | String b s' =>
      match copy with
      | S k => String b (text_from k s')
      | O =>
          if byte b <? 128 then String b (text_from 0 s')
          else
            match rune_tail b s' with
            | Some k => String b (text_from k s')
            | None => String "239" (String "191" (String "189" (text_from 0 s')))
            end
      end
  end.

Definition text (s : string) : string := text_from 0 s.

(** [utf8.ValidString] *)
Fixpoint valid_from (copy : nat) (s : string) : bool :=
  match s with
  | "" => true
  | String b s' =>
      match copy with
      | S k => valid_from k s'
      | O =>
          if byte b <? 128 then valid_from 0 s'
          else
            match rune_tail b s' with
            | Some k => valid_from k s'
            | None => false
            end
      end
  end.

Definition ValidString (s : string) : bool := valid_from 0 s.

(** Not a control byte. *)
Definition printable (c : ascii) : bool := negb (byte c <? 32).

(** The first [k] bytes of [s] are there and none is ASCII. *)
Fixpoint high_prefix (k : nat) (s : string) : bool :=
  match k, s with
  | O, _ => true
  | S k', String b s' => negb (byte b <? 128) && high_prefix k' s'
  | S _, "" => false
  end.

(** The value of member [key] of an object. *)
Fixpoint member (key : string) (members : list (string * value)) : option value :=
  match members with
  | [] => None
  | (k, v) :: rest => if String.eqb k key then Some v else member key rest
  end.

End Json.

(** ** Package [logger] *)

Definition LogLevel := Z.

Definition LevelDebug : LogLevel := 0.
Definition LevelInfo : LogLevel := 1.
Definition LevelWarn : LogLevel := 2.
Definition LevelError : LogLevel := 3.
Definition LevelFatal : LogLevel := 4.

(** The five levels the package names. *)
Definition defined (lvl : LogLevel) : Prop := LevelDebug <= lvl <= LevelFatal.

Record LogFields := mkLogFields {
  Method : string;
  Path : string;
  Status : string;
  Size : string;
  Latency : string;
  CallerInfo : string
}.

Definition with_CallerInfo (fields : LogFields) (ci : string) : LogFields :=
  {| Method := Method fields; Path := Path fields; Status := Status fields;
     Size := Size fields; Latency := Latency fields; CallerInfo := ci |}.

Definition NewLogFields (method path status size latency : string) : LogFields :=
  {| Method := method; Path := path; Status := status; Size := size;
     Latency := latency; CallerInfo := "" |}.

(** What a formatter reads from the process besides its arguments: the
    clock ([time.Now()]) and the colour switch of package [color]. *)
Record Env := mkEnv { now : Time.Time; NoColor : bool }.

(** A formatter is a Go function value; [None] is a call that panics. *)
Definition Formatter := Env -> LogLevel -> string -> LogFields -> option string.

(** An [io.Writer]: the bytes it holds and how it reacts to [Write(p)],
    by new contents and an error or none. *)
Record Writer := mkWriter {
  data : string;
  write : string -> string -> string * option string
}.

(** [bytes.Buffer]: every write is appended and succeeds. *)
Definition Buffer (content : string) : Writer :=
  {| data := content; write := fun d p => (d +:+ p, None) |}.

(** Writers live in the heap; a logger refers to its sink by address. *)
Definition addr := nat.
Definition Stdout : addr := 1%nat.
Definition Stderr : addr := 2%nat.

Record Logger := mkLogger {
  name : string;
  level : LogLevel;
  out : addr;
  color : bool;
  formatter : Formatter;
  mutex : bool  (* locked *)
}.

(** The [switch] of [defaultFormatter]: the tag and the colour of a level.
    For a level outside the five, [levelColor] stays [nil]. *)
Definition level_style (lvl : LogLevel) : option (string * Color.Attribute) :=
  if lvl =? LevelDebug then Some ("DEBUG", Color.FgHiCyan)
  else if lvl =? LevelInfo then Some ("INFO", Color.FgHiGreen)
  else if lvl =? LevelWarn then Some ("WARN", Color.FgHiYellow)
  else if lvl =? LevelError then Some ("ERROR", Color.FgHiRed)
  else if lvl =? LevelFatal then Some ("FATAL", Color.FgHiMagenta)
  else None.

Definition nonempty (s : string) : bool :=
  match s with
  | "" => false
  | _ => true
  end.

Definition is_empty (s : string) : bool := negb (nonempty s).

(** [components = append(components, x)] under a guard. *)
Definition append_if (guard : bool) (components : list string) (x : string) : list string :=
  if guard then components ++ [x] else components.

Definition defaultFormatter : Formatter := fun e lvl message fields =>
  let timestamp := Time.FormatRFC3339 (now e) in
  match level_style lvl with
  | None => None (* [levelColor.Sprintf] on a nil [*color.Color] *)
  | Some (levelStr, levelColor) =>
      let paint := Color.Sprint (NoColor e) in
      let components :=
        [ paint levelColor ("[" +:+ levelStr +:+ "]");
          paint Color.FgHiWhite timestamp ] in
      let components :=
        append_if (nonempty (Method fields) && nonempty (Path fields)) components
          (paint Color.FgHiBlue (Method fields +:+ " " +:+ Path fields)) in
      let components :=
        append_if (nonempty (Status fields)) components
          (paint Color.FgHiGreen (Status fields)) in
      let components :=
        append_if (nonempty (Size fields)) components
          (paint Color.FgHiYellow (Size fields)) in
      let components :=
        append_if (nonempty (Latency fields)) components
          (paint Color.FgHiMagenta (Latency fields)) in
      let components :=
        components ++ [ paint Color.FgHiWhite "-"; paint Color.FgCyan message ] in
      let components :=
        components ++ [ paint Color.FgHiWhite "-";
                        paint Color.FgHiBlue (CallerInfo fields) ] in
      Some (Join components " ")
  end.

(** The [String] method of [LogLevel]. *)
Definition LogLevel_String (l : LogLevel) : string :=
  if l =? LevelDebug then "debug"
  else if l =? LevelInfo then "info"
  else if l =? LevelWarn then "warn"
  else if l =? LevelError then "error"
  else if l =? LevelFatal then "fatal"
  else "unknown".

(** [json.Marshal] of a [LogFields]: the fields in the order of the
    declaration, each under the key of its tag, left out when empty. *)
Definition tagged (fields : LogFields) : list (string * string) :=
  [ ("method", Method fields); ("path", Path fields); ("status", Status fields);
    ("size", Size fields); ("latency", Latency fields);
    ("caller_info", CallerInfo fields) ].

Definition omitempty (members : list (string * string)) : list (string * string) :=
  filter (fun kv => nonempty kv.2 = true) members.

Definition Marshal_LogFields (fields : LogFields) : string :=
  "{" +:+ Join ((fun kv => Json.appendString kv.1 +:+ ":" +:+ Json.appendString kv.2)
                  <$> omitempty (tagged fields)) ","
  +:+ "}".

(** A value of the map [entry]: a string or the fields. *)
Inductive any :=
| AString (s : string)
| AFields (fields : LogFields).

Definition Marshal_any (v : any) : string :=
  match v with
  | AString s => Json.appendString s
  | AFields fields => Marshal_LogFields fields
  end.

(** [json.Marshal] writes the keys of a map in increasing order. *)
Fixpoint insert_sorted (kv : string * any) (m : list (string * any)) : list (string * any) :=
  match m with
  | [] => [kv]
  | kv' :: rest =>
      if String.leb kv.1 kv'.1 then kv :: m else kv' :: insert_sorted kv rest
  end.

Definition sorted_keys (m : list (string * any)) : list (string * any) :=
  foldr insert_sorted [] m.

Definition Marshal_map (m : list (string * any)) : string :=
  "{" +:+ Join ((fun kv => Json.appendString kv.1 +:+ ":" +:+ Marshal_any kv.2)
                  <$> sorted_keys m) ","
  +:+ "}".

Definition JSONFormatter : Formatter := fun e lvl message fields =>
  let entry :=
    [ ("timestamp", AString (Time.FormatRFC3339 (now e)));
      ("level", AString (LogLevel_String lvl));
      ("message", AString message);
      ("fields", AFields fields) ] in
  Some (Marshal_map entry).

(** *** The state a call runs in, and what a call can come to *)

Inductive Event :=
| EvCaller (skip : nat)                                   (* [runtime.Caller(skip)] *)
| EvFormat (lvl : LogLevel) (msg : string) (fields : LogFields) (* [l.formatter(...)] *)
| EvLock                                                  (* [l.mutex.Lock()] *)
| EvWrite (w : addr) (p : string) (err : option string)   (* [w.Write(p)], its error *)
| EvUnlock.                                               (* [l.mutex.Unlock()] *)

Record State := mkState {
  logger : Logger;               (* the receiver [*l] *)
  sinks : gmap addr Writer;      (* the writers of the heap *)
  events : list Event            (* what has been done so far, oldest first *)
}.

Inductive outcome (A : Type) :=
| Returns (a : A)
| Panics
| Blocks             (* [Lock] on a mutex that is held *)
| Exits (code : Z).  (* [os.Exit(code)] *)

Arguments Returns {A} a.
Arguments Panics {A}.
Arguments Blocks {A}.
Arguments Exits {A} code.

Definition M (A : Type) : Type := State -> outcome A * State.

Definition ret {A} (a : A) : M A := fun s => (Returns a, s).

Definition bind {A B} (m : M A) (k : A -> M B) : M B := fun s =>
  match m s with
  | (Returns a, s') => k a s'
  | (Panics, s') => (Panics, s')
  | (Blocks, s') => (Blocks, s')
  | (Exits c, s') => (Exits c, s')
  end.

Notation "x <- m ;; k" := (bind m (fun x => k))
  (at level 100, m at next level, k at level 200, right associativity).
Notation "m ;;; k" := (bind m (fun _ => k))
  (at level 100, k at level 200, right associativity).

(** [defer d] around [m]: [d] runs when [m] returns and when it panics. *)
Definition defer {A} (d : State -> State) (m : M A) : M A := fun s =>
  let '(o, s') := m s in (o, d s').

Definition get_logger : M Logger := fun s => (Returns (logger s), s).

Definition set_logger (l : Logger) : M unit := fun s =>
  (Returns tt, {| logger := l; sinks := sinks s; events := events s |}).

Definition emit (ev : Event) : State -> State := fun s =>
  {| logger := logger s; sinks := sinks s; events := events s ++ [ev] |}.

Definition panic {A} : M A := fun s => (Panics, s).

Definition set_mutex (l : Logger) (b : bool) : Logger :=
  {| name := name l; level := level l; out := out l; color := color l;
     formatter := formatter l; mutex := b |}.

(** [l.mutex.Lock()] *)
Definition Lock : M unit := fun s =>
  if mutex (logger s) then (Blocks, s)
  else (Returns tt,
        emit EvLock {| logger := set_mutex (logger s) true;
                       sinks := sinks s; events := events s |}).

(** [l.mutex.Unlock()] *)
Definition Unlock : State -> State := fun s =>
  emit EvUnlock {| logger := set_mutex (logger s) false;
                   sinks := sinks s; events := events s |}.

(** [runtime.Caller(skip)] on the stack of the running goroutine. *)
Definition runtime_Caller (stack : Runtime.Stack) (skip : nat) : M (string * Z * bool) :=
  fun s => (Returns (Runtime.Caller stack skip), emit (EvCaller skip) s).

(** The call [l.formatter(level, msg, fields)]. *)
Definition call_formatter (e : Env) (lvl : LogLevel) (msg : string) (fields : LogFields)
  : M string := fun s =>
  let s' := emit (EvFormat lvl msg fields) s in
  match formatter (logger s) e lvl msg fields with
  | Some output => (Returns output, s')
  | None => (Panics, s')
  end.

(** [fmt.Fprintln(w, output)]: one [Write] of the operand followed by a
    newline; the error of the write is the result.  A nil writer panics. *)
Definition Fprintln (w : addr) (output : string) : M (option string) := fun s =>
  match sinks s !! w with
  | None => (Panics, s)
  | Some wr =>
      let p := output +:+ String "010" "" in
      let '(d, err) := write wr (data wr) p in
      (Returns err,
       emit (EvWrite w p err)
         {| logger := logger s;
            sinks := <[w := {| data := d; write := write wr |}]> (sinks s);
            events := events s |})
  end.

(** *** The methods of [*Logger]

    Every method takes the stack of its caller ([callers], innermost frame
    first) and pushes its own frame, at the line it has reached in
    [logger.go], for the calls it makes. *)

Definition logger_go : string := "github.com/KOFI-GYIMAH/go-logger/logger/logger.go".

Definition here (ln : Z) : Runtime.Frame := Runtime.mkFrame logger_go ln.

Definition NewLogger (nm : string) : Logger :=
  {| name := nm; level := LevelInfo; out := Stdout; color := true;
     formatter := defaultFormatter; mutex := false |}.

Definition SetLevel (lvl : LogLevel) : M unit :=
  l <- get_logger ;;
  set_logger {| name := name l; level := lvl; out := out l; color := color l;
                formatter := formatter l; mutex := mutex l |}.

Definition SetOutput (w : addr) : M unit :=
  l <- get_logger ;;
  set_logger {| name := name l; level := level l; out := w; color := color l;
                formatter := formatter l; mutex := mutex l |}.

Definition SetColor (enabled : bool) : M unit :=
  l <- get_logger ;;
  set_logger {| name := name l; level := level l; out := out l; color := enabled;
                formatter := formatter l; mutex := mutex l |}.

Definition SetFormatter (fn : Formatter) : M unit :=
  l <- get_logger ;;
  set_logger {| name := name l; level := level l; out := out l; color := color l;
                formatter := fn; mutex := mutex l |}.

(** [fileParts[len(fileParts)-3:]] when there are more than three parts. *)
Definition last3 (fileParts : list string) : list string :=
  if (3 <? length fileParts)%nat
  then drop (length fileParts - 3) fileParts
  else fileParts.

(** The caller-info token of a source position. *)
Definition caller_token (file : string) (line : Z) : string :=
  Join (last3 (Split file "/")) "/" +:+ ":" +:+ Itoa line.

Definition Log (e : Env) (callers : Runtime.Stack)
    (lvl : LogLevel) (msg : string) (fields : LogFields) : M unit :=
  l <- get_logger ;;
  if lvl <? level l then ret tt
  else
    fields <- (if is_empty (CallerInfo fields) then
                 r <- runtime_Caller (here 96 :: callers) 2 ;;
                 let '(file, line, _) := r in
                 ret (with_CallerInfo fields (caller_token file line))
               else ret fields) ;;
    let msg := ReplaceAll msg "010" " " in
    output <- call_formatter e lvl msg fields ;;
    let output := if negb (color l) then stripColors output else output in
    Lock ;;;
    defer Unlock
      (_ <- Fprintln (out l) output ;; ret tt).

(** [context.Context]: the values it carries and whether it is cancelled. *)
Record Context := mkContext { values : gmap string string; done : bool }.

Definition LogCtx (e : Env) (callers : Runtime.Stack) (ctx : Context)
    (lvl : LogLevel) (msg : string) (fields : LogFields) : M unit :=
  Log e (here 117 :: callers) lvl msg fields.

Definition os_Exit {A} (code : Z) : M A := fun s => (Exits code, s).

Definition Debug (e : Env) (callers : Runtime.Stack) (msg : string) (fields : LogFields) : M unit :=
  Log e (here 67 :: callers) LevelDebug msg fields.

Definition Info (e : Env) (callers : Runtime.Stack) (msg : string) (fields : LogFields) : M unit :=
  Log e (here 70 :: callers) LevelInfo msg fields.

Definition Warn (e : Env) (callers : Runtime.Stack) (msg : string) (fields : LogFields) : M unit :=
  Log e (here 73 :: callers) LevelWarn msg fields.

Definition Error (e : Env) (callers : Runtime.Stack) (msg : string) (fields : LogFields) : M unit :=
  Log e (here 76 :: callers) LevelError msg fields.

Definition Fatal (e : Env) (callers : Runtime.Stack) (msg : string) (fields : LogFields) : M unit :=
  Log e (here 79 :: callers) LevelFatal msg fields ;;;
  os_Exit 1.

(** The package-level helpers are the same calls on the default instance
    [log], made from lines 59 to 63. *)
Module Default.

Definition log : Logger := NewLogger "app".

Definition Debug (e : Env) (callers : Runtime.Stack) (msg : string) (fields : LogFields) : M unit :=
  Log e (here 59 :: callers) LevelDebug msg fields.

Definition Info (e : Env) (callers : Runtime.Stack) (msg : string) (fields : LogFields) : M unit :=
  Log e (here 60 :: callers) LevelInfo msg fields.

Definition Warn (e : Env) (callers : Runtime.Stack) (msg : string) (fields : LogFields) : M unit :=
  Log e (here 61 :: callers) LevelWarn msg fields.

Definition Error (e : Env) (callers : Runtime.Stack) (msg : string) (fields : LogFields) : M unit :=
  Log e (here 62 :: callers) LevelError msg fields.

Definition Fatal (e : Env) (callers : Runtime.Stack) (msg : string) (fields : LogFields) : M unit :=
  Log e (here 63 :: callers) LevelFatal msg fields ;;;
  os_Exit 1.

End Default.

(** *** Vocabulary of the statements below *)

(** The fields a call of [Log] hands to the formatter. *)
Definition fields_for_formatter (callers : Runtime.Stack) (fields : LogFields) : LogFields :=
  if is_empty (CallerInfo fields) then
    let '(file, line, _) := Runtime.Caller (here 96 :: callers) 2 in
    with_CallerInfo fields (caller_token file line)
  else fields.

(** The stack inspection a call of [Log] makes. *)
Definition capture_events (fields : LogFields) : list Event :=
  if is_empty (CallerInfo fields) then [EvCaller 2] else [].

(** The newline byte. *)
Definition LF : ascii := "010".

(** What remains of a state when the functions it holds are set aside. *)
Definition contents (s : State) : gmap addr string := data <$> sinks s.

(** The writes recorded in a trace. *)
Definition writes (evs : list Event) : list (addr * string) :=
  omap (fun ev => match ev with EvWrite w p _ => Some (w, p) | _ => None end) evs.

(** The state of a call once the formatter has been called. *)
Definition formatted (callers : Runtime.Stack) (lvl : LogLevel) (msg : string)
    (fields : LogFields) (s : State) : State :=
  {| logger := logger s; sinks := sinks s;
     events := events s ++ capture_events fields ++
               [EvFormat lvl (ReplaceAll msg LF " ") (fields_for_formatter callers fields)] |}.

(** The line a call writes, from what the formatter returned. *)
Definition line_of (s : State) (rendered : string) : string :=
  (if negb (color (logger s)) then stripColors rendered else rendered) +:+ String LF "".

(** The state after the write, from what the writer made of it. *)
Definition written (callers : Runtime.Stack) (lvl : LogLevel) (msg : string)
    (fields : LogFields) (s : State) (rendered d : string) (err : option string)
    (wr : Writer) : State :=
  {| logger := logger s;
     sinks := <[out (logger s) := {| data := d; write := write wr |}]> (sinks s);
     events := events (formatted callers lvl msg fields s) ++
               [EvLock; EvWrite (out (logger s)) (line_of s rendered) err; EvUnlock] |}.

(** One escape sequence inside another: [ESC [ ESC [ 0 m 0 m]. *)
Definition nested_csi : string := String ESC "[" +:+ String ESC "[0m" +:+ "0m".

(** A member of an object of strings, as it is written and as it reads. *)
Definition member_text (kv : string * string) : string :=
  Json.appendString kv.1 +:+ ":" +:+ Json.appendString kv.2.

Definition member_value (kv : string * string) : string * Json.value :=
  (Json.text kv.1, Json.JString (Json.text kv.2)).

(** The line shape the specification gives for the text formatter,
    [[LEVEL] timestamp [method path] [status] [size] [latency] - message -
    callerInfo], as the list of its pieces with their colours.  A group is
    present when its fields are supplied: the method and the path together,
    the others each on its own. *)
Definition group {A} (present : bool) (x : A) : list A :=
  if present then [x] else [].

Definition layout (tag : string * Color.Attribute) (timestamp message : string)
    (fields : LogFields) : list (Color.Attribute * string) :=
  [ (tag.2, "[" +:+ tag.1 +:+ "]"); (Color.FgHiWhite, timestamp) ]
  ++ group (nonempty (Method fields) && nonempty (Path fields))
           (Color.FgHiBlue, Method fields +:+ " " +:+ Path fields)
  ++ group (nonempty (Status fields)) (Color.FgHiGreen, Status fields)
  ++ group (nonempty (Size fields)) (Color.FgHiYellow, Size fields)
  ++ group (nonempty (Latency fields)) (Color.FgHiMagenta, Latency fields)
  ++ [ (Color.FgHiWhite, "-"); (Color.FgCyan, message);
       (Color.FgHiWhite, "-"); (Color.FgHiBlue, CallerInfo fields) ].

(** The pieces painted and joined by single spaces. *)
Definition render (NoColor : bool) (pieces : list (Color.Attribute * string)) : string :=
  Join ((fun p => Color.Sprint NoColor p.1 p.2) <$> pieces) " ".

(** No field of [fields] contains the byte [c]. *)
Definition fields_lack (c : ascii) (fields : LogFields) : Prop :=
  has_byte c (Method fields) = false /\ has_byte c (Path fields) = false /\
  has_byte c (Status fields) = false /\ has_byte c (Size fields) = false /\
  has_byte c (Latency fields) = false /\ has_byte c (CallerInfo fields) = false.

(** *** A concrete logger, used to exercise the statements below *)

Module Example.

Definition clock : Time.Time := Time.mkTime 2025 6 14 12 30 25 0.

Definition env : Env := mkEnv clock false.

(** The goroutine runs [main.main], started by [runtime.main]. *)
Definition stack : Runtime.Stack :=
  [ Runtime.mkFrame "/home/dev/shop/cmd/api/main.go" 12;
    Runtime.mkFrame "/usr/local/go/src/runtime/proc.go" 283 ].

Definition buf : addr := 7%nat.

(** A logger writing to a buffer, colour disabled, minimum level [lvl]. *)
Definition lg (lvl : LogLevel) (fn : Formatter) : Logger :=
  {| name := "test"; level := lvl; out := buf; color := false;
     formatter := fn; mutex := false |}.

Definition st (lvl : LogLevel) (fn : Formatter) : State :=
  {| logger := lg lvl fn; sinks := {[ buf := Buffer "" ]}; events := [] |}.

(** A writer whose every write fails. *)
Definition broken : Writer :=
  {| data := ""; write := fun d _ => (d, Some "write: broken pipe") |}.

Definition st_broken (lvl : LogLevel) (fn : Formatter) : State :=
  {| logger := lg lvl fn; sinks := {[ buf := broken ]}; events := [] |}.

Definition checkout : LogFields := NewLogFields "POST" "/api/checkout" "200 OK" "51KB" "120ms".

(** The same process with colour switched off in package [color]. *)
Definition plain_env : Env := mkEnv clock true.

(** A process whose heap holds standard output and one buffer, and a
    logger as [NewLogger] makes it. *)
Definition fresh (nm : string) : State :=
  {| logger := NewLogger nm;
     sinks := {[ Stdout := Buffer ""; buf := Buffer "" ]};
     events := [] |}.

(** The formatter of the README: [[level] path - message]. *)
Definition minimal : Formatter := fun _ lvl message fields =>
  Some ("[" +:+ LogLevel_String lvl +:+ "] " +:+ Path fields +:+ " - " +:+ message).

End Example.

(** *** Vocabulary of the further properties *)

(** The number of occurrences of the byte [c] in [s]. *)
Fixpoint count_byte (c : ascii) (s : string) : nat :=
  match s with
  | "" => O
  | String d s' => ((if Ascii.eqb d c then 1 else 0) + count_byte c s')%nat
  end.

(** The bytes the pattern of [stripColors] can match. *)
Definition is_csi_byte (c : ascii) : bool :=
  Ascii.eqb c ESC || Ascii.eqb c "[" || is_param c || is_final c.

(** The upper-case form of an ASCII letter, and of a string. *)
Definition upper (c : ascii) : ascii :=
  if Json.in_range 97 122 c then ascii_of_N (N_of_ascii c - 32) else c.

Fixpoint to_upper (s : string) : string :=
  match s with
  | "" => ""
  | String c s' => String (upper c) (to_upper s')
  end.

(** A byte that JSON text written by [json.Marshal] may hold as it is:
    no control byte, and none of the three bytes escaped for HTML. *)
Definition json_plain (c : ascii) : bool :=
  Json.printable c &&
  match c with
  | "<" | ">" | "&" => false
  | _ => true
  end%char.

(** Every ESC byte of [s] starts a match of the pattern of [stripColors]. *)
Fixpoint escapes_matched (s : string) : bool :=
  match s with
  | "" => true
  | String c s' =>
      (negb (Ascii.eqb c ESC) || bool_decide (is_Some (csi_match (String c s'))))
      && escapes_matched s'
  end.

(** In every field of [fields], every ESC byte starts a match. *)
Definition fields_matched (fields : LogFields) : Prop :=
  escapes_matched (Method fields) = true /\ escapes_matched (Path fields) = true /\
  escapes_matched (Status fields) = true /\ escapes_matched (Size fields) = true /\
  escapes_matched (Latency fields) = true /\ escapes_matched (CallerInfo fields) = true.

(** A string cut into pieces: text without ESC, and escape sequences
    [ESC [ params final]. *)
Inductive piece :=
| Text (t : string)
| Sequence (params : string) (final : ascii).

Definition well_formed (p : piece) : bool :=
  match p with
  | Text t => negb (has_byte ESC t)
  | Sequence params final => all_bytes is_param params && is_final final
  end.

Definition bytes_of (p : piece) : string :=
  match p with
  | Text t => t
  | Sequence params final => String ESC ("[" +:+ params +:+ String final "")
  end.

Definition text_of (p : piece) : string :=
  match p with
  | Text t => t
  | Sequence _ _ => ""
  end.

(** The strings of a list one after the other. *)
Definition flatten (parts : list string) : string :=
  foldr (fun x rest => x +:+ rest) "" parts.

(** Two runs that end alike: the same outcome, logger and writers, and the
    same writes made. *)
Definition same_effect (a b : outcome unit * State) : Prop :=
  a.1 = b.1 /\ logger a.2 = logger b.2 /\ sinks a.2 = sinks b.2 /\
  writes (events a.2) = writes (events b.2).

(** The value a JSON member has for a field: none when the field is empty. *)
Definition read_back (x : string) : option Json.value :=
  if nonempty x then Some (Json.JString (Json.text x)) else None.


(** * Part II: properties *)

(** ** Byte strings *)

Section GoStringFacts.

Lemma sapp_cons (c : ascii) (s t : string) :
  String c s +:+ t = String c (s +:+ t).
Proof. reflexivity. Qed.

Lemma sapp_nil_r (s : string) : s +:+ "" = s.
Proof.
  induction s as [|c s IH]; [reflexivity|].
  rewrite sapp_cons, IH. reflexivity.
Qed.

Lemma sapp_assoc (s t u : string) : (s +:+ t) +:+ u = s +:+ (t +:+ u).
Proof.
  induction s as [|c s IH]; [reflexivity|].
  rewrite !sapp_cons, IH. reflexivity.
Qed.

Lemma slength_app (s t : string) :
  String.length (s +:+ t) = (String.length s + String.length t)%nat.
Proof.
  induction s as [|c s IH]; [reflexivity|].
  rewrite sapp_cons. simpl. rewrite IH. reflexivity.
Qed.

Lemma has_byte_app c s t :
  has_byte c (s +:+ t) = has_byte c s || has_byte c t.
Proof.
  induction s as [|d s IH]; [reflexivity|].
  rewrite sapp_cons. simpl. rewrite IH, orb_assoc. reflexivity.
Qed.

Lemma ReplaceAll_length s old new :
  String.length (ReplaceAll s old new) = String.length s.
Proof. induction s as [|c s IH]; simpl; congruence. Qed.

Lemma ReplaceAll_get s old new i :
  String.get i (ReplaceAll s old new) =
  (fun c => if Ascii.eqb c old then new else c) <$> String.get i s.
Proof.
  revert i. induction s as [|c s IH]; intros i; simpl; [reflexivity|].
  destruct i; [reflexivity|]. apply IH.
Qed.

Lemma ReplaceAll_gone s old new :
  old <> new -> has_byte old (ReplaceAll s old new) = false.
Proof.
  intros Hne. induction s as [|c s IH]; simpl; [reflexivity|].
  rewrite IH, orb_false_r.
  destruct (Ascii.eqb_spec c old) as [->|Hc].
  - apply Ascii.eqb_neq. congruence.
  - apply Ascii.eqb_neq. assumption.
Qed.

Lemma all_bytes_app P s t : all_bytes P (s +:+ t) = all_bytes P s && all_bytes P t.
Proof.
  induction s as [|c s IH]; [reflexivity|].
  rewrite sapp_cons. simpl. rewrite IH, andb_assoc. reflexivity.
Qed.

Lemma all_bytes_weaken (P Q : ascii -> bool) s :
  (forall c, P c = true -> Q c = true) -> all_bytes P s = true -> all_bytes Q s = true.
Proof.
  intros HPQ. induction s as [|c s IH]; simpl; [reflexivity|].
  intros H. apply andb_true_iff in H as [Hc Hs].
  rewrite (HPQ c Hc), (IH Hs). reflexivity.
Qed.

Lemma all_bytes_not c s :
  all_bytes (fun d => negb (Ascii.eqb d c)) s = negb (has_byte c s).
Proof.
  induction s as [|d s IH]; simpl; [reflexivity|].
  rewrite IH, negb_orb. reflexivity.
Qed.

(** A string whose bytes all lie in a class that excludes [c] lacks [c]. *)
Lemma all_bytes_lacks P c s :
  P c = false -> all_bytes P s = true -> has_byte c s = false.
Proof.
  intros Hc H. apply negb_true_iff. rewrite <- all_bytes_not.
  revert H. apply all_bytes_weaken. intros d Hd.
  apply negb_true_iff, Ascii.eqb_neq. intros ->. congruence.
Qed.

Lemma Join_snoc (elems : list string) (x sep : string) :
  elems <> [] -> Join (elems ++ [x]) sep = Join elems sep +:+ sep +:+ x.
Proof.
  induction elems as [|a [|b rest] IH]; intros Hne; [congruence|reflexivity|].
  change (Join ((a :: b :: rest) ++ [x]) sep)
    with (a +:+ sep +:+ Join ((b :: rest) ++ [x]) sep).
  rewrite IH by discriminate.
  change (Join (a :: b :: rest) sep) with (a +:+ sep +:+ Join (b :: rest) sep).
  rewrite !sapp_assoc. reflexivity.
Qed.

Lemma Join_cons (a b : string) (rest : list string) (sep : string) :
  Join (a :: b :: rest) sep = a +:+ sep +:+ Join (b :: rest) sep.
Proof. reflexivity. Qed.

Lemma all_bytes_Join P (elems : list string) sep :
  all_bytes P sep = true ->
  Forall (fun x => all_bytes P x = true) elems ->
  all_bytes P (Join elems sep) = true.
Proof.
  intros Hsep. induction 1 as [|a rest Ha Hrest IH]; [reflexivity|].
  destruct rest as [|b rest]; [exact Ha|].
  rewrite Join_cons, !all_bytes_app, Ha, Hsep, IH. reflexivity.
Qed.

End GoStringFacts.

(** ** Time stamps *)

Section TimeFacts.

Import Time.

Lemma digit_is_digit d : is_digit (digit d) = true.
Proof.
  unfold digit.
  assert (0 <= d mod 10 < 10) as H by (apply Z.mod_pos_bound; lia).
  assert (d mod 10 = 0 \/ d mod 10 = 1 \/ d mod 10 = 2 \/ d mod 10 = 3 \/ d mod 10 = 4 \/
          d mod 10 = 5 \/ d mod 10 = 6 \/ d mod 10 = 7 \/ d mod 10 = 8 \/ d mod 10 = 9)
    as Hd by lia.
  repeat (destruct Hd as [-> | Hd]; [reflexivity|]). rewrite Hd. reflexivity.
Qed.

Lemma low_digits_bytes w u : all_bytes is_digit (low_digits w u) = true.
Proof.
  revert u. induction w as [|w IH]; intros u; [reflexivity|].
  cbn [low_digits]. rewrite all_bytes_app, IH. cbn. rewrite digit_is_digit. reflexivity.
Qed.

Lemma uint_bytes d : all_bytes is_digit (NilEmpty.string_of_uint d) = true.
Proof. induction d; cbn; auto. Qed.

Lemma digit_is_stamp c : is_digit c = true -> is_stamp_byte c = true.
Proof. unfold is_stamp_byte. intros ->. reflexivity. Qed.

Lemma Itoa_bytes n : all_bytes is_stamp_byte (Itoa n) = true.
Proof.
  unfold Itoa, NilZero.string_of_int.
  assert (forall d, all_bytes is_stamp_byte (NilZero.string_of_uint d) = true) as Hu.
  { intros d. unfold NilZero.string_of_uint.
    destruct d; try reflexivity;
      apply (all_bytes_weaken is_digit); auto using digit_is_stamp;
      apply (uint_bytes (_ _)). }
  destruct (Z.to_int n); cbn; rewrite ?Hu; reflexivity.
Qed.

Lemma appendInt_bytes x w : all_bytes is_stamp_byte (appendInt x w) = true.
Proof.
  unfold appendInt.
  assert (all_bytes is_stamp_byte
            (if Z.abs x <? 10 ^ Z.of_nat w then low_digits w (Z.abs x) else Itoa (Z.abs x))
          = true) as H.
  { destruct (_ <? _); [|apply Itoa_bytes].
    apply (all_bytes_weaken is_digit); auto using digit_is_stamp, low_digits_bytes. }
  destruct (x <? 0); cbn; rewrite ?H; reflexivity.
Qed.

Lemma appendZone_bytes off : all_bytes is_stamp_byte (appendZone off) = true.
Proof.
  unfold appendZone. destruct (off =? 0); [reflexivity|].
  rewrite !all_bytes_app, !appendInt_bytes.
  destruct (_ <? 0); reflexivity.
Qed.

(** Whatever the clock says, its stamp is made of digits and of the
    separators of the layout. *)
Lemma FormatRFC3339_bytes t : all_bytes is_stamp_byte (FormatRFC3339 t) = true.
Proof.
  unfold FormatRFC3339.
  rewrite !all_bytes_app, !appendInt_bytes, appendZone_bytes. reflexivity.
Qed.

Lemma FormatRFC3339_lacks c t : is_stamp_byte c = false -> has_byte c (FormatRFC3339 t) = false.
Proof. intros Hc. apply (all_bytes_lacks is_stamp_byte); auto using FormatRFC3339_bytes. Qed.

Lemma take_low_digits w k u rest :
  take_digits (w + k) (low_digits w u +:+ rest) = take_digits k rest.
Proof.
  revert k u rest. induction w as [|w IH]; intros k u rest; [reflexivity|].
  cbn [low_digits]. rewrite sapp_assoc.
  replace (S w + k)%nat with (w + S k)%nat by lia.
  rewrite IH, sapp_cons. cbn [take_digits]. rewrite digit_is_digit. reflexivity.
Qed.

Lemma appendInt_small x (w : nat) :
  0 <= x < 10 ^ Z.of_nat w -> appendInt x w = low_digits w x.
Proof.
  intros [H0 H1]. unfold appendInt.
  rewrite Z.abs_eq by assumption.
  assert ((x <? 10 ^ Z.of_nat w) = true) as -> by (apply Z.ltb_lt; assumption).
  assert ((x <? 0) = false) as -> by (apply Z.ltb_ge; assumption).
  reflexivity.
Qed.

Lemma take_appendInt x (w : nat) rest :
  0 <= x < 10 ^ Z.of_nat w -> take_digits w (appendInt x w +:+ rest) = Some rest.
Proof.
  intros H. rewrite appendInt_small by assumption.
  rewrite <- (Nat.add_0_r w) at 1. apply take_low_digits.
Qed.

Lemma zone_ok_appendZone off : -86400 < off < 86400 -> zone_ok (appendZone off) = true.
Proof.
  intros H. unfold appendZone.
  destruct (off =? 0); [reflexivity|].
  set (zone := Z.quot off 60).
  assert (-1440 <= zone <= 1440) as Hz.
  { subst zone. split.
    - apply Z.quot_le_lower_bound; lia.
    - apply Z.quot_le_upper_bound; lia. }
  assert (0 <= Z.abs zone / 60 < 10 ^ Z.of_nat 2) as Hh.
  { split; [apply Z.div_pos; lia|]. apply Z.div_lt_upper_bound; lia. }
  assert (0 <= Z.abs zone mod 60 < 10 ^ Z.of_nat 2) as Hm.
  { pose proof (Z.mod_pos_bound (Z.abs zone) 60). lia. }
  assert (forall sign, (Ascii.eqb sign "+" || Ascii.eqb sign "-") = true ->
            zone_ok (String sign "" +:+ appendInt (Z.abs zone / 60) 2 +:+ ":"
                     +:+ appendInt (Z.abs zone mod 60) 2) = true) as Hs.
  { intros sign Hsign. rewrite sapp_cons. cbn [zone_ok].
    destruct (Ascii.eqb sign "Z") eqn:HZ.
    { apply Ascii.eqb_eq in HZ. subst sign. discriminate Hsign. }
    rewrite Hsign. cbn [andb].
    change ("" +:+ ?x) with x.
    rewrite take_appendInt by assumption. cbn [and_then].
    rewrite sapp_cons. cbn [expect]. rewrite Ascii.eqb_refl. cbn [and_then].
    change ("" +:+ ?x) with x.
    rewrite <- (sapp_nil_r (appendInt (Z.abs zone mod 60) 2)).
    rewrite take_appendInt by assumption. reflexivity. }
  destruct (zone <? 0); apply Hs; reflexivity.
Qed.

(** The stamp of a civil time is an RFC 3339 date-time. *)
Lemma FormatRFC3339_valid t : valid t -> is_rfc3339 (FormatRFC3339 t) = true.
Proof.
  intros (Hy & Hmo & Hd & Hh & Hmi & Hs & Hz).
  unfold is_rfc3339, FormatRFC3339.
  repeat first
    [ rewrite take_appendInt by (cbn; lia); cbn [and_then]
    | rewrite sapp_cons; cbn [expect]; rewrite Ascii.eqb_refl; cbn [and_then];
      change ("" +:+ ?x) with x ].
  apply zone_ok_appendZone. assumption.
Qed.

End TimeFacts.

(** ** Colour stripping *)

Section StripFacts.

(** The scan, as one unfolding equation and as two rewriting rules. *)
Lemma stripColors_step s :
  stripColors s =
  match csi_match s with
  | Some rest => stripColors rest
  | None => match s with
            | "" => ""
            | String c s' => String c (stripColors s')
            end
  end.
Proof.
  funelim (stripColors s);
    try match goal with e : csi_match _ = _ |- _ => rewrite e end; reflexivity.
Qed.

Lemma stripColors_match s rest :
  csi_match s = Some rest -> stripColors s = stripColors rest.
Proof. intros H. rewrite stripColors_step, H. reflexivity. Qed.

Lemma stripColors_skip c s :
  csi_match (String c s) = None ->
  stripColors (String c s) = String c (stripColors s).
Proof. intros H. rewrite stripColors_step, H. reflexivity. Qed.

Lemma has_csi_cons c s :
  has_csi (String c s) = false ->
  csi_match (String c s) = None /\ has_csi s = false.
Proof.
  cbn [has_csi]. intros H. apply orb_false_iff in H as [H1 H2].
  split; [|assumption].
  apply bool_decide_eq_false in H1.
  destruct (csi_match (String c s)); [|reflexivity].
  exfalso. apply H1. eexists. reflexivity.
Qed.

(** A string without a match is left as it is. *)
Lemma stripColors_clean s : has_csi s = false -> stripColors s = s.
Proof.
  induction s as [|c s IH]; intros H; [reflexivity|].
  apply has_csi_cons in H as [Hm Hs].
  rewrite stripColors_skip by assumption. rewrite IH by assumption. reflexivity.
Qed.

(** A match starts with ESC. *)
Lemma csi_match_head c s : c <> ESC -> csi_match (String c s) = None.
Proof.
  intros Hc. unfold csi_match. destruct s as [|c2 s]; [reflexivity|].
  apply Ascii.eqb_neq in Hc. rewrite Hc. reflexivity.
Qed.

Lemma no_esc_no_csi s : has_byte ESC s = false -> has_csi s = false.
Proof.
  induction s as [|c s IH]; [reflexivity|]. cbn [has_byte has_csi].
  intros H. apply orb_false_iff in H as [Hc Hs].
  rewrite IH by assumption. rewrite orb_false_r.
  apply bool_decide_eq_false. rewrite csi_match_head.
  - intros [x Hx]. discriminate.
  - apply Ascii.eqb_neq. assumption.
Qed.

(** Text without ESC passes through, whatever follows it. *)
Lemma stripColors_plain s t :
  has_byte ESC s = false -> stripColors (s +:+ t) = s +:+ stripColors t.
Proof.
  induction s as [|c s IH]; intros H; [reflexivity|].
  cbn [has_byte] in H. apply orb_false_iff in H as [Hc Hs].
  rewrite !sapp_cons, stripColors_skip.
  - rewrite IH by assumption. reflexivity.
  - apply csi_match_head. apply Ascii.eqb_neq. assumption.
Qed.

(** Stripping never lengthens. *)
Lemma stripColors_length (n : nat) : forall s,
  (String.length s <= n)%nat -> (String.length (stripColors s) <= String.length s)%nat.
Proof.
  induction n as [n IH] using lt_wf_ind. intros s Hn.
  rewrite stripColors_step. destruct (csi_match s) as [rest|] eqn:Hm.
  - pose proof (csi_match_shorter _ _ Hm) as Hlt.
    specialize (IH (String.length rest) ltac:(lia) rest ltac:(lia)). lia.
  - destruct s as [|c s']; [reflexivity|]. cbn [String.length] in *.
    specialize (IH (String.length s') ltac:(lia) s' ltac:(lia)). lia.
Qed.

(** Only strings without a match are left as they are. *)
Lemma stripColors_fixed s : stripColors s = s -> has_csi s = false.
Proof.
  induction s as [|c s IH]; [reflexivity|].
  rewrite stripColors_step. cbn [has_csi].
  destruct (csi_match (String c s)) as [rest|] eqn:Hm.
  - intros H. exfalso.
    pose proof (csi_match_shorter _ _ Hm) as Hlt.
    pose proof (stripColors_length (String.length rest) rest ltac:(lia)) as Hle.
    rewrite H in Hle. lia.
  - intros [= H]. rewrite (IH H). apply orb_false_iff. split; [|reflexivity].
    apply bool_decide_eq_false. intros [x Hx]. discriminate.
Qed.

End StripFacts.

(** ** The run of a call of [Log] *)

Section LogRun.

Variables (e : Env) (callers : Runtime.Stack).
Variables (lvl : LogLevel) (msg : string) (fields : LogFields).
Variable s : State.

Let msg' := ReplaceAll msg LF " ".
Let fields' := fields_for_formatter callers fields.

(** Below the minimum level the call returns at once. *)
Lemma Log_suppressed :
  lvl < level (logger s) -> Log e callers lvl msg fields s = (Returns tt, s).
Proof.
  intros H. unfold Log, bind, get_logger, ret.
  apply Z.ltb_lt in H. rewrite H. reflexivity.
Qed.

Lemma Log_prepare :
  level (logger s) <= lvl ->
  Log e callers lvl msg fields s =
  match formatter (logger s) e lvl msg' fields' with
  | None => (Panics, formatted callers lvl msg fields s)
  | Some rendered =>
      let output := if negb (color (logger s)) then stripColors rendered else rendered in
      (Lock ;;; defer Unlock (_ <- Fprintln (out (logger s)) output ;; ret tt))
        (formatted callers lvl msg fields s)
  end.
Proof.
  intros H. unfold Log, bind at 1, get_logger.
  assert ((lvl <? level (logger s)) = false) as -> by (apply Z.ltb_ge; assumption).
  unfold formatted, fields', fields_for_formatter, capture_events, msg'.
  destruct s as [lg sk evs]; cbn [logger sinks events].
  destruct (is_empty (CallerInfo fields)).
  - unfold bind, runtime_Caller, ret, call_formatter, emit; cbn.
    destruct (Runtime.Caller (here 96 :: callers) 2) as [[f ln] ok]; cbn.
    rewrite <- (assoc_L (++)); cbn.
    destruct (formatter lg e lvl _ _); reflexivity.
  - unfold bind, ret, call_formatter, emit; cbn.
    destruct (formatter lg e lvl _ _); reflexivity.
Qed.

Lemma set_mutex_unlocked (lg : Logger) :
  mutex lg = false -> set_mutex (set_mutex lg true) false = lg.
Proof. destruct lg; cbn. intros ->. reflexivity. Qed.

(** A call at or above the minimum level, in normal operation: the mutex
    is free, the formatter returns, the sink exists. *)
Lemma Log_run rendered wr d err :
  level (logger s) <= lvl ->
  mutex (logger s) = false ->
  formatter (logger s) e lvl msg' fields' = Some rendered ->
  sinks s !! out (logger s) = Some wr ->
  write wr (data wr) (line_of s rendered) = (d, err) ->
  Log e callers lvl msg fields s
  = (Returns tt, written callers lvl msg fields s rendered d err wr).
Proof.
  intros Hlvl Hmx Hfmt Hsink Hwr.
  rewrite Log_prepare by assumption. rewrite Hfmt. cbv zeta.
  unfold bind, Lock, defer, Fprintln, ret, Unlock, emit, formatted, written.
  cbn [logger sinks events]. rewrite Hmx.
  cbn [logger sinks events set_mutex out].
  rewrite Hsink. unfold line_of in Hwr |- *. fold LF. rewrite Hwr.
  cbn [logger sinks events].
  f_equal. f_equal.
  - fold (set_mutex (set_mutex (logger s) true) false).
    apply set_mutex_unlocked; assumption.
  - unfold formatted; cbn [events]. rewrite <- !(assoc_L (++)). reflexivity.
Qed.

(** The formatter panics: nothing is locked, nothing is written. *)
Lemma Log_formatter_panics :
  level (logger s) <= lvl ->
  formatter (logger s) e lvl msg' fields' = None ->
  Log e callers lvl msg fields s = (Panics, formatted callers lvl msg fields s).
Proof. intros Hlvl Hfmt. rewrite Log_prepare by assumption. rewrite Hfmt. reflexivity. Qed.

(** Whatever happens, the caller finds the logger as it left it. *)
Lemma Log_logger :
  logger (Log e callers lvl msg fields s).2 = logger s.
Proof.
  destruct (Z.lt_ge_cases lvl (level (logger s))) as [H|H].
  - rewrite Log_suppressed by assumption. reflexivity.
  - rewrite Log_prepare by assumption.
    destruct (formatter (logger s) e lvl msg' fields') as [rendered|]; [|reflexivity].
    cbv zeta. unfold bind, Lock, defer, Fprintln, ret, Unlock, emit, formatted.
    cbn [logger sinks events].
    destruct (mutex (logger s)) eqn:Hmx; [reflexivity|].
    cbn [logger sinks events set_mutex out].
    destruct (sinks s !! out (logger s)) as [wr|]; cbn.
    + destruct (write wr _ _); cbn.
      fold (set_mutex (set_mutex (logger s) true) false).
      apply set_mutex_unlocked; assumption.
    + fold (set_mutex (set_mutex (logger s) true) false).
      apply set_mutex_unlocked; assumption.
Qed.

End LogRun.

Section LogFacts.

Variables (e : Env) (callers : Runtime.Stack).
Variables (lvl : LogLevel) (msg : string) (fields : LogFields).

(** [Log] looks at the stack only when no caller info is supplied, and
    then only at the frame [runtime.Caller(2)] names: the caller of its
    caller. *)
Lemma Log_stack_frame callers' s :
  callers !! 1%nat = callers' !! 1%nat ->
  Log e callers lvl msg fields s = Log e callers' lvl msg fields s.
Proof.
  intros H. unfold Log, runtime_Caller, Runtime.Caller.
  change ((here 96 :: callers) !! 2%nat) with (callers !! 1%nat).
  change ((here 96 :: callers') !! 2%nat) with (callers' !! 1%nat).
  rewrite H. reflexivity.
Qed.

Lemma Log_stack_unused callers' s :
  is_empty (CallerInfo fields) = false \/ lvl < level (logger s) ->
  Log e callers lvl msg fields s = Log e callers' lvl msg fields s.
Proof.
  intros [H|H].
  - unfold Log. rewrite H. reflexivity.
  - rewrite !Log_suppressed by assumption. reflexivity.
Qed.

(** The locked section adds to the trace and removes nothing from it. *)
Lemma Log_events_extend s :
  level (logger s) <= lvl ->
  exists rest,
    events (Log e callers lvl msg fields s).2 =
    events s ++ capture_events fields ++
    EvFormat lvl (ReplaceAll msg LF " ") (fields_for_formatter callers fields) :: rest.
Proof.
  intros H. rewrite Log_prepare by assumption.
  destruct (formatter _ _ _ _ _) as [rendered|].
  - cbv zeta. unfold bind, Lock, defer, Fprintln, ret, Unlock, emit, formatted.
    cbn [logger sinks events].
    destruct (mutex (logger s)).
    + exists []. cbn. reflexivity.
    + cbn [logger sinks events set_mutex out].
      destruct (sinks s !! out (logger s)) as [wr|]; cbn.
      * destruct (write wr _ _) as [d err]; cbn.
        eexists. rewrite <- !(assoc_L (++)). cbn. reflexivity.
      * eexists. rewrite <- !(assoc_L (++)). cbn. reflexivity.
  - exists []. reflexivity.
Qed.

End LogFacts.

Lemma writes_app evs evs' : writes (evs ++ evs') = writes evs ++ writes evs'.
Proof. unfold writes. apply omap_app. Qed.

Lemma writes_capture fields : writes (capture_events fields) = [].
Proof. unfold capture_events. destruct (is_empty _); reflexivity. Qed.

Lemma writes_written callers lvl msg fields s rendered d err wr :
  writes (events (written callers lvl msg fields s rendered d err wr)) =
  writes (events s) ++ [(out (logger s), line_of s rendered)].
Proof.
  unfold written, formatted. cbn [events].
  rewrite !writes_app, writes_capture. cbn. rewrite app_nil_r. reflexivity.
Qed.

(** ** Level filtering *)

(** C1. With minimum level [L2], a call at a level [L1 < L2] returns at once
    and leaves the state as it was: nothing is written and the stack is not
    inspected.  A call at a level [L >= L2] (the mutex free, the formatter
    returning [rendered], the sink a writer) makes one write to the sink, of
    the rendered string (stripped when colour is disabled) followed by a
    newline, and the sink is what the writer made of that write. *)
Theorem Log_level_filter e callers (L1 L2 L : LogLevel) msg fields s rendered wr d err :
  L1 < L2 ->
  level (logger s) = L2 ->
  L2 <= L ->
  mutex (logger s) = false ->
  formatter (logger s) e L (ReplaceAll msg LF " ")
            (fields_for_formatter callers fields) = Some rendered ->
  sinks s !! out (logger s) = Some wr ->
  write wr (data wr) (line_of s rendered) = (d, err) ->
  Log e callers L1 msg fields s = (Returns tt, s) /\
  (exists s',
     Log e callers L msg fields s = (Returns tt, s') /\
     writes (events s') = writes (events s) ++ [(out (logger s), line_of s rendered)] /\
     line_of s rendered =
       (if color (logger s) then rendered else stripColors rendered) +:+ String LF "" /\
     sinks s' = <[out (logger s) := {| data := d; write := write wr |}]> (sinks s) /\
     logger s' = logger s).
Proof.
  intros HL Hmin HL2 Hmx Hfmt Hsink Hwr. split.
  - apply Log_suppressed. lia.
  - exists (written callers L msg fields s rendered d err wr). split; [|split; [|split; [|split]]].
    + apply Log_run; try assumption. lia.
    + apply writes_written.
    + unfold line_of. destruct (color (logger s)); reflexivity.
    + reflexivity.
    + reflexivity.
Qed.

(** The scenario of the specification: minimum level [Error], a buffer as
    sink; the [Info] call leaves the buffer empty, the [Error] call puts one
    line in it. *)
Lemma Log_level_filter_witness :
  let s := Example.st LevelError defaultFormatter in
  Log Example.env Example.stack LevelInfo "this should appear" Example.checkout s
    = (Returns tt, s) /\
  exists s',
    Log Example.env Example.stack LevelError "this should appear" Example.checkout s
      = (Returns tt, s') /\
    data <$> (sinks s' !! Example.buf) =
      Some ("[ERROR] 2025-06-14T12:30:25Z POST /api/checkout 200 OK 51KB 120ms - this should appear - src/runtime/proc.go:283"
            +:+ String LF "").
Proof.
  intros s.
  destruct (Log_level_filter Example.env Example.stack LevelInfo LevelError LevelError
              "this should appear" Example.checkout s
              (String ESC "[91m[ERROR]" +:+ String ESC "[0m " +:+
               String ESC "[97m2025-06-14T12:30:25Z" +:+ String ESC "[0m " +:+
               String ESC "[94mPOST /api/checkout" +:+ String ESC "[0m " +:+
               String ESC "[92m200 OK" +:+ String ESC "[0m " +:+
               String ESC "[93m51KB" +:+ String ESC "[0m " +:+
               String ESC "[95m120ms" +:+ String ESC "[0m " +:+
               String ESC "[97m-" +:+ String ESC "[0m " +:+
               String ESC "[36mthis should appear" +:+ String ESC "[0m " +:+
               String ESC "[97m-" +:+ String ESC "[0m " +:+
               String ESC "[94msrc/runtime/proc.go:283" +:+ String ESC "[0m")
              (Buffer "")
              ("[ERROR] 2025-06-14T12:30:25Z POST /api/checkout 200 OK 51KB 120ms - this should appear - src/runtime/proc.go:283"
               +:+ String LF "")
              None)
    as [Hlow (s' & Hrun & _ & _ & Hsinks & _)].
  - unfold LevelInfo, LevelError. lia.
  - reflexivity.
  - reflexivity.
  - reflexivity.
  - vm_compute. reflexivity.
  - reflexivity.
  - vm_compute. reflexivity.
  - split; [exact Hlow|].
    exists s'. split; [exact Hrun|]. rewrite Hsinks. reflexivity.
Defined.

(** ** Idempotence of colour stripping *)

(** Deleting a sequence can bring the two halves of another one together:
    in [nested_csi] only the inner sequence matches, and what is left of the
    outer one is [ESC [ 0 m]. *)

(** C6, as stated, fails: stripping [nested_csi] once leaves [ESC [ 0 m],
    stripping twice leaves the empty string. *)
Lemma stripColors_not_idempotent :
  stripColors nested_csi = String ESC "[0m" /\
  stripColors (stripColors nested_csi) = "" /\
  stripColors (stripColors nested_csi) <> stripColors nested_csi.
Proof.
  assert (stripColors nested_csi = String ESC "[0m") as H1 by (vm_compute; reflexivity).
  assert (stripColors (String ESC "[0m") = "") as H2 by (vm_compute; reflexivity).
  rewrite H1, H2. repeat split. discriminate.
Qed.

(** ** Write errors *)

(** C8. [Log] returns nothing, so nothing of the write reaches the caller.
    When the write to the sink fails the call still returns normally; it has
    tried the write once; and it leaves the logger exactly as a call whose
    write succeeds leaves it, which is as it was before the call. *)
Theorem Log_ignores_write_error e callers lvl msg fields s rendered wr d err wr_ok d_ok :
  level (logger s) <= lvl ->
  mutex (logger s) = false ->
  formatter (logger s) e lvl (ReplaceAll msg LF " ")
            (fields_for_formatter callers fields) = Some rendered ->
  sinks s !! out (logger s) = Some wr ->
  write wr (data wr) (line_of s rendered) = (d, Some err) ->
  write wr_ok (data wr_ok) (line_of s rendered) = (d_ok, None) ->
  let s_ok := {| logger := logger s;
                 sinks := <[out (logger s) := wr_ok]> (sinks s);
                 events := events s |} in
  let failed := Log e callers lvl msg fields s in
  let succeeded := Log e callers lvl msg fields s_ok in
  failed.1 = Returns tt /\
  succeeded.1 = Returns tt /\
  logger failed.2 = logger succeeded.2 /\
  logger failed.2 = logger s /\
  writes (events failed.2) = writes (events s) ++ [(out (logger s), line_of s rendered)].
Proof.
  intros Hlvl Hmx Hfmt Hsink Hwr Hok s_ok failed succeeded.
  assert (failed = (Returns tt, written callers lvl msg fields s rendered d (Some err) wr))
    as Hf by (apply Log_run; assumption).
  assert (succeeded = (Returns tt, written callers lvl msg fields s_ok rendered d_ok None wr_ok))
    as Hs.
  { apply Log_run; try assumption. subst s_ok. cbn. apply lookup_insert_eq. }
  rewrite Hf, Hs. cbn [fst snd]. repeat split.
  apply writes_written.
Qed.

Lemma Log_ignores_write_error_witness :
  let s := Example.st_broken LevelInfo defaultFormatter in
  let failed := Log Example.env Example.stack LevelError "disk full" Example.checkout s in
  failed.1 = Returns tt /\
  logger failed.2 = logger s /\
  length (writes (events failed.2)) = 1%nat.
Proof.
  intros s failed.
  pose (rendered := default "" (defaultFormatter Example.env LevelError "disk full"
                                  (fields_for_formatter Example.stack Example.checkout))).
  destruct (Log_ignores_write_error Example.env Example.stack LevelError "disk full"
              Example.checkout s rendered Example.broken "" "write: broken pipe"
              (Buffer "") (line_of s rendered))
    as (H1 & _ & _ & H2 & H3).
  - vm_compute. discriminate.
  - reflexivity.
  - vm_compute. reflexivity.
  - reflexivity.
  - reflexivity.
  - reflexivity.
  - split; [exact H1|]. split; [exact H2|].
    subst failed. rewrite H3. reflexivity.
Defined.

(** ** The context-aware variant *)

(** C9, as stated, fails when no caller info is supplied.  From the same
    call site, in [main.main] at line 12, [LogCtx] reports that line, as
    [Log] finds it two frames up, whereas a direct call of [Log] reports the
    frame above [main.main]. *)
Lemma LogCtx_differs_from_Log :
  let s := Example.st LevelInfo defaultFormatter in
  let ctx := mkContext ∅ false in
  let via_ctx := LogCtx Example.env Example.stack ctx LevelInfo "ready" Example.checkout s in
  let direct := Log Example.env Example.stack LevelInfo "ready" Example.checkout s in
  contents via_ctx.2 !! Example.buf =
    Some ("[INFO] 2025-06-14T12:30:25Z POST /api/checkout 200 OK 51KB 120ms - ready - cmd/api/main.go:12"
          +:+ String LF "") /\
  contents direct.2 !! Example.buf =
    Some ("[INFO] 2025-06-14T12:30:25Z POST /api/checkout 200 OK 51KB 120ms - ready - src/runtime/proc.go:283"
          +:+ String LF "") /\
  via_ctx <> direct.
Proof.
  intros s ctx via_ctx direct.
  assert (contents via_ctx.2 !! Example.buf =
          Some ("[INFO] 2025-06-14T12:30:25Z POST /api/checkout 200 OK 51KB 120ms - ready - cmd/api/main.go:12"
                +:+ String LF "")) as H1 by (vm_compute; reflexivity).
  assert (contents direct.2 !! Example.buf =
          Some ("[INFO] 2025-06-14T12:30:25Z POST /api/checkout 200 OK 51KB 120ms - ready - src/runtime/proc.go:283"
                +:+ String LF "")) as H2 by (vm_compute; reflexivity).
  split; [exact H1|]. split; [exact H2|].
  intros Heq. rewrite Heq, H2 in H1. discriminate H1.
Qed.

(** C9, amended.  [LogCtx] never consults its context: it is the call of
    [Log] made from line 117 with the other arguments.  It writes what a
    direct call of [Log] writes, and leaves the same state, whenever caller
    info is supplied or the level is suppressed.  Otherwise the two differ
    only by the position captured: [LogCtx] captures its own call site, the
    first frame of [callers], where a direct call captures the second. *)
Theorem LogCtx_delegates e callers ctx lvl msg fields s :
  (forall ctx', LogCtx e callers ctx' lvl msg fields s
                = LogCtx e callers ctx lvl msg fields s) /\
  LogCtx e callers ctx lvl msg fields s = Log e (here 117 :: callers) lvl msg fields s /\
  (is_empty (CallerInfo fields) = false \/ lvl < level (logger s) ->
   LogCtx e callers ctx lvl msg fields s = Log e callers lvl msg fields s) /\
  (forall callers' : Runtime.Stack,
     callers' !! 1%nat = callers !! 0%nat ->
     LogCtx e callers ctx lvl msg fields s = Log e callers' lvl msg fields s).
Proof.
  split; [reflexivity|]. split; [reflexivity|]. split.
  - intros H. unfold LogCtx. apply Log_stack_unused. assumption.
  - intros callers' H. unfold LogCtx. apply Log_stack_frame. rewrite H. reflexivity.
Qed.

Lemma LogCtx_delegates_witness :
  let s := Example.st LevelInfo defaultFormatter in
  let ctx := mkContext {[ "userID" := "abc123" ]} true in
  let fields := with_CallerInfo Example.checkout "handlers/main.go:26" in
  LogCtx Example.env Example.stack ctx LevelInfo "ready" fields s
  = Log Example.env Example.stack LevelInfo "ready" fields s.
Proof.
  intros s ctx fields.
  destruct (LogCtx_delegates Example.env Example.stack ctx LevelInfo "ready" fields s)
    as (_ & _ & Hsame & _).
  apply Hsame. left. reflexivity.
Defined.

(** ** The setters *)

Lemma bind_state {A B} (m : M A) (k : A -> M B) s :
  (forall a s', (k a s').2 = s') -> (bind m k s).2 = (m s).2.
Proof.
  intros Hk. unfold bind. destruct (m s) as [[a| | |c] s']; try reflexivity. apply Hk.
Qed.

Lemma Fatal_logger e callers msg fields s :
  logger (Fatal e callers msg fields s).2 = logger s.
Proof.
  unfold Fatal. rewrite bind_state by reflexivity. apply Log_logger.
Qed.

(** C10. Each setter returns, replaces its own field of the logger and
    nothing else, and leaves the sinks and the trace alone.  No method
    changes the name: the setters by the equations below, the logging
    methods because they leave the whole logger as it was. *)
Theorem setters_frame s lvl w enabled fn :
  let l := logger s in
  SetLevel lvl s =
    (Returns tt,
     {| logger := {| name := name l; level := lvl; out := out l; color := color l;
                     formatter := formatter l; mutex := mutex l |};
        sinks := sinks s; events := events s |}) /\
  SetOutput w s =
    (Returns tt,
     {| logger := {| name := name l; level := level l; out := w; color := color l;
                     formatter := formatter l; mutex := mutex l |};
        sinks := sinks s; events := events s |}) /\
  SetColor enabled s =
    (Returns tt,
     {| logger := {| name := name l; level := level l; out := out l; color := enabled;
                     formatter := formatter l; mutex := mutex l |};
        sinks := sinks s; events := events s |}) /\
  SetFormatter fn s =
    (Returns tt,
     {| logger := {| name := name l; level := level l; out := out l; color := color l;
                     formatter := fn; mutex := mutex l |};
        sinks := sinks s; events := events s |}) /\
  name (logger (SetLevel lvl s).2) = name l /\
  name (logger (SetOutput w s).2) = name l /\
  name (logger (SetColor enabled s).2) = name l /\
  name (logger (SetFormatter fn s).2) = name l /\
  (forall e callers ctx lv msg fields,
     name (logger (Log e callers lv msg fields s).2) = name l /\
     name (logger (LogCtx e callers ctx lv msg fields s).2) = name l /\
     name (logger (Debug e callers msg fields s).2) = name l /\
     name (logger (Info e callers msg fields s).2) = name l /\
     name (logger (Warn e callers msg fields s).2) = name l /\
     name (logger (Error e callers msg fields s).2) = name l /\
     name (logger (Fatal e callers msg fields s).2) = name l).
Proof.
  intros l. repeat split; try reflexivity.
  all: unfold LogCtx, Debug, Info, Warn, Error;
    first [ rewrite Log_logger | rewrite Fatal_logger ]; reflexivity.
Qed.

(** ** The text formatter *)

Section TextFormatter.

Lemma level_style_defined lvl :
  defined lvl -> exists tag, level_style lvl = Some tag.
Proof.
  unfold defined, LevelDebug, LevelFatal. intros H.
  assert (lvl = 0 \/ lvl = 1 \/ lvl = 2 \/ lvl = 3 \/ lvl = 4) as Hl by lia.
  destruct Hl as [-> | [-> | [-> | [-> | ->]]]]; eexists; reflexivity.
Qed.

Lemma level_style_undefined lvl : ~ defined lvl -> level_style lvl = None.
Proof.
  unfold defined, level_style, LevelDebug, LevelInfo, LevelWarn, LevelError, LevelFatal.
  intros H.
  repeat match goal with
         | |- context [?a =? ?b] => destruct (Z.eqb_spec a b); [lia|]
         end.
  reflexivity.
Qed.

Lemma append_if_group guard (components : list string) x :
  append_if guard components x = components ++ group guard x.
Proof. destruct guard; cbn; [reflexivity|]. rewrite app_nil_r. reflexivity. Qed.

Lemma fmap_group {A B} (f : A -> B) present x :
  f <$> group present x = group present (f x).
Proof. destruct present; reflexivity. Qed.

(** The code builds its components by successive appends; the result is
    the layout of the specification. *)
Lemma defaultFormatter_layout e lvl message fields tag :
  level_style lvl = Some tag ->
  defaultFormatter e lvl message fields =
  Some (render (NoColor e) (layout tag (Time.FormatRFC3339 (now e)) message fields)).
Proof.
  intros Htag. unfold defaultFormatter. rewrite Htag. destruct tag as [levelStr levelColor].
  f_equal. unfold render, layout. rewrite !append_if_group.
  rewrite !fmap_app, !fmap_group. cbn [fmap list_fmap fst snd].
  rewrite <- !(assoc_L (++)). reflexivity.
Qed.

(** The escape sequences of package [color] are matches of the pattern. *)
Lemma csi_match_format a rest : csi_match (Color.format a +:+ rest) = Some rest.
Proof. destruct a; reflexivity. Qed.

Lemma csi_match_unformat rest : csi_match (Color.unformat +:+ rest) = Some rest.
Proof. reflexivity. Qed.

Lemma stripColors_Sprint nc a x rest :
  has_byte ESC x = false ->
  stripColors (Color.Sprint nc a x +:+ rest) = x +:+ stripColors rest.
Proof.
  intros Hx. unfold Color.Sprint, Color.wrap. destruct nc.
  - apply stripColors_plain. assumption.
  - rewrite !sapp_assoc.
    rewrite (stripColors_match _ _ (csi_match_format a _)).
    rewrite stripColors_plain by assumption.
    rewrite (stripColors_match _ _ (csi_match_unformat rest)). reflexivity.
Qed.

(** Stripping a rendered line whose texts hold no ESC gives the line as it
    is rendered without colour. *)
Lemma stripColors_render nc pieces :
  Forall (fun p => has_byte ESC p.2 = false) pieces ->
  stripColors (render nc pieces) = render true pieces.
Proof.
  unfold render. induction 1 as [|p rest Hp Hrest IH]; [reflexivity|].
  destruct rest as [|q rest].
  - cbn [fmap list_fmap Join].
    rewrite <- (sapp_nil_r (Color.Sprint nc p.1 p.2)).
    rewrite stripColors_Sprint by assumption.
    change (stripColors "") with "". rewrite sapp_nil_r. reflexivity.
  - change (Join ((fun p => Color.Sprint nc p.1 p.2) <$> p :: q :: rest) " ")
      with (Color.Sprint nc p.1 p.2 +:+ " " +:+
            Join ((fun p => Color.Sprint nc p.1 p.2) <$> q :: rest) " ").
    rewrite stripColors_Sprint by assumption.
    rewrite (stripColors_plain " ") by reflexivity. rewrite IH. reflexivity.
Qed.

(** A byte foreign to the texts, to the separator and to the escape
    sequences is foreign to the rendered line. *)
Lemma render_lacks c nc pieces :
  has_byte c " " = false ->
  nc = true \/ has_byte c (String ESC "[0123456789m") = false ->
  Forall (fun p => has_byte c p.2 = false) pieces ->
  has_byte c (render nc pieces) = false.
Proof.
  intros Hsp Hcol Hall. unfold render.
  assert (forall a x, has_byte c x = false -> has_byte c (Color.Sprint nc a x) = false) as Hp.
  { intros a x Hx. unfold Color.Sprint, Color.wrap. destruct nc; [assumption|].
    destruct Hcol as [Hcol|Hcol]; [discriminate|].
    rewrite !has_byte_app, Hx.
    cbn in Hcol. repeat (apply orb_false_iff in Hcol as [? Hcol]).
    destruct a; cbn; repeat (apply orb_false_iff; split); assumption. }
  induction Hall as [|p rest Hpc Hrest IH]; [reflexivity|].
  destruct rest as [|q rest].
  - cbn. apply Hp. assumption.
  - change (Join ((fun p => Color.Sprint nc p.1 p.2) <$> p :: q :: rest) " ")
      with (Color.Sprint nc p.1 p.2 +:+ " " +:+
            Join ((fun p => Color.Sprint nc p.1 p.2) <$> q :: rest) " ").
    rewrite !has_byte_app, Hp, Hsp, IH by assumption. reflexivity.
Qed.

Lemma level_tag_lacks lvl tag c :
  level_style lvl = Some tag ->
  c = ESC \/ c = LF ->
  has_byte c ("[" +:+ tag.1 +:+ "]") = false.
Proof.
  unfold level_style. intros Htag Hc.
  repeat match type of Htag with
         | (if ?b then _ else _) = _ => destruct b
         end;
    inversion Htag; subst tag; destruct Hc as [-> | ->]; reflexivity.
Qed.

(** The pieces of the layout lack a control byte that the stamp, the
    message and the fields lack. *)
Lemma layout_lacks c lvl tag t message fields :
  level_style lvl = Some tag ->
  c = ESC \/ c = LF ->
  has_byte c message = false ->
  fields_lack c fields ->
  Forall (fun p => has_byte c p.2 = false)
         (layout tag (Time.FormatRFC3339 t) message fields).
Proof.
  intros Htag Hc Hmsg (Hm & Hp & Hst & Hsz & Hla & Hci).
  assert (has_byte c " " = false /\ has_byte c "-" = false) as [Hsp Hdash]
    by (destruct Hc as [-> | ->]; split; reflexivity).
  assert (has_byte c (Time.FormatRFC3339 t) = false) as Hts
    by (apply FormatRFC3339_lacks; destruct Hc as [-> | ->]; reflexivity).
  unfold layout, group.
  repeat first
    [ apply Forall_app; split
    | apply Forall_cons; split
    | apply Forall_nil
    | match goal with |- Forall _ (if ?b then _ else _) => destruct b end ];
    cbn [fst snd];
    first [ exact I
          | eapply level_tag_lacks; eassumption
          | assumption
          | rewrite !has_byte_app, Hm, Hp, Hsp; reflexivity ].
Qed.

End TextFormatter.

(** The line the text formatter puts in the sink when the logger has colour
    disabled and the texts hold no ESC: the layout without colour. *)
Lemma Log_text_line e callers lvl message fields s tag wr d err :
  formatter (logger s) = defaultFormatter ->
  color (logger s) = false ->
  level (logger s) <= lvl ->
  mutex (logger s) = false ->
  level_style lvl = Some tag ->
  has_byte ESC message = false ->
  fields_lack ESC (fields_for_formatter callers fields) ->
  let line := render true (layout tag (Time.FormatRFC3339 (now e))
                             (ReplaceAll message LF " ")
                             (fields_for_formatter callers fields))
              +:+ String LF "" in
  sinks s !! out (logger s) = Some wr ->
  write wr (data wr) line = (d, err) ->
  exists s',
    Log e callers lvl message fields s = (Returns tt, s') /\
    writes (events s') = writes (events s) ++ [(out (logger s), line)] /\
    sinks s' = <[out (logger s) := {| data := d; write := write wr |}]> (sinks s).
Proof.
  intros Hfmt Hcol Hlvl Hmx Htag Hmsg Hfields line Hsink Hwr.
  set (msg' := ReplaceAll message LF " ").
  set (fields' := fields_for_formatter callers fields).
  set (rendered := render (NoColor e) (layout tag (Time.FormatRFC3339 (now e)) msg' fields')).
  assert (line_of s rendered = line) as Hline.
  { unfold line_of. rewrite Hcol. cbn [negb]. subst rendered line.
    rewrite stripColors_render; [reflexivity|].
    eapply layout_lacks; eauto.
    subst msg'. clear -Hmsg. induction message as [|c m IH]; [reflexivity|].
    cbn in Hmsg |- *. apply orb_false_iff in Hmsg as [Hc Hm].
    rewrite (IH Hm), orb_false_r.
    destruct (Ascii.eqb c LF); [reflexivity | assumption]. }
  exists (written callers lvl message fields s rendered d err wr).
  split; [|split].
  - apply Log_run; try assumption.
    + rewrite Hfmt. apply defaultFormatter_layout. assumption.
    + rewrite Hline. assumption.
  - rewrite writes_written, Hline. reflexivity.
  - reflexivity.
Qed.

(** C4, as stated, fails for the method and path group: it takes both
    fields.  A method supplied without a path is left out of the line. *)
Lemma defaultFormatter_drops_lone_method :
  let fields := NewLogFields "GET" "" "200 OK" "" "" in
  nonempty (Method fields) = true /\
  defaultFormatter Example.plain_env LevelInfo "ready" fields
    = Some "[INFO] 2025-06-14T12:30:25Z 200 OK - ready - " /\
  Contains "[INFO] 2025-06-14T12:30:25Z 200 OK - ready - " "GET" = false.
Proof. vm_compute. repeat split. Qed.

(** C4, amended.  For each of the five levels the text formatter returns
    the pieces of the layout, painted, joined by single spaces: the level
    tag, the time stamp (RFC 3339 for a civil time), the method and path when
    both are supplied, the status, the size and the latency when each is
    supplied, a dash, the message, a dash, the caller info.  The result holds
    no newline when the message and the fields hold none.  Through [Log],
    with colour disabled and texts free of ESC, the line written is the
    layout without colour; for the checkout call this is the line of the
    specification. *)
Theorem text_formatter_layout e lvl message fields :
  defined lvl ->
  exists tag,
    level_style lvl = Some tag /\
    let stamp := Time.FormatRFC3339 (now e) in
    defaultFormatter e lvl message fields
      = Some (render (NoColor e) (layout tag stamp message fields)) /\
    (Time.valid (now e) -> Time.is_rfc3339 stamp = true) /\
    (has_byte LF message = false -> fields_lack LF fields ->
     has_byte LF (render (NoColor e) (layout tag stamp message fields)) = false) /\
    (forall callers s wr d err,
       formatter (logger s) = defaultFormatter ->
       color (logger s) = false ->
       level (logger s) <= lvl ->
       mutex (logger s) = false ->
       has_byte ESC message = false ->
       fields_lack ESC (fields_for_formatter callers fields) ->
       let line := render true (layout tag stamp (ReplaceAll message LF " ")
                                  (fields_for_formatter callers fields))
                   +:+ String LF "" in
       sinks s !! out (logger s) = Some wr ->
       write wr (data wr) line = (d, err) ->
       exists s',
         Log e callers lvl message fields s = (Returns tt, s') /\
         writes (events s') = writes (events s) ++ [(out (logger s), line)]) /\
    (forall token,
       render true (layout ("INFO", Color.FgHiGreen) stamp "Checkout completed"
                      (with_CallerInfo Example.checkout token))
       = "[INFO] " +:+ stamp +:+ " POST /api/checkout 200 OK 51KB 120ms - Checkout completed - "
         +:+ token).
Proof.
  intros Hdef. destruct (level_style_defined lvl Hdef) as [tag Htag].
  exists tag. split; [exact Htag|]. cbv zeta.
  split; [apply defaultFormatter_layout; exact Htag|].
  split; [apply FormatRFC3339_valid|].
  split; [|split].
  - intros Hmsg Hfields. apply render_lacks.
    + reflexivity.
    + right. reflexivity.
    + eapply layout_lacks; eauto.
  - intros callers s wr d err Hfmt Hcol Hlvl Hmx Hmsg Hfields Hsink Hwr.
    destruct (Log_text_line e callers lvl message fields s tag wr d err)
      as (s' & Hrun & Hwrites & _); try assumption.
    exists s'. split; assumption.
  - intros token. reflexivity.
Qed.

Lemma text_formatter_layout_witness :
  exists s',
    Log Example.env Example.stack LevelInfo "Checkout completed" Example.checkout
      (Example.st LevelInfo defaultFormatter) = (Returns tt, s') /\
    writes (events s') =
      [(Example.buf,
        "[INFO] 2025-06-14T12:30:25Z POST /api/checkout 200 OK 51KB 120ms - Checkout completed - src/runtime/proc.go:283"
        +:+ String LF "")].
Proof.
  destruct (text_formatter_layout Example.env LevelInfo "Checkout completed" Example.checkout)
    as (tag & Htag & _ & _ & _ & Hlog & _).
  - unfold defined, LevelDebug, LevelInfo, LevelFatal. lia.
  - vm_compute in Htag. injection Htag as <-.
    destruct (Hlog Example.stack (Example.st LevelInfo defaultFormatter) (Buffer "")
                ("[INFO] 2025-06-14T12:30:25Z POST /api/checkout 200 OK 51KB 120ms - Checkout completed - src/runtime/proc.go:283"
                 +:+ String LF "") None)
      as (s' & Hrun & Hwrites).
    + reflexivity.
    + reflexivity.
    + vm_compute. discriminate.
    + reflexivity.
    + reflexivity.
    + vm_compute. repeat split.
    + reflexivity.
    + vm_compute. reflexivity.
    + exists s'. split; [exact Hrun|]. rewrite Hwrites. vm_compute. reflexivity.
Defined.

(** ** Caller info *)

Section CallerInfo.

Lemma last3_spec (parts : list string) :
  last3 parts `suffix_of` parts /\
  (length (last3 parts) <= 3)%nat /\
  (length (last3 parts) = 3%nat \/ last3 parts = parts).
Proof.
  unfold last3. destruct (Nat.ltb_spec 3 (length parts)) as [H|H].
  - split; [apply suffix_drop|]. rewrite length_drop. lia.
  - split; [reflexivity|]. split; [lia|]. right. reflexivity.
Qed.

Lemma caller_token_nonempty file ln : caller_token file ln <> "".
Proof.
  unfold caller_token. intros H.
  apply (f_equal String.length) in H. rewrite !slength_app in H. cbn in H. lia.
Qed.

Lemma is_empty_spec s : is_empty s = true <-> s = "".
Proof. destruct s; cbn; split; congruence. Qed.

(** The text formatter ends its line with the caller info. *)
Lemma defaultFormatter_ends_with_caller e lvl message fields tag :
  level_style lvl = Some tag ->
  exists before,
    defaultFormatter e lvl message fields =
    Some (before +:+ " " +:+ Color.Sprint (NoColor e) Color.FgHiBlue (CallerInfo fields)).
Proof.
  intros Htag. rewrite (defaultFormatter_layout _ _ _ _ _ Htag).
  unfold render, layout.
  change [(Color.FgHiWhite, "-"); (Color.FgCyan, message); (Color.FgHiWhite, "-");
          (Color.FgHiBlue, CallerInfo fields)]
    with ([(Color.FgHiWhite, "-"); (Color.FgCyan, message); (Color.FgHiWhite, "-")]
          ++ [(Color.FgHiBlue, CallerInfo fields)]).
  rewrite !(assoc_L (++)), fmap_app. cbn [fmap list_fmap fst snd].
  eexists. rewrite Join_snoc; [reflexivity|].
  rewrite !fmap_app. cbn. discriminate.
Qed.

End CallerInfo.

(** C3, as stated, fails: what the rendered output contains is up to the
    formatter.  With the formatter of the README, [[level] path - message],
    a supplied caller info reaches the formatter and is not in the line. *)
Lemma custom_formatter_omits_caller_info :
  let s := Example.st LevelInfo Example.minimal in
  let fields := with_CallerInfo Example.checkout "cmd/main.go:12" in
  let s' := (Log Example.env Example.stack LevelInfo "ready" fields s).2 in
  events s' = [EvFormat LevelInfo "ready" fields; EvLock;
               EvWrite Example.buf ("[info] /api/checkout - ready" +:+ String LF "") None;
               EvUnlock] /\
  Contains ("[info] /api/checkout - ready" +:+ String LF "") "cmd/main.go:12" = false.
Proof. vm_compute. split; reflexivity. Qed.

(** C3, amended.  In every call that is not suppressed the formatter is
    called with the caller's fields, except that an empty caller info is
    replaced by the position [runtime.Caller(2)] reports (the call site of
    the function that called [Log]), written as the last three segments at
    most of the file path, a colon and the line number; a caller info that is
    supplied is passed as it is, and the stack is not inspected.  The text
    formatter ends its line with the caller info it is given. *)
Theorem Log_caller_info e callers lvl msg fields s :
  level (logger s) <= lvl ->
  let r := Runtime.Caller (here 96 :: callers) 2 in
  exists fields' rest,
    events (Log e callers lvl msg fields s).2 =
      events s ++ capture_events fields ++
      EvFormat lvl (ReplaceAll msg LF " ") fields' :: rest /\
    (Method fields' = Method fields /\ Path fields' = Path fields /\
     Status fields' = Status fields /\ Size fields' = Size fields /\
     Latency fields' = Latency fields) /\
    (CallerInfo fields <> "" -> fields' = fields /\ capture_events fields = []) /\
    (CallerInfo fields = "" ->
     capture_events fields = [EvCaller 2] /\
     exists kept,
       kept `suffix_of` Split r.1.1 "/" /\
       (length kept <= 3)%nat /\
       (length kept = 3%nat \/ kept = Split r.1.1 "/") /\
       CallerInfo fields' = Join kept "/" +:+ ":" +:+ Itoa r.1.2 /\
       CallerInfo fields' <> "") /\
    (forall wrapper site above,
       callers = wrapper :: site :: above ->
       r = (Runtime.file site, Runtime.line site, true)) /\
    (forall tag, level_style lvl = Some tag ->
       exists before,
         defaultFormatter e lvl (ReplaceAll msg LF " ") fields' =
         Some (before +:+ " " +:+
               Color.Sprint (NoColor e) Color.FgHiBlue (CallerInfo fields'))).
Proof.
  intros Hlvl r.
  destruct (Log_events_extend e callers lvl msg fields s Hlvl) as [rest Hev].
  exists (fields_for_formatter callers fields), rest.
  split; [exact Hev|].
  unfold fields_for_formatter, capture_events. fold r.
  destruct r as [[file ln] ok] eqn:Hr. cbn [fst snd].
  destruct (is_empty (CallerInfo fields)) eqn:Hci.
  - apply is_empty_spec in Hci.
    split; [repeat split|]. split; [intros H; contradiction|].
    split.
    { intros _. split; [reflexivity|].
      destruct (last3_spec (Split file "/")) as (Hsuf & Hlen & Hall).
      exists (last3 (Split file "/")). repeat split; try assumption.
      apply caller_token_nonempty. }
    split.
    { intros wrapper site above ->. subst r. cbn in Hr. symmetry. exact Hr. }
    intros tag Htag. apply (defaultFormatter_ends_with_caller _ _ _ _ tag Htag).
  - assert (CallerInfo fields <> "") as Hne.
    { intros H. apply is_empty_spec in H. congruence. }
    split; [repeat split|]. split; [intros _; split; reflexivity|].
    split; [intros H; contradiction|].
    split.
    { intros wrapper site above ->. subst r. cbn in Hr. symmetry. exact Hr. }
    intros tag Htag. apply (defaultFormatter_ends_with_caller _ _ _ _ tag Htag).
Qed.

Lemma Log_caller_info_witness :
  exists fields' rest,
    events (Info Example.env Example.stack "ready" Example.checkout
              (Example.st LevelInfo defaultFormatter)).2 =
    [] ++ [EvCaller 2] ++ EvFormat LevelInfo "ready" fields' :: rest /\
    CallerInfo fields' <> "" /\
    Runtime.Caller (here 96 :: here 70 :: Example.stack) 2
      = ("/home/dev/shop/cmd/api/main.go", 12, true).
Proof.
  destruct (Log_caller_info Example.env (here 70 :: Example.stack) LevelInfo "ready"
              Example.checkout (Example.st LevelInfo defaultFormatter))
    as (fields' & rest & Hev & _ & _ & Hcap & Hsite & _).
  - vm_compute. discriminate.
  - exists fields', rest.
    destruct (Hcap eq_refl) as (Hc & kept & _ & _ & _ & _ & Hne).
    rewrite Hc in Hev.
    split; [exact Hev|]. split; [exact Hne|].
    apply (Hsite (here 70) _ _ eq_refl).
Defined.

(** ** JSON strings: what is written reads back *)

Section JsonStrings.

Import Json.

Local Open Scope N_scope.

Lemma prepend_Some x str rest : prepend x (Some (str, rest)) = Some (x +:+ str, rest).
Proof. reflexivity. Qed.

(** An ASCII byte, as it is written, reads back as itself. *)
Lemma parse_body_ascii c X :
  (byte c <? 128) = true ->
  parse_body 0 ((if htmlSafe c then String c "" else escape c) +:+ X)
  = prepend (String c "") (parse_body 0 X).
Proof.
  destruct c as [[] [] [] [] [] [] [] []]; intros H; try discriminate H; reflexivity.
Qed.

Lemma parse_body_replacement X :
  parse_body 0 (replacement +:+ X)
  = prepend (String "239" (String "191" (String "189" ""))) (parse_body 0 X).
Proof. reflexivity. Qed.

Lemma parse_body_separator b0 b1 b2 X :
  line_separator b0 b1 b2 = true ->
  parse_body 0 (String backslash "u202" +:+ String (hex (N.land (byte b2) 15)) X)
  = prepend (String b0 (String b1 (String b2 ""))) (parse_body 0 X).
Proof.
  unfold line_separator. intros H.
  apply andb_true_iff in H as [H H2]. apply andb_true_iff in H as [H0 H1].
  apply N.eqb_eq in H0, H1.
  assert (b0 = "226"%char) as -> by (rewrite <- (ascii_N_embedding b0); unfold byte in H0; rewrite H0; reflexivity).
  assert (b1 = "128"%char) as -> by (rewrite <- (ascii_N_embedding b1); unfold byte in H1; rewrite H1; reflexivity).
  destruct b2 as [[] [] [] [] [] [] [] []]; try discriminate H2; reflexivity.
Qed.

(** A sequence the decoder accepts is at hand in full. *)
Lemma rune_tail_bound b s k : rune_tail b s = Some k -> (k <= String.length s)%nat.
Proof.
  unfold rune_tail. destruct (accept b) as [[[size lo] hi]|]; [|discriminate].
  destruct s as [|b1 [|b2 [|b3 s]]]; cbn [String.length];
    repeat match goal with
           | |- context [if ?c then _ else _] => destruct c
           | |- context [match ?n with O => _ | S _ => _ end] => destruct n
           end;
    intros [= <-] || discriminate; lia.
Qed.

(** Copying the sequence keeps it recognisable. *)
Lemma rune_tail_copy b s k X :
  rune_tail b s = Some k -> rune_tail b (appendBody k s +:+ X) = Some k.
Proof.
  unfold rune_tail. destruct (accept b) as [[[size lo] hi]|]; [|discriminate].
  destruct s as [|b1 s1]; [discriminate|].
  destruct (in_range lo hi b1) eqn:H1; [|discriminate].
  destruct size as [|[|[|size]]].
  1,2,4: destruct s1 as [|b2 s2]; [discriminate|];
         destruct (in_range 128 191 b2) eqn:H2; [|discriminate].
  - destruct s2 as [|b3 s3]; [discriminate|].
    destruct (in_range 128 191 b3) eqn:H3; [|discriminate].
    intros [= <-]. cbn [appendBody]. rewrite !sapp_cons, H1, H2, H3. reflexivity.
  - destruct s2 as [|b3 s3]; [discriminate|].
    destruct (in_range 128 191 b3) eqn:H3; [|discriminate].
    intros [= <-]. cbn [appendBody]. rewrite !sapp_cons, H1, H2, H3. reflexivity.
  - destruct size as [|size].
    + intros [= <-]. cbn [appendBody]. rewrite !sapp_cons, H1, H2. reflexivity.
    + destruct s2 as [|b3 s3]; [discriminate|].
      destruct (in_range 128 191 b3) eqn:H3; [|discriminate].
      intros [= <-]. cbn [appendBody]. rewrite !sapp_cons, H1, H2, H3. reflexivity.
  - intros [= <-]. cbn [appendBody]. rewrite !sapp_cons, H1. reflexivity.
Qed.

Lemma high_byte_plain b :
  (byte b <? 128) = false ->
  Ascii.eqb b quote = false /\ Ascii.eqb b backslash = false /\ (byte b <? 32) = false.
Proof.
  destruct b as [[] [] [] [] [] [] [] []]; intros H; try discriminate H; repeat split.
Qed.

(** The line separators are three-byte sequences. *)
Lemma line_separator_tail b b1 b2 s :
  line_separator b b1 b2 = true -> rune_tail b (String b1 (String b2 s)) = Some 2%nat.
Proof.
  unfold line_separator. intros H.
  apply andb_true_iff in H as [H H2]. apply andb_true_iff in H as [H0 H1].
  apply N.eqb_eq in H0, H1.
  assert (b = "226"%char) as -> by (rewrite <- (ascii_N_embedding b); unfold byte in H0; rewrite H0; reflexivity).
  assert (b1 = "128"%char) as -> by (rewrite <- (ascii_N_embedding b1); unfold byte in H1; rewrite H1; reflexivity).
  destruct b2 as [[] [] [] [] [] [] [] []]; try discriminate H2; reflexivity.
Qed.

(** What [appendString] writes between the quotes reads back as the text
    of the string. *)
Lemma parse_body_appendBody (n : nat) : forall s k rest,
  (String.length s <= n)%nat ->
  (k <= String.length s)%nat ->
  parse_body k (appendBody k s +:+ String quote rest) = Some (text_from k s, rest).
Proof.
  induction n as [n IH] using lt_wf_ind. intros s k rest Hn Hk.
  destruct s as [|b s'].
  { assert (k = 0%nat) as -> by (cbn in Hk; lia). reflexivity. }
  cbn [String.length] in Hn, Hk.
  destruct k as [|k].
  2: { cbn [appendBody text_from]. rewrite sapp_cons. cbn [parse_body].
       rewrite (IH (String.length s')) by lia. reflexivity. }
  cbn [appendBody text_from].
  destruct (byte b <? 128) eqn:Hb.
  { rewrite sapp_assoc, parse_body_ascii by assumption.
    rewrite (IH (String.length s')) by lia. reflexivity. }
  destruct (high_byte_plain b Hb) as (Hq & Hbs & H32).
  destruct (rune_tail b s') as [k|] eqn:Htail.
  2: { rewrite sapp_assoc, parse_body_replacement.
       rewrite (IH (String.length s')) by lia. reflexivity. }
  pose proof (rune_tail_bound _ _ _ Htail) as Hbound.
  assert (parse_body 0 (String b (appendBody k s') +:+ String quote rest)
          = Some (String b (text_from k s'), rest)) as Hcopy.
  { rewrite sapp_cons. cbn [parse_body]. rewrite Hq, Hbs, H32, Hb.
    rewrite (rune_tail_copy _ _ _ _ Htail).
    rewrite (IH (String.length s')) by lia. reflexivity. }
  destruct s' as [|b1 [|b2 s3]]; try exact Hcopy.
  destruct (line_separator b b1 b2) eqn:Hsep; [|exact Hcopy].
  rewrite (line_separator_tail _ _ _ s3 Hsep) in Htail. injection Htail as <-.
  rewrite sapp_assoc, (sapp_cons (hex _)), (parse_body_separator _ _ _ _ Hsep).
  cbn [String.length] in Hn.
  rewrite (IH (String.length s3)) by lia. reflexivity.
Qed.

Lemma parse_string_appendString s rest :
  parse_string (appendString s +:+ rest) = Some (text s, rest).
Proof.
  unfold appendString, text. rewrite sapp_cons. cbn [parse_string].
  rewrite Ascii.eqb_refl, sapp_assoc.
  apply (parse_body_appendBody (String.length s)); lia.
Qed.

Lemma parse_value_appendString fuel s rest :
  parse_value (S fuel) (appendString s +:+ rest) = Some (JString (text s), rest).
Proof.
  pose proof (parse_string_appendString s rest) as H.
  unfold appendString in *. rewrite sapp_cons in *. cbn [parse_string parse_value] in *.
  rewrite Ascii.eqb_refl in *. rewrite H. reflexivity.
Qed.

(** The text of a well-formed string is the string. *)
Lemma text_from_valid s : forall k, valid_from k s = true -> text_from k s = s.
Proof.
  induction s as [|b s IH]; intros k; [reflexivity|].
  cbn [valid_from text_from]. destruct k as [|k].
  - destruct (byte b <? 128).
    + intros H. rewrite IH by assumption. reflexivity.
    + destruct (rune_tail b s); [|discriminate].
      intros H. rewrite IH by assumption. reflexivity.
  - intros H. rewrite IH by assumption. reflexivity.
Qed.

Lemma text_valid s : ValidString s = true -> text s = s.
Proof. apply text_from_valid. Qed.

Lemma ascii_valid s :
  all_bytes (fun c => byte c <? 128) s = true -> ValidString s = true.
Proof.
  unfold ValidString. induction s as [|b s IH]; [reflexivity|].
  cbn [all_bytes valid_from]. intros H. apply andb_true_iff in H as [Hb Hs].
  rewrite Hb. apply IH. assumption.
Qed.

End JsonStrings.

(** ** JSON objects: what is written reads back *)

Section JsonObjects.

Import Json.

(** One member followed by a comma, and the last member. *)
Lemma parse_members_cons fuel key V v tail :
  (forall rest, parse_value fuel (V +:+ rest) = Some (v, rest)) ->
  parse_members (S fuel) (appendString key +:+ ":" +:+ V +:+ "," +:+ tail)
  = match parse_members fuel tail with
    | Some (members, rest) => Some ((text key, v) :: members, rest)
    | None => None
    end.
Proof.
  intros HV. cbn [parse_members].
  rewrite parse_string_appendString. rewrite sapp_cons. cbn [expect].
  rewrite Ascii.eqb_refl. change ("" +:+ ?x) with x.
  rewrite HV. rewrite sapp_cons. change ("" +:+ ?x) with x.
  reflexivity.
Qed.

Lemma parse_members_last fuel key V v rest :
  (forall rest, parse_value fuel (V +:+ rest) = Some (v, rest)) ->
  parse_members (S fuel) (appendString key +:+ ":" +:+ V +:+ "}" +:+ rest)
  = Some ([(text key, v)], rest).
Proof.
  intros HV. cbn [parse_members].
  rewrite parse_string_appendString. rewrite sapp_cons. cbn [expect].
  rewrite Ascii.eqb_refl. change ("" +:+ ?x) with x.
  rewrite HV. rewrite sapp_cons. change ("" +:+ ?x) with x.
  reflexivity.
Qed.

(** The members of an object of strings. *)
Lemma parse_members_strings (members : list (string * string)) :
  members <> [] ->
  forall fuel rest,
    (length members < fuel)%nat ->
    parse_members fuel (Join (member_text <$> members) "," +:+ "}" +:+ rest)
    = Some (member_value <$> members, rest).
Proof.
  induction members as [|kv [|kv' more] IH]; intros Hne fuel rest Hfuel; [congruence| |].
  - destruct fuel as [|[|fuel]]; cbn in Hfuel; try lia.
    cbn [fmap list_fmap Join]. unfold member_text at 1. rewrite !sapp_assoc.
    apply (parse_members_last _ _ _ (JString (text kv.2))).
    intros r. apply parse_value_appendString.
  - destruct fuel as [|[|fuel]]; cbn [length] in Hfuel; try lia.
    change (Join (member_text <$> kv :: kv' :: more) ",")
      with (member_text kv +:+ "," +:+ Join (member_text <$> kv' :: more) ",").
    unfold member_text at 1. rewrite !sapp_assoc.
    rewrite (parse_members_cons _ _ _ (JString (text kv.2)))
      by (intros r; apply parse_value_appendString).
    rewrite IH by (try discriminate; cbn [length] in *; lia).
    reflexivity.
Qed.

(** The fields object. *)
Lemma parse_value_LogFields fields fuel rest :
  (8 <= fuel)%nat ->
  parse_value fuel (Marshal_LogFields fields +:+ rest)
  = Some (JObject (member_value <$> omitempty (tagged fields)), rest).
Proof.
  intros Hfuel. destruct fuel as [|fuel]; [lia|].
  unfold Marshal_LogFields. rewrite !sapp_assoc, sapp_cons.
  change ("" +:+ ?x) with x. cbn [parse_value].
  change (Ascii.eqb "{" quote) with false. change (Ascii.eqb "{" "{") with true.
  cbv iota.
  assert (length (omitempty (tagged fields)) <= 6)%nat as Hlen.
  { unfold omitempty. etransitivity; [apply length_filter|]. reflexivity. }
  destruct (omitempty (tagged fields)) as [|kv more] eqn:Hm.
  - reflexivity.
  - assert (expect "}" (Join ((fun kv => appendString kv.1 +:+ ":" +:+ appendString kv.2)
                               <$> kv :: more) "," +:+ "}" +:+ rest) = None) as ->.
    { destruct more; cbn [fmap list_fmap Join]; unfold appendString;
        rewrite ?sapp_assoc, !sapp_cons; reflexivity. }
    change (fun kv0 : string * string => appendString kv0.1 +:+ ":" +:+ appendString kv0.2)
      with member_text.
    rewrite parse_members_strings; [reflexivity | discriminate | lia].
Qed.

Lemma sorted_entry (a b c d : any) :
  sorted_keys [("timestamp", a); ("level", b); ("message", c); ("fields", d)]
  = [("fields", d); ("level", b); ("message", c); ("timestamp", a)].
Proof. reflexivity. Qed.

(** The four members of the entry, after the opening brace. *)
Lemma parse_members_entry fields (lvl_name message stamp : string) fuel rest :
  (8 <= fuel)%nat ->
  parse_members (S fuel)
    ((appendString "fields" +:+ ":" +:+ Marshal_LogFields fields) +:+ "," +:+
     (appendString "level" +:+ ":" +:+ appendString lvl_name) +:+ "," +:+
     (appendString "message" +:+ ":" +:+ appendString message) +:+ "," +:+
     (appendString "timestamp" +:+ ":" +:+ appendString stamp) +:+ "}" +:+ rest)
  = Some ([ ("fields", JObject (member_value <$> omitempty (tagged fields)));
            ("level", JString (text lvl_name));
            ("message", JString (text message));
            ("timestamp", JString (text stamp)) ], rest).
Proof.
  intros Hfuel.
  destruct fuel as [|[|[|[|fuel]]]]; try lia.
  rewrite !sapp_assoc.
  rewrite (parse_members_cons _ _ _ (JObject (member_value <$> omitempty (tagged fields))))
    by (intros r; apply parse_value_LogFields; lia).
  rewrite (parse_members_cons _ _ _ (JString (text lvl_name)))
    by (intros r; apply parse_value_appendString).
  rewrite (parse_members_cons _ _ _ (JString (text message)))
    by (intros r; apply parse_value_appendString).
  rewrite (parse_members_last _ _ _ (JString (text stamp)))
    by (intros r; apply parse_value_appendString).
  reflexivity.
Qed.

Lemma LogLevel_String_cases lvl :
  (lvl = LevelDebug /\ LogLevel_String lvl = "debug") \/
  (lvl = LevelInfo /\ LogLevel_String lvl = "info") \/
  (lvl = LevelWarn /\ LogLevel_String lvl = "warn") \/
  (lvl = LevelError /\ LogLevel_String lvl = "error") \/
  (lvl = LevelFatal /\ LogLevel_String lvl = "fatal") \/
  (~ defined lvl /\ LogLevel_String lvl = "unknown").
Proof.
  unfold LogLevel_String, defined, LevelDebug, LevelInfo, LevelWarn, LevelError, LevelFatal.
  repeat match goal with
         | |- context [?a =? ?b] => destruct (Z.eqb_spec a b); [subst; tauto|]
         end.
  do 5 right. split; [lia | reflexivity].
Qed.

Lemma text_LogLevel_String lvl : text (LogLevel_String lvl) = LogLevel_String lvl.
Proof.
  destruct (LogLevel_String_cases lvl) as [H|[H|[H|[H|[H|H]]]]];
    destruct H as [_ ->]; reflexivity.
Qed.

Lemma text_stamp t : text (Time.FormatRFC3339 t) = Time.FormatRFC3339 t.
Proof.
  apply text_valid, ascii_valid.
  apply (all_bytes_weaken Time.is_stamp_byte); [|apply FormatRFC3339_bytes].
  intros c. destruct c as [[] [] [] [] [] [] [] []]; intros H; try discriminate H; reflexivity.
Qed.

(** The output of the JSON formatter is one JSON object, with these four
    members. *)
Lemma parse_JSONFormatter e lvl message fields :
  exists output,
    JSONFormatter e lvl message fields = Some output /\
    parse output =
    Some (JObject
            [ ("fields", JObject (member_value <$> omitempty (tagged fields)));
              ("level", JString (LogLevel_String lvl));
              ("message", JString (text message));
              ("timestamp", JString (Time.FormatRFC3339 (now e))) ]).
Proof.
  eexists. split; [reflexivity|].
  unfold Marshal_map. rewrite sorted_entry.
  cbn [fmap list_fmap Join Marshal_any fst snd].
  set (body := (appendString "fields" +:+ ":" +:+ Marshal_LogFields fields) +:+ "," +:+
               (appendString "level" +:+ ":" +:+ appendString (LogLevel_String lvl)) +:+ "," +:+
               (appendString "message" +:+ ":" +:+ appendString message) +:+ "," +:+
               appendString "timestamp" +:+ ":" +:+
               appendString (Time.FormatRFC3339 (now e))).
  assert (exists fuel, String.length (body +:+ "}") = S fuel /\ (8 <= fuel)%nat) as (fuel & Hlen & Hfuel).
  { exists (Nat.pred (String.length (body +:+ "}"))).
    subst body. unfold Marshal_LogFields. rewrite !slength_app.
    change (String.length (appendString "fields")) with 8%nat.
    cbn [String.length]. lia. }
  unfold parse. rewrite sapp_cons. change ("" +:+ ?x) with x.
  cbn [String.length]. rewrite Hlen. cbn [parse_value].
  change (Ascii.eqb "{" quote) with false. change (Ascii.eqb "{" "{") with true.
  cbv iota.
  assert (expect "}" (body +:+ "}") = None) as -> by reflexivity.
  pose proof (parse_members_entry fields (LogLevel_String lvl) message
                (Time.FormatRFC3339 (now e)) fuel "" Hfuel) as Hp.
  rewrite !sapp_assoc in Hp. change ("}" +:+ "") with "}" in Hp.
  subst body. rewrite !sapp_assoc.
  rewrite Hp, text_LogLevel_String, text_stamp. reflexivity.
Qed.

End JsonObjects.

(** ** The fields object *)

Section FieldsObject.

Import Json.

Lemma member_absent key (kvs : list (string * string)) :
  (forall val, ~ In (key, val) kvs) ->
  Forall (fun kv => text kv.1 = kv.1) kvs ->
  member key (member_value <$> omitempty kvs) = None.
Proof.
  induction kvs as [|[k v] rest IH]; intros Hno Hkeys; [reflexivity|].
  apply Forall_cons in Hkeys as [Hk Hrest]. cbn [fst] in Hk.
  assert (member key (member_value <$> omitempty rest) = None) as Hr.
  { apply IH; [|assumption]. intros val Hin. apply (Hno val). right. assumption. }
  unfold omitempty in *. cbn [filter list_filter]. cbn [snd].
  destruct (decide (nonempty v = true)); [|exact Hr].
  cbn [fmap list_fmap member member_value fst snd]. rewrite Hk.
  destruct (String.eqb_spec k key) as [->|Hne]; [|exact Hr].
  exfalso. apply (Hno v). left. reflexivity.
Qed.

(** A declared key holds its field when the field is supplied, and is
    absent when it is not. *)
Lemma member_omitempty key val (kvs : list (string * string)) :
  NoDup kvs.*1 ->
  Forall (fun kv => text kv.1 = kv.1) kvs ->
  In (key, val) kvs ->
  member key (member_value <$> omitempty kvs)
  = if nonempty val then Some (JString (text val)) else None.
Proof.
  induction kvs as [|[k v] rest IH]; intros Hnodup Hkeys Hin; [contradiction|].
  apply NoDup_cons in Hnodup as [Hk Hnd]. cbn [fmap list_fmap fst] in Hk.
  pose proof Hkeys as Hkeys'. apply Forall_cons in Hkeys' as [Hkt Hrest]. cbn [fst] in Hkt.
  destruct Hin as [[= -> ->]|Hin].
  - unfold omitempty. cbn [filter list_filter snd].
    destruct (decide (nonempty val = true)) as [Hv|Hv].
    + rewrite Hv. cbn [fmap list_fmap member member_value fst snd].
      rewrite Hkt, String.eqb_refl. reflexivity.
    + apply not_true_is_false in Hv. rewrite Hv.
      apply member_absent; [|assumption].
      intros v' Hin. apply Hk. apply list_elem_of_fmap. exists (key, v').
      split; [reflexivity|]. apply list_elem_of_In. assumption.
  - assert (k <> key) as Hne.
    { intros ->. apply Hk. apply list_elem_of_fmap. exists (key, val).
      split; [reflexivity|]. apply list_elem_of_In. assumption. }
    rewrite <- (IH Hnd Hrest Hin).
    unfold omitempty. cbn [filter list_filter snd].
    destruct (decide (nonempty v = true)); [|reflexivity].
    cbn [fmap list_fmap member member_value fst snd]. rewrite Hkt.
    apply String.eqb_neq in Hne. rewrite Hne. reflexivity.
Qed.

(** Every member of the object is a supplied field under its key. *)
Lemma member_declared key v (kvs : list (string * string)) :
  Forall (fun kv => text kv.1 = kv.1) kvs ->
  member key (member_value <$> omitempty kvs) = Some v ->
  exists val, In (key, val) kvs /\ nonempty val = true /\ v = JString (text val).
Proof.
  induction kvs as [|[k val] rest IH]; intros Hkeys Hm; [discriminate|].
  apply Forall_cons in Hkeys as [Hkt Hrest]. cbn [fst] in Hkt.
  unfold omitempty in Hm. cbn [filter list_filter snd] in Hm.
  destruct (decide (nonempty val = true)) as [Hv|Hv].
  - cbn [fmap list_fmap member member_value fst snd] in Hm. rewrite Hkt in Hm.
    destruct (String.eqb_spec k key) as [->|Hne].
    + injection Hm as <-. exists val. repeat split; [left; reflexivity | assumption].
    + destruct (IH Hrest Hm) as (val' & Hin & Hne' & Hv').
      exists val'. repeat split; [right|..]; assumption.
  - destruct (IH Hrest Hm) as (val' & Hin & Hne' & Hv').
    exists val'. repeat split; [right|..]; assumption.
Qed.

Lemma tagged_keys fields :
  NoDup (tagged fields).*1 /\ Forall (fun kv => text kv.1 = kv.1) (tagged fields).
Proof.
  split.
  - cbn. apply (bool_decide_unpack _). reflexivity.
  - unfold tagged. repeat (apply Forall_cons; split; [reflexivity|]). apply Forall_nil. exact I.
Qed.

Lemma members_NoDup fields :
  NoDup (member_value <$> omitempty (tagged fields)).*1.
Proof.
  destruct (tagged_keys fields) as [Hnd Hkeys].
  revert Hnd Hkeys. generalize (tagged fields) as kvs.
  induction kvs as [|[k v] kvs IH]; intros Hnd Hkeys; [apply NoDup_nil; exact I|].
  apply NoDup_cons in Hnd as [Hk Hnd]. apply Forall_cons in Hkeys as [Hkey Hkeys].
  unfold omitempty in *. cbn [filter list_filter]. cbn [snd fst] in *.
  destruct (decide (nonempty v = true)) as [Hv|Hv]; [|apply IH; assumption].
  cbn [fmap list_fmap member_value fst snd]. rewrite Hkey.
  apply NoDup_cons. split; [|apply IH; assumption].
  intros Hin. apply Hk.
  apply list_elem_of_fmap in Hin as ([k' v'] & Hk' & Hin). cbn [fst] in Hk'.
  apply list_elem_of_fmap in Hin as ([k0 v0] & Hmv & Hin).
  apply list_elem_of_filter in Hin as [_ Hin].
  unfold member_value in Hmv. cbn [fst snd] in Hmv. injection Hmv as -> _.
  rewrite Forall_forall in Hkeys. pose proof (Hkeys _ Hin) as Ht. cbn [fst] in Ht.
  apply list_elem_of_fmap. exists (k0, v0). split; [|exact Hin]. cbn [fst]. congruence.
Qed.

End FieldsObject.

(** ** The JSON formatter *)

(** C2. For each of the five levels, every message and every fields value,
    the output of the JSON formatter parses as one JSON object with the
    members [fields], [level], [message] and [timestamp]: the level is the
    lower-case name of the level, the time stamp is the clock in RFC 3339,
    the message is the text of the message (the message itself when it is
    well-formed UTF-8), and [fields] is an object that holds, under the
    keys [method], [path], [status], [size], [latency] and [caller_info], the
    text of each of the six fields that is not empty, no member for an empty
    field, no other key and no key twice. *)
Theorem JSONFormatter_valid_json e lvl message fields :
  defined lvl ->
  Time.valid (now e) ->
  exists output members,
    JSONFormatter e lvl message fields = Some output /\
    Json.parse output =
      Some (Json.JObject
              [ ("fields", Json.JObject members);
                ("level", Json.JString (LogLevel_String lvl));
                ("message", Json.JString (Json.text message));
                ("timestamp", Json.JString (Time.FormatRFC3339 (now e))) ]) /\
    Time.is_rfc3339 (Time.FormatRFC3339 (now e)) = true /\
    ((lvl = LevelDebug /\ LogLevel_String lvl = "debug") \/
     (lvl = LevelInfo /\ LogLevel_String lvl = "info") \/
     (lvl = LevelWarn /\ LogLevel_String lvl = "warn") \/
     (lvl = LevelError /\ LogLevel_String lvl = "error") \/
     (lvl = LevelFatal /\ LogLevel_String lvl = "fatal")) /\
    (forall s, Json.ValidString s = true -> Json.text s = s) /\
    Json.member "method" members = read_back (Method fields) /\
    Json.member "path" members = read_back (Path fields) /\
    Json.member "status" members = read_back (Status fields) /\
    Json.member "size" members = read_back (Size fields) /\
    Json.member "latency" members = read_back (Latency fields) /\
    Json.member "caller_info" members = read_back (CallerInfo fields) /\
    (forall key v, Json.member key members = Some v ->
       In key ["method"; "path"; "status"; "size"; "latency"; "caller_info"]) /\
    NoDup members.*1.
Proof.
  intros Hdef Hclock.
  destruct (parse_JSONFormatter e lvl message fields) as (output & Hout & Hparse).
  destruct (tagged_keys fields) as [Hnodup Hkeys].
  exists output, (member_value <$> omitempty (tagged fields)).
  split; [exact Hout|]. split; [exact Hparse|].
  split; [apply FormatRFC3339_valid; exact Hclock|].
  split.
  { destruct (LogLevel_String_cases lvl) as [H|[H|[H|[H|[H|[H _]]]]]]; [tauto..|contradiction]. }
  split; [apply text_valid|].
  assert (Hfield : forall key val, In (key, val) (tagged fields) ->
            Json.member key (member_value <$> omitempty (tagged fields)) = read_back val).
  { intros key val Hin. apply member_omitempty; assumption. }
  split; [apply Hfield; left; reflexivity|].
  split; [apply Hfield; right; left; reflexivity|].
  split; [apply Hfield; do 2 right; left; reflexivity|].
  split; [apply Hfield; do 3 right; left; reflexivity|].
  split; [apply Hfield; do 4 right; left; reflexivity|].
  split; [apply Hfield; do 5 right; left; reflexivity|].
  split.
  - intros key v Hm.
    destruct (member_declared key v (tagged fields) Hkeys Hm) as (val & Hin & _).
    unfold tagged in Hin. cbn [In] in Hin |- *.
    destruct Hin as [H|[H|[H|[H|[H|[H|[]]]]]]]; injection H as <- _; tauto.
  - apply members_NoDup.
Qed.

Lemma JSONFormatter_valid_json_witness :
  exists output members,
    JSONFormatter Example.env LevelError "Internal server error" Example.checkout = Some output /\
    Json.parse output =
      Some (Json.JObject
              [ ("fields", Json.JObject members);
                ("level", Json.JString "error");
                ("message", Json.JString "Internal server error");
                ("timestamp", Json.JString "2025-06-14T12:30:25Z") ]) /\
    Json.member "status" members = Some (Json.JString "200 OK") /\
    Json.member "caller_info" members = None.
Proof.
  destruct (JSONFormatter_valid_json Example.env LevelError "Internal server error"
              Example.checkout)
    as (output & members & Hout & Hparse & _ & _ & _ & _ & _ & Hstatus & _ & _ & Hci & _).
  - unfold defined, LevelDebug, LevelError, LevelFatal. lia.
  - unfold Time.valid. cbn. lia.
  - exists output, members. split; [exact Hout|]. split; [exact Hparse|]. split.
    + exact Hstatus.
    + exact Hci.
Defined.

(** ** No control byte is written by the JSON encoder *)

Section JsonPrintable.

Import Json.

Local Open Scope N_scope.

Lemma in_range_high lo hi b :
  128 <= lo -> in_range lo hi b = true -> (byte b <? 128) = false.
Proof.
  unfold in_range. intros Hlo H. apply andb_true_iff in H as [H _].
  apply N.leb_le in H. apply N.ltb_ge. lia.
Qed.

Lemma accept_lo b size lo hi : accept b = Some (size, lo, hi) -> 128 <= lo.
Proof.
  unfold accept.
  repeat match goal with |- context [if ?c then _ else _] => destruct c end;
    intros [= <- <- <-] || discriminate; lia.
Qed.

Lemma rune_tail_high b s k : rune_tail b s = Some k -> high_prefix k s = true.
Proof.
  unfold rune_tail. destruct (accept b) as [[[size lo] hi]|] eqn:Ha; [|discriminate].
  apply accept_lo in Ha.
  destruct s as [|b1 s1]; [discriminate|].
  destruct (in_range lo hi b1) eqn:H1; [|discriminate].
  apply (in_range_high _ _ _ Ha) in H1.
  assert (forall c, in_range 128 191 c = true -> (byte c <? 128) = false) as Hc
    by (intros c; apply in_range_high; lia).
  destruct size as [|[|[|size]]].
  1,2,4: destruct s1 as [|b2 s2]; [discriminate|];
         destruct (in_range 128 191 b2) eqn:H2; [|discriminate]; apply Hc in H2.
  - destruct s2 as [|b3 s3]; [discriminate|].
    destruct (in_range 128 191 b3) eqn:H3; [|discriminate]. apply Hc in H3.
    intros [= <-]. cbn [high_prefix]. rewrite H1, H2, H3. reflexivity.
  - destruct s2 as [|b3 s3]; [discriminate|].
    destruct (in_range 128 191 b3) eqn:H3; [|discriminate]. apply Hc in H3.
    intros [= <-]. cbn [high_prefix]. rewrite H1, H2, H3. reflexivity.
  - destruct size as [|size].
    + intros [= <-]. cbn [high_prefix]. rewrite H1, H2. reflexivity.
    + destruct s2 as [|b3 s3]; [discriminate|].
      destruct (in_range 128 191 b3) eqn:H3; [|discriminate]. apply Hc in H3.
      intros [= <-]. cbn [high_prefix]. rewrite H1, H2, H3. reflexivity.
  - intros [= <-]. cbn [high_prefix]. rewrite H1. reflexivity.
Qed.

Lemma high_printable b : (byte b <? 128) = false -> printable b = true.
Proof.
  unfold printable. intros H. apply N.ltb_ge in H.
  apply negb_true_iff, N.ltb_ge. lia.
Qed.

Lemma ascii_written_printable b :
  all_bytes printable (if htmlSafe b then String b "" else escape b) = true.
Proof. destruct b as [[] [] [] [] [] [] [] []]; reflexivity. Qed.

Lemma hex_printable b : printable (hex (N.land (byte b) 15)) = true.
Proof. destruct b as [[] [] [] [] [] [] [] []]; reflexivity. Qed.

Lemma appendBody_printable (n : nat) : forall s k,
  (String.length s <= n)%nat ->
  high_prefix k s = true ->
  all_bytes printable (appendBody k s) = true.
Proof.
  induction n as [n IH] using lt_wf_ind. intros s k Hn Hk.
  destruct s as [|b s']; [reflexivity|].
  cbn [String.length] in Hn. cbn [appendBody].
  destruct k as [|k].
  2: { cbn [high_prefix] in Hk. apply andb_true_iff in Hk as [Hb Hk].
       apply negb_true_iff in Hb.
       cbn [all_bytes]. rewrite (high_printable _ Hb).
       apply (IH (String.length s')); [lia | lia | assumption]. }
  destruct (byte b <? 128) eqn:Hb.
  { rewrite all_bytes_app, ascii_written_printable.
    apply (IH (String.length s')); [lia | lia | reflexivity]. }
  destruct (rune_tail b s') as [k|] eqn:Htail.
  2: { rewrite all_bytes_app. change (all_bytes printable replacement) with true.
       apply (IH (String.length s')); [lia | lia | reflexivity]. }
  assert (all_bytes printable (String b (appendBody k s')) = true) as Hcopy.
  { cbn [all_bytes]. rewrite (high_printable _ Hb).
    apply (IH (String.length s')); [lia | lia |]. apply (rune_tail_high _ _ _ Htail). }
  destruct s' as [|b1 [|b2 s3]]; try exact Hcopy.
  destruct (line_separator b b1 b2); [|exact Hcopy].
  rewrite all_bytes_app. cbn [all_bytes]. rewrite hex_printable.
  change (all_bytes printable (String backslash "u202")) with true.
  cbn [String.length] in Hn.
  apply (IH (String.length s3)); [lia | lia | reflexivity].
Qed.

Lemma appendString_printable s : all_bytes printable (appendString s) = true.
Proof.
  unfold appendString. cbn [all_bytes]. rewrite all_bytes_app.
  rewrite (appendBody_printable (String.length s)) by (lia || reflexivity).
  reflexivity.
Qed.

Lemma Marshal_LogFields_printable fields :
  all_bytes printable (Marshal_LogFields fields) = true.
Proof.
  unfold Marshal_LogFields. rewrite !all_bytes_app.
  rewrite all_bytes_Join; [reflexivity | reflexivity |].
  apply Forall_fmap, Forall_forall. intros kv _. cbn.
  rewrite !all_bytes_app, !appendString_printable. reflexivity.
Qed.

(** The JSON formatter writes no ESC byte, whatever it is given. *)
Lemma JSONFormatter_no_ESC e lvl message fields rendered :
  JSONFormatter e lvl message fields = Some rendered -> has_byte ESC rendered = false.
Proof.
  intros [= <-]. apply (all_bytes_lacks printable); [reflexivity|].
  unfold Marshal_map. rewrite sorted_entry, !all_bytes_app.
  rewrite all_bytes_Join; [reflexivity | reflexivity |].
  cbn [fmap list_fmap fst snd Marshal_any].
  repeat (apply Forall_cons; split;
          [rewrite !all_bytes_app, ?appendString_printable, ?Marshal_LogFields_printable;
           reflexivity|]).
  apply Forall_nil. exact I.
Qed.

End JsonPrintable.

(** ** Colour disabled *)

Lemma ReplaceAll_lacks c s old new :
  has_byte c s = false -> c <> new -> has_byte c (ReplaceAll s old new) = false.
Proof.
  intros Hs Hc. induction s as [|x s IH]; [reflexivity|].
  cbn in Hs |- *. apply orb_false_iff in Hs as [Hx Hs].
  rewrite (IH Hs), orb_false_r.
  destruct (Ascii.eqb x old); [|assumption].
  apply Ascii.eqb_neq. congruence.
Qed.

(** C5, as stated, fails for the text formatter: the strip step makes one
    pass, and a message that nests one sequence inside another leaves a
    sequence in the line that is written. *)
Lemma nested_sequence_survives :
  let s := Example.st LevelInfo defaultFormatter in
  let fields := with_CallerInfo Example.checkout "cmd/main.go:12" in
  let line := "[INFO] 2025-06-14T12:30:25Z POST /api/checkout 200 OK 51KB 120ms - "
              +:+ String ESC "[0m" +:+ " - cmd/main.go:12" +:+ String LF "" in
  color (logger s) = false /\
  writes (events (Log Example.env Example.stack LevelInfo nested_csi fields s).2)
    = [(Example.buf, line)] /\
  has_csi line = true.
Proof. vm_compute. repeat split. Qed.

(** ** The tests of the package, run on the embedding *)

Section PackageTests.

(** [TestDefaultFormatterOutput] *)
Example TestDefaultFormatterOutput :
  let line := "[DEBUG] 2025-06-14T12:30:25Z GET /status - test debug message - cmd/api/main.go:12"
              +:+ String LF "" in
  contents ((SetOutput Example.buf ;;; SetColor false ;;; SetLevel LevelDebug ;;;
             Debug Example.env Example.stack "test debug message"
               (NewLogFields "GET" "/status" "" "" ""))
              (Example.fresh "test")).2 !! Example.buf = Some line /\
  Contains line "DEBUG" = true /\ Contains line "GET /status" = true.
Proof. vm_compute. repeat split. Qed.

(** [TestJSONFormatterOutput] *)
Example TestJSONFormatterOutput :
  let fields := NewLogFields "" "/ping" "200 OK" "" "" in
  let rendered := default "" (JSONFormatter Example.env LevelInfo "json output test"
                                (with_CallerInfo fields "cmd/api/main.go:12")) in
  contents ((SetOutput Example.buf ;;; SetLevel LevelInfo ;;; SetFormatter JSONFormatter ;;;
             Info Example.env Example.stack "json output test" fields)
              (Example.fresh "json")).2 !! Example.buf
    = Some (rendered +:+ String LF "") /\
  exists entry members,
    Json.parse rendered = Some (Json.JObject entry) /\
    Json.member "message" entry = Some (Json.JString "json output test") /\
    Json.member "fields" entry = Some (Json.JObject members) /\
    Json.member "status" members = Some (Json.JString "200 OK") /\
    Json.member "path" members = Some (Json.JString "/ping").
Proof.
  split; [vm_compute; reflexivity|].
  exists [ ("fields", Json.JObject [ ("path", Json.JString "/ping");
                                     ("status", Json.JString "200 OK");
                                     ("caller_info", Json.JString "cmd/api/main.go:12") ]);
           ("level", Json.JString "info");
           ("message", Json.JString "json output test");
           ("timestamp", Json.JString "2025-06-14T12:30:25Z") ],
         [ ("path", Json.JString "/ping"); ("status", Json.JString "200 OK");
           ("caller_info", Json.JString "cmd/api/main.go:12") ].
  vm_compute. repeat split.
Qed.

(** [TestLoggerWithContext] *)
Example TestLoggerWithContext :
  let line := String ESC "[92m[INFO]" +:+ String ESC "[0m "
              +:+ String ESC "[97m2025-06-14T12:30:25Z" +:+ String ESC "[0m "
              +:+ String ESC "[97m-" +:+ String ESC "[0m "
              +:+ String ESC "[36mlog with context" +:+ String ESC "[0m "
              +:+ String ESC "[97m-" +:+ String ESC "[0m "
              +:+ String ESC "[94mcmd/api/main.go:12" +:+ String ESC "[0m"
              +:+ String LF "" in
  contents ((SetOutput Example.buf ;;; SetLevel LevelInfo ;;;
             LogCtx Example.env Example.stack (mkContext {[ "userID" := "abc123" ]} false)
               LevelInfo "log with context" (NewLogFields "" "/ctx" "" "" ""))
              (Example.fresh "ctx")).2 !! Example.buf = Some line /\
  Contains line "log with context" = true.
Proof. vm_compute. repeat split. Qed.

End PackageTests.

(** * Part III: further properties of the package *)

(** ** [stripColors] *)

Section StripMore.

Lemma csi_tail_suffix s r : csi_tail s = Some r -> exists m, s = m +:+ r.
Proof.
  revert r. induction s as [|c s IH]; intros r; cbn [csi_tail]; [discriminate|].
  destruct (is_param c).
  - intros H. destruct (IH r H) as [m ->]. exists (String c m). reflexivity.
  - destruct (is_final c); [|discriminate]. intros [= <-]. exists (String c ""). reflexivity.
Qed.

Lemma csi_match_suffix s r : csi_match s = Some r -> exists m, s = m +:+ r.
Proof.
  destruct s as [|c1 [|c2 s]]; cbn [csi_match]; try discriminate.
  destruct (_ && _); [|discriminate].
  intros H. destruct (csi_tail_suffix _ _ H) as [m ->].
  exists (String c1 (String c2 m)). reflexivity.
Qed.

Lemma bytes_app s t :
  list_ascii_of_string (s +:+ t) = list_ascii_of_string s ++ list_ascii_of_string t.
Proof. induction s as [|c s IH]; [reflexivity|]. rewrite sapp_cons. cbn. rewrite IH. reflexivity. Qed.

Lemma stripColors_sublist (n : nat) : forall s,
  (String.length s <= n)%nat ->
  list_ascii_of_string (stripColors s) `sublist_of` list_ascii_of_string s.
Proof.
  induction n as [n IH] using lt_wf_ind. intros s Hn.
  rewrite stripColors_step. destruct (csi_match s) as [rest|] eqn:Hm.
  - pose proof (csi_match_shorter _ _ Hm) as Hlt.
    destruct (csi_match_suffix _ _ Hm) as [m Hs].
    rewrite Hs. rewrite bytes_app. apply sublist_inserts_l.
    apply (IH (String.length rest)); lia.
  - destruct s as [|c s']; [reflexivity|]. cbn [String.length] in Hn.
    cbn [list_ascii_of_string]. apply sublist_skip.
    apply (IH (String.length s')); lia.
Qed.

(** The bytes of a match are bytes of the pattern. *)
Lemma csi_tail_bytes s r :
  csi_tail s = Some r -> exists m, s = m +:+ r /\ all_bytes is_csi_byte m = true.
Proof.
  revert r. induction s as [|c s IH]; intros r; cbn [csi_tail]; [discriminate|].
  destruct (is_param c) eqn:Hp.
  - intros H. destruct (IH r H) as (m & -> & Hm). exists (String c m). split; [reflexivity|].
    cbn [all_bytes]. rewrite Hm. unfold is_csi_byte. rewrite Hp.
    rewrite !orb_true_r. reflexivity.
  - destruct (is_final c) eqn:Hf; [|discriminate]. intros [= <-].
    exists (String c ""). split; [reflexivity|].
    cbn [all_bytes]. unfold is_csi_byte. rewrite Hf. rewrite !orb_true_r. reflexivity.
Qed.

Lemma csi_match_bytes s r :
  csi_match s = Some r -> exists m, s = m +:+ r /\ all_bytes is_csi_byte m = true.
Proof.
  destruct s as [|c1 [|c2 s]]; cbn [csi_match]; try discriminate.
  destruct (Ascii.eqb c1 ESC) eqn:H1; [|discriminate].
  destruct (Ascii.eqb c2 "[") eqn:H2; [|discriminate]. cbn [andb].
  intros H. destruct (csi_tail_bytes _ _ H) as (m & -> & Hm).
  exists (String c1 (String c2 m)). split; [reflexivity|].
  cbn [all_bytes]. rewrite Hm. unfold is_csi_byte. rewrite H1, H2.
  rewrite !orb_true_r. reflexivity.
Qed.

Lemma count_byte_app c s t :
  count_byte c (s +:+ t) = (count_byte c s + count_byte c t)%nat.
Proof.
  induction s as [|d s IH]; [reflexivity|]. rewrite sapp_cons. cbn [count_byte].
  rewrite IH. lia.
Qed.

Lemma count_byte_foreign P c s :
  P c = false -> all_bytes P s = true -> count_byte c s = 0%nat.
Proof.
  intros Hc. induction s as [|d s IH]; [reflexivity|]. cbn [all_bytes count_byte].
  intros H. apply andb_true_iff in H as [Hd Hs]. rewrite (IH Hs).
  destruct (Ascii.eqb_spec d c) as [->|_]; [congruence | reflexivity].
Qed.

Lemma stripColors_count (n : nat) : forall c s,
  (String.length s <= n)%nat ->
  is_csi_byte c = false ->
  count_byte c (stripColors s) = count_byte c s.
Proof.
  induction n as [n IH] using lt_wf_ind. intros c s Hn Hc.
  rewrite stripColors_step. destruct (csi_match s) as [rest|] eqn:Hm.
  - pose proof (csi_match_shorter _ _ Hm) as Hlt.
    destruct (csi_match_bytes _ _ Hm) as (m & Hs & Hbytes).
    rewrite Hs. rewrite count_byte_app.
    rewrite (count_byte_foreign is_csi_byte c m Hc Hbytes).
    apply (IH (String.length rest)); [lia | lia | assumption].
  - destruct s as [|d s']; [reflexivity|]. cbn [String.length] in Hn.
    cbn [count_byte]. f_equal. apply (IH (String.length s')); [lia | lia | assumption].
Qed.

End StripMore.

(** X1. [stripColors] leaves a string as it is exactly when no position of
    the string starts a match of the pattern. *)
Theorem stripColors_identity_iff s : stripColors s = s <-> has_csi s = false.
Proof. split; [apply stripColors_fixed | apply stripColors_clean]. Qed.

(** X2. [stripColors] only deletes: its result is the input with some bytes
    left out, in the same order, never longer; and every byte that is not ESC,
    a bracket, a digit, a semicolon or one of [m], [G], [K] occurs in the
    result as many times as in the input. *)
Theorem stripColors_only_deletes s :
  list_ascii_of_string (stripColors s) `sublist_of` list_ascii_of_string s /\
  (String.length (stripColors s) <= String.length s)%nat /\
  (forall c, is_csi_byte c = false -> count_byte c (stripColors s) = count_byte c s).
Proof.
  split; [|split].
  - apply (stripColors_sublist (String.length s)). lia.
  - apply (stripColors_length (String.length s)). lia.
  - intros c Hc. apply (stripColors_count (String.length s)); [lia | assumption].
Qed.

(** ** The caller token *)

Section CallerToken.

Lemma Split_cons s sep : exists w ws, Split s sep = w :: ws.
Proof.
  induction s as [|c s (w & ws & IH)]; cbn [Split]; [eauto|].
  destruct (Ascii.eqb c sep); [eauto|]. rewrite IH. eauto.
Qed.

(** [strings.Join] undoes [strings.Split]. *)
Lemma Join_Split s sep : Join (Split s sep) (String sep "") = s.
Proof.
  induction s as [|c s IH]; [reflexivity|]. cbn [Split].
  destruct (Split_cons s sep) as (w & ws & Hs). rewrite Hs in *.
  destruct (Ascii.eqb_spec c sep) as [->|Hne].
  - rewrite Join_cons, IH. reflexivity.
  - destruct ws as [|w' ws].
    + cbn [Join] in *. rewrite IH. reflexivity.
    + rewrite Join_cons in *. rewrite sapp_cons, IH. reflexivity.
Qed.

Lemma Split_length s sep : length (Split s sep) = S (count_byte sep s).
Proof.
  induction s as [|c s IH]; [reflexivity|]. cbn [Split count_byte].
  destruct (Split_cons s sep) as (w & ws & Hs). rewrite Hs in *.
  destruct (Ascii.eqb c sep); cbn [length] in *; lia.
Qed.

Lemma Split_pieces s sep : Forall (fun w => count_byte sep w = 0%nat) (Split s sep).
Proof.
  induction s as [|c s IH]; [repeat constructor|]. cbn [Split].
  destruct (Split_cons s sep) as (w & ws & Hs). rewrite Hs in *.
  apply Forall_cons in IH as [Hw Hws].
  destruct (Ascii.eqb c sep) eqn:Hc.
  - repeat (apply Forall_cons; split); auto.
  - apply Forall_cons; split; [|assumption]. cbn [count_byte]. rewrite Hc, Hw. reflexivity.
Qed.

Lemma Join_count (pieces : list string) sep :
  Forall (fun w => count_byte sep w = 0%nat) pieces ->
  count_byte sep (Join pieces (String sep "")) = Nat.pred (length pieces).
Proof.
  induction 1 as [|w ws Hw Hws IH]; [reflexivity|].
  destruct ws as [|w' ws]; [exact Hw|].
  rewrite Join_cons, !count_byte_app, Hw, IH. cbn [count_byte length Nat.pred].
  rewrite Ascii.eqb_refl. lia.
Qed.

(** Joining the last pieces gives the end of the join of all of them. *)
Lemma Join_drop (pieces : list string) sep k :
  (k < length pieces)%nat ->
  exists before, Join pieces sep = before +:+ Join (drop k pieces) sep.
Proof.
  revert pieces. induction k as [|k IH]; intros pieces Hk.
  - exists "". rewrite drop_0. reflexivity.
  - destruct pieces as [|w [|w' ws]]; cbn [length] in Hk; try lia.
    destruct (IH (w' :: ws)) as [before Hb]; [cbn [length]; lia|].
    exists (w +:+ sep +:+ before). rewrite Join_cons, Hb. cbn [drop].
    rewrite !sapp_assoc. reflexivity.
Qed.

End CallerToken.

(** X3. The caller-info token is the end of the file path, a colon and the
    line number in decimal.  The part of the path it keeps is a suffix of the
    path that holds at most two slashes; a path that holds at most two
    slashes is kept whole. *)
Theorem caller_token_shape file line :
  exists short,
    caller_token file line = short +:+ ":" +:+ Itoa line /\
    (exists before, file = before +:+ short) /\
    (count_byte "/" short <= 2)%nat /\
    ((count_byte "/" file <= 2)%nat -> short = file).
Proof.
  exists (Join (last3 (Split file "/")) "/"). split; [reflexivity|].
  pose proof (Split_length file "/") as Hlen.
  pose proof (Split_pieces file "/") as Hpieces.
  pose proof (Join_Split file "/") as Hjoin.
  unfold last3. destruct (Nat.ltb_spec 3 (length (Split file "/"))) as [Hlong|Hshort].
  - split; [|split].
    + destruct (Join_drop (Split file "/") "/" (length (Split file "/") - 3)) as [before Hb];
        [lia|].
      exists before. rewrite <- Hjoin at 1. exact Hb.
    + rewrite Join_count.
      * rewrite length_drop. lia.
      * apply Forall_drop. assumption.
    + intros Hfew. lia.
  - split; [|split].
    + exists "". rewrite Hjoin. reflexivity.
    + rewrite Hjoin. lia.
    + intros _. exact Hjoin.
Qed.

(** ** The JSON formatter: the bytes it writes *)

Section JsonPlain.

Import Json.

Local Open Scope N_scope.

Lemma high_plain b : (byte b <? 128) = false -> json_plain b = true.
Proof.
  destruct b as [[] [] [] [] [] [] [] []]; intros H; try discriminate H; reflexivity.
Qed.

Lemma ascii_written_plain b :
  all_bytes json_plain (if htmlSafe b then String b "" else escape b) = true.
Proof. destruct b as [[] [] [] [] [] [] [] []]; reflexivity. Qed.

Lemma hex_plain b : json_plain (hex (N.land (byte b) 15)) = true.
Proof. destruct b as [[] [] [] [] [] [] [] []]; reflexivity. Qed.

Lemma appendBody_plain (n : nat) : forall s k,
  (String.length s <= n)%nat ->
  high_prefix k s = true ->
  all_bytes json_plain (appendBody k s) = true.
Proof.
  induction n as [n IH] using lt_wf_ind. intros s k Hn Hk.
  destruct s as [|b s']; [reflexivity|].
  cbn [String.length] in Hn. cbn [appendBody].
  destruct k as [|k].
  2: { cbn [high_prefix] in Hk. apply andb_true_iff in Hk as [Hb Hk].
       apply negb_true_iff in Hb.
       cbn [all_bytes]. rewrite (high_plain _ Hb).
       apply (IH (String.length s')); [lia | lia | assumption]. }
  destruct (byte b <? 128) eqn:Hb.
  { rewrite all_bytes_app, ascii_written_plain.
    apply (IH (String.length s')); [lia | lia | reflexivity]. }
  destruct (rune_tail b s') as [k|] eqn:Htail.
  2: { rewrite all_bytes_app. change (all_bytes json_plain replacement) with true.
       apply (IH (String.length s')); [lia | lia | reflexivity]. }
  assert (all_bytes json_plain (String b (appendBody k s')) = true) as Hcopy.
  { cbn [all_bytes]. rewrite (high_plain _ Hb).
    apply (IH (String.length s')); [lia | lia |]. apply (rune_tail_high _ _ _ Htail). }
  destruct s' as [|b1 [|b2 s3]]; try exact Hcopy.
  destruct (line_separator b b1 b2); [|exact Hcopy].
  rewrite all_bytes_app. cbn [all_bytes]. rewrite hex_plain.
  change (all_bytes json_plain (String backslash "u202")) with true.
  cbn [String.length] in Hn.
  apply (IH (String.length s3)); [lia | lia | reflexivity].
Qed.

Lemma appendString_plain s : all_bytes json_plain (appendString s) = true.
Proof.
  unfold appendString. cbn [all_bytes]. rewrite all_bytes_app.
  rewrite (appendBody_plain (String.length s)) by (lia || reflexivity).
  reflexivity.
Qed.

Lemma Marshal_LogFields_plain fields :
  all_bytes json_plain (Marshal_LogFields fields) = true.
Proof.
  unfold Marshal_LogFields. rewrite !all_bytes_app.
  rewrite all_bytes_Join; [reflexivity | reflexivity |].
  apply Forall_fmap, Forall_forall. intros kv _. cbn.
  rewrite !all_bytes_app, !appendString_plain. reflexivity.
Qed.

Lemma JSONFormatter_plain e lvl message fields :
  exists rendered,
    JSONFormatter e lvl message fields = Some rendered /\
    all_bytes json_plain rendered = true.
Proof.
  eexists. split; [reflexivity|].
  unfold Marshal_map. rewrite sorted_entry, !all_bytes_app.
  rewrite all_bytes_Join; [reflexivity | reflexivity |].
  cbn [fmap list_fmap fst snd Marshal_any].
  repeat (apply Forall_cons; split;
          [rewrite !all_bytes_app, ?appendString_plain, ?Marshal_LogFields_plain;
           reflexivity|]).
  apply Forall_nil. exact I.
Qed.

End JsonPlain.

(** X5. Whatever the level, the message and the fields, the JSON formatter
    returns (it never panics), and what it returns holds no control byte, so
    no newline and no ESC, and none of the bytes [<], [>], [&]: the entry is
    one physical line, and [stripColors] leaves it as it is. *)
Theorem JSONFormatter_one_plain_line e lvl message fields :
  exists rendered,
    JSONFormatter e lvl message fields = Some rendered /\
    all_bytes json_plain rendered = true /\
    count_byte LF rendered = 0%nat /\
    has_byte ESC rendered = false /\
    has_byte "<" rendered = false /\ has_byte ">" rendered = false /\
    has_byte "&" rendered = false /\
    stripColors rendered = rendered.
Proof.
  destruct (JSONFormatter_plain e lvl message fields) as (rendered & Hr & Hplain).
  exists rendered. split; [exact Hr|]. split; [exact Hplain|].
  assert (has_byte ESC rendered = false) as Hesc
    by (apply (all_bytes_lacks json_plain); [reflexivity | exact Hplain]).
  split; [apply (count_byte_foreign json_plain); [reflexivity | exact Hplain]|].
  split; [exact Hesc|].
  repeat (split; [apply (all_bytes_lacks json_plain); [reflexivity | exact Hplain]|]).
  apply stripColors_clean, no_esc_no_csi. exact Hesc.
Qed.

(** ** [Log]: every way a call can end *)

Section LogOutcomes.

Variables (e : Env) (callers : Runtime.Stack).
Variables (lvl : LogLevel) (msg : string) (fields : LogFields).
Variable s : State.

(** The state left by a call whose write panicked on a nil writer: the
    mutex was taken and, by the deferred call, released. *)
Lemma Log_outcomes :
  level (logger s) <= lvl ->
  Log e callers lvl msg fields s =
  match formatter (logger s) e lvl (ReplaceAll msg LF " ")
          (fields_for_formatter callers fields) with
  | None => (Panics, formatted callers lvl msg fields s)
  | Some rendered =>
      if mutex (logger s) then (Blocks, formatted callers lvl msg fields s)
      else
        match sinks s !! out (logger s) with
        | None =>
            (Panics,
             {| logger := logger s; sinks := sinks s;
                events := events (formatted callers lvl msg fields s)
                          ++ [EvLock; EvUnlock] |})
        | Some wr =>
            (Returns tt,
             written callers lvl msg fields s rendered
               (write wr (data wr) (line_of s rendered)).1
               (write wr (data wr) (line_of s rendered)).2 wr)
        end
  end.
Proof.
  intros Hlvl.
  destruct (formatter (logger s) e lvl _ _) as [rendered|] eqn:Hfmt.
  2: { apply Log_formatter_panics; assumption. }
  destruct (mutex (logger s)) eqn:Hmx.
  { rewrite Log_prepare by assumption. rewrite Hfmt. cbv zeta.
    unfold bind, Lock. cbn [logger formatted]. rewrite Hmx. reflexivity. }
  destruct (sinks s !! out (logger s)) as [wr|] eqn:Hsink.
  { apply Log_run; try assumption. apply surjective_pairing. }
  rewrite Log_prepare by assumption. rewrite Hfmt. cbv zeta.
  unfold bind, Lock, defer, Fprintln, ret, Unlock, emit, formatted.
  cbn [logger sinks events]. rewrite Hmx.
  cbn [logger sinks events set_mutex out]. rewrite Hsink.
  cbn [logger sinks events]. f_equal. f_equal.
  - fold (set_mutex (set_mutex (logger s) true) false).
    apply set_mutex_unlocked; assumption.
  - rewrite <- !(assoc_L (++)). reflexivity.
Qed.

End LogOutcomes.

(** X6. A call of [Log] touches no writer but the logger's own: whatever
    the outcome of the call, every other writer of the heap is as it was. *)
Theorem Log_other_sinks_untouched e callers lvl msg fields s (w : addr) :
  w <> out (logger s) ->
  sinks (Log e callers lvl msg fields s).2 !! w = sinks s !! w.
Proof.
  intros Hw. destruct (Z.lt_ge_cases lvl (level (logger s))) as [H|H].
  { rewrite Log_suppressed by assumption. reflexivity. }
  rewrite Log_outcomes by assumption.
  destruct (formatter _ _ _ _ _); [|reflexivity].
  destruct (mutex _); [reflexivity|].
  destruct (sinks s !! out (logger s)); [|reflexivity].
  cbn [snd written sinks]. apply lookup_insert_ne. congruence.
Qed.

Lemma Log_other_sinks_untouched_witness :
  sinks (Log Example.env Example.stack LevelError "disk full" Example.checkout
           (Example.st LevelInfo defaultFormatter)).2 !! Stdout
  = sinks (Example.st LevelInfo defaultFormatter) !! Stdout.
Proof.
  apply (Log_other_sinks_untouched Example.env Example.stack LevelError "disk full"
           Example.checkout (Example.st LevelInfo defaultFormatter) Stdout).
  vm_compute. discriminate.
Defined.

(** X7. A [bytes.Buffer] used as sink only grows: after a call of [Log],
    whatever its outcome, the buffer holds what it held followed by nothing or
    by one entry that ends with a newline; the entry is there when the call
    returns from a level that is not suppressed. *)
Theorem Log_buffer_append_only e callers lvl msg fields s content :
  sinks s !! out (logger s) = Some (Buffer content) ->
  exists suffix,
    sinks (Log e callers lvl msg fields s).2 !! out (logger s)
      = Some (Buffer (content +:+ suffix)) /\
    (suffix = "" \/ exists body, suffix = body +:+ String LF "") /\
    (level (logger s) <= lvl ->
     (Log e callers lvl msg fields s).1 = Returns tt ->
     exists body, suffix = body +:+ String LF "").
Proof.
  intros Hsink. destruct (Z.lt_ge_cases lvl (level (logger s))) as [H|H].
  { exists "". rewrite Log_suppressed by assumption. cbn [snd fst].
    rewrite sapp_nil_r. split; [exact Hsink|]. split; [left; reflexivity|]. lia. }
  rewrite Log_outcomes by assumption.
  destruct (formatter _ _ _ _ _) as [rendered|].
  2: { exists "". cbn [snd fst formatted sinks]. rewrite sapp_nil_r.
       split; [exact Hsink|]. split; [left; reflexivity|]. discriminate. }
  destruct (mutex _).
  { exists "". cbn [snd fst formatted sinks]. rewrite sapp_nil_r.
    split; [exact Hsink|]. split; [left; reflexivity|]. discriminate. }
  rewrite Hsink. exists (line_of s rendered). cbn [snd fst written sinks].
  split; [rewrite lookup_insert_eq; reflexivity|].
  split; [right|intros _ _]; eexists; reflexivity.
Qed.

Lemma Log_buffer_append_only_witness :
  exists suffix,
    sinks (Log Example.env Example.stack LevelError "disk full" Example.checkout
             (Example.st LevelInfo JSONFormatter)).2 !! Example.buf
      = Some (Buffer ("" +:+ suffix)) /\
    (suffix = "" \/ exists body, suffix = body +:+ String LF "").
Proof.
  destruct (Log_buffer_append_only Example.env Example.stack LevelError "disk full"
              Example.checkout (Example.st LevelInfo JSONFormatter) "")
    as (suffix & Hs & Hshape & _).
  - reflexivity.
  - exists suffix. split; [exact Hs | exact Hshape].
Defined.

(** X8. When the logger's writer is nil the call panics inside the locked
    section, after the formatter has run; the deferred [Unlock] has released
    the mutex, the logger is as it was and nothing has been written. *)
Theorem Log_nil_sink e callers lvl msg fields s rendered :
  level (logger s) <= lvl ->
  mutex (logger s) = false ->
  formatter (logger s) e lvl (ReplaceAll msg LF " ")
            (fields_for_formatter callers fields) = Some rendered ->
  sinks s !! out (logger s) = None ->
  Log e callers lvl msg fields s =
  (Panics,
   {| logger := logger s; sinks := sinks s;
      events := events s ++ capture_events fields ++
                [EvFormat lvl (ReplaceAll msg LF " ") (fields_for_formatter callers fields);
                 EvLock; EvUnlock] |}) /\
  mutex (logger (Log e callers lvl msg fields s).2) = false /\
  writes (events (Log e callers lvl msg fields s).2) = writes (events s).
Proof.
  intros Hlvl Hmx Hfmt Hsink.
  rewrite Log_outcomes by assumption. rewrite Hfmt, Hmx, Hsink.
  cbn [snd logger events formatted]. split; [|split].
  - rewrite <- !(assoc_L (++)). reflexivity.
  - exact Hmx.
  - rewrite !writes_app, writes_capture. cbn. rewrite !app_nil_r. reflexivity.
Qed.

Lemma Log_nil_sink_witness :
  let s := {| logger := Example.lg LevelInfo JSONFormatter; sinks := ∅; events := [] |} in
  mutex (logger (Log Example.env Example.stack LevelError "disk full" Example.checkout s).2)
    = false /\
  (Log Example.env Example.stack LevelError "disk full" Example.checkout s).1 = Panics.
Proof.
  intros s.
  pose (rendered := default "" (JSONFormatter Example.env LevelError "disk full"
                                  (fields_for_formatter Example.stack Example.checkout))).
  destruct (Log_nil_sink Example.env Example.stack LevelError "disk full" Example.checkout
              s rendered) as (Hrun & Hmx & _).
  - vm_compute. discriminate.
  - reflexivity.
  - reflexivity.
  - reflexivity.
  - split; [exact Hmx|]. rewrite Hrun. reflexivity.
Defined.

(** X9. The formatter runs before the mutex is taken: when the mutex is
    held, a call that is not suppressed blocks after the formatter has been
    called, with nothing written and the logger as it was; a suppressed call
    returns at once all the same. *)
Theorem Log_held_mutex e callers lvl msg fields s rendered :
  mutex (logger s) = true ->
  (level (logger s) <= lvl ->
   formatter (logger s) e lvl (ReplaceAll msg LF " ")
             (fields_for_formatter callers fields) = Some rendered ->
   Log e callers lvl msg fields s =
   (Blocks,
    {| logger := logger s; sinks := sinks s;
       events := events s ++ capture_events fields ++
                 [EvFormat lvl (ReplaceAll msg LF " ")
                    (fields_for_formatter callers fields)] |})) /\
  (lvl < level (logger s) -> Log e callers lvl msg fields s = (Returns tt, s)).
Proof.
  intros Hmx. split.
  - intros Hlvl Hfmt. rewrite Log_outcomes by assumption. rewrite Hfmt, Hmx. reflexivity.
  - apply Log_suppressed.
Qed.

Lemma Log_held_mutex_witness :
  let held := {| name := "test"; level := LevelInfo; out := Example.buf; color := false;
                 formatter := JSONFormatter; mutex := true |} in
  let s := {| logger := held; sinks := {[ Example.buf := Buffer "" ]}; events := [] |} in
  (Log Example.env Example.stack LevelError "disk full" Example.checkout s).1 = Blocks /\
  Log Example.env Example.stack LevelDebug "disk full" Example.checkout s = (Returns tt, s).
Proof.
  intros held s.
  pose (rendered := default "" (JSONFormatter Example.env LevelError "disk full"
                                  (fields_for_formatter Example.stack Example.checkout))).
  split.
  - destruct (Log_held_mutex Example.env Example.stack LevelError "disk full"
                Example.checkout s rendered eq_refl) as [Hblock _].
    rewrite Hblock; [reflexivity | vm_compute; discriminate | reflexivity].
  - destruct (Log_held_mutex Example.env Example.stack LevelDebug "disk full"
                Example.checkout s rendered eq_refl) as [_ Hret].
    apply Hret. reflexivity.
Defined.

(** X10. A level outside the five named ones is not refused by [Log].  With
    the text formatter the call panics on the nil colour, before the mutex is
    taken: nothing is written and no writer changes.  With the JSON formatter
    the same call returns, and the entry carries the level [unknown]. *)
Theorem Log_undefined_level e callers lvl msg fields s :
  ~ defined lvl ->
  level (logger s) <= lvl ->
  LogLevel_String lvl = "unknown" /\
  (formatter (logger s) = defaultFormatter ->
   Log e callers lvl msg fields s =
     (Panics,
      {| logger := logger s; sinks := sinks s;
         events := events s ++ capture_events fields ++
                   [EvFormat lvl (ReplaceAll msg LF " ")
                      (fields_for_formatter callers fields)] |})) /\
  (formatter (logger s) = JSONFormatter ->
   mutex (logger s) = false ->
   forall wr, sinks s !! out (logger s) = Some wr ->
   exists rendered members,
     JSONFormatter e lvl (ReplaceAll msg LF " ") (fields_for_formatter callers fields)
       = Some rendered /\
     Json.parse rendered =
       Some (Json.JObject
               [ ("fields", Json.JObject members);
                 ("level", Json.JString "unknown");
                 ("message", Json.JString (Json.text (ReplaceAll msg LF " ")));
                 ("timestamp", Json.JString (Time.FormatRFC3339 (now e))) ]) /\
     (Log e callers lvl msg fields s).1 = Returns tt /\
     writes (events (Log e callers lvl msg fields s).2) =
       writes (events s) ++ [(out (logger s), line_of s rendered)]).
Proof.
  intros Hundef Hlvl.
  assert (Hname : LogLevel_String lvl = "unknown").
  { destruct (LogLevel_String_cases lvl) as [[-> _]|[[-> _]|[[-> _]|[[-> _]|[[-> _]|[_ H]]]]]];
      try exact H; exfalso; apply Hundef; unfold defined, LevelDebug, LevelInfo, LevelWarn,
        LevelError, LevelFatal; lia. }
  split; [exact Hname|]. split.
  - intros Hfmt. rewrite Log_outcomes by assumption. rewrite Hfmt.
    unfold defaultFormatter. rewrite (level_style_undefined lvl Hundef). reflexivity.
  - intros Hfmt Hmx wr Hsink.
    destruct (parse_JSONFormatter e lvl (ReplaceAll msg LF " ")
                (fields_for_formatter callers fields)) as (rendered & Hr & Hp).
    exists rendered, (member_value <$> omitempty (tagged (fields_for_formatter callers fields))).
    rewrite Hname in Hp. split; [exact Hr|]. split; [exact Hp|].
    rewrite Log_outcomes by assumption. rewrite Hfmt, Hr, Hmx, Hsink.
    cbn [fst snd]. split; [reflexivity|]. apply writes_written.
Qed.

Lemma Log_undefined_level_witness :
  LogLevel_String 7 = "unknown" /\
  (Log Example.env Example.stack 7 "disk full" Example.checkout
     (Example.st LevelInfo defaultFormatter)).1 = Panics.
Proof.
  destruct (Log_undefined_level Example.env Example.stack 7 "disk full" Example.checkout
              (Example.st LevelInfo defaultFormatter)) as (Hname & Htext & _).
  - unfold defined, LevelDebug, LevelFatal. lia.
  - vm_compute. discriminate.
  - split; [exact Hname|]. rewrite Htext; reflexivity.
Defined.

Section Outcomes.

(** [Log] itself never ends the process. *)
Lemma Log_outcome_cases e callers lvl msg fields s :
  (Log e callers lvl msg fields s).1 = Returns tt \/
  (Log e callers lvl msg fields s).1 = Panics \/
  (Log e callers lvl msg fields s).1 = Blocks.
Proof.
  destruct (Z.lt_ge_cases lvl (level (logger s))) as [H|H].
  { rewrite Log_suppressed by assumption. left. reflexivity. }
  rewrite Log_outcomes by assumption.
  destruct (formatter _ _ _ _ _); [|right; left; reflexivity].
  destruct (mutex _); [right; right; reflexivity|].
  destruct (sinks s !! out (logger s)); [left|right; left]; reflexivity.
Qed.

End Outcomes.

(** X11. [Fatal] never returns to its caller.  It ends the process with
    status 1 exactly when its call of [Log] returns, which includes a logger
    whose level suppresses fatal entries (nothing is written then) and a
    write that failed; when [Log] panics or blocks, so does [Fatal], in the
    state [Log] left.  The package-level [Fatal] does the same. *)
Theorem Fatal_exits e callers msg fields s :
  let logged := Log e (here 79 :: callers) LevelFatal msg fields s in
  (Fatal e callers msg fields s).2 = logged.2 /\
  (Fatal e callers msg fields s).1 =
    match logged.1 with
    | Returns _ => Exits 1
    | other => other
    end /\
  ((Fatal e callers msg fields s).1 = Exits 1 \/
   (Fatal e callers msg fields s).1 = Panics \/
   (Fatal e callers msg fields s).1 = Blocks) /\
  (LevelFatal < level (logger s) -> Fatal e callers msg fields s = (Exits 1, s)) /\
  (forall rendered wr,
     level (logger s) <= LevelFatal ->
     mutex (logger s) = false ->
     formatter (logger s) e LevelFatal (ReplaceAll msg LF " ")
               (fields_for_formatter (here 79 :: callers) fields) = Some rendered ->
     sinks s !! out (logger s) = Some wr ->
     (Fatal e callers msg fields s).1 = Exits 1 /\
     writes (events (Fatal e callers msg fields s).2) =
       writes (events s) ++ [(out (logger s), line_of s rendered)]) /\
  Default.Fatal e callers msg fields s = Fatal e callers msg fields s.
Proof.
  intros logged.
  assert (Hrun : Fatal e callers msg fields s =
                 (match logged.1 with Returns _ => Exits 1 | other => other end, logged.2)).
  { unfold Fatal, bind, os_Exit. fold logged.
    destruct (Log_outcome_cases e (here 79 :: callers) LevelFatal msg fields s) as [H|[H|H]];
      fold logged in H; destruct logged as [o s']; cbn [fst snd] in *; subst o; reflexivity. }
  split; [rewrite Hrun; reflexivity|].
  split; [rewrite Hrun; reflexivity|].
  split.
  { rewrite Hrun. cbn [fst].
    destruct (Log_outcome_cases e (here 79 :: callers) LevelFatal msg fields s) as [H|[H|H]];
      fold logged in H; rewrite H; auto. }
  split.
  { intros Hlvl. rewrite Hrun. unfold logged. rewrite Log_suppressed by assumption.
    reflexivity. }
  split.
  { intros rendered wr Hlvl Hmx Hfmt Hsink. rewrite Hrun. unfold logged.
    rewrite Log_outcomes by assumption. rewrite Hfmt, Hmx, Hsink. cbn [fst snd].
    split; [reflexivity|]. apply writes_written. }
  unfold Default.Fatal, Fatal, bind.
  rewrite (Log_stack_frame e (here 63 :: callers) LevelFatal msg fields
             (here 79 :: callers) s); reflexivity.
Qed.

(** X13. The four setters write four different fields: two calls of the
    same setter leave what the second one set, and calls of two different
    setters give the same logger in either order. *)
Theorem setters_compose s lvl lvl' w w' enabled enabled' fn fn' :
  ((SetLevel lvl ;;; SetLevel lvl') s = SetLevel lvl' s /\
   (SetOutput w ;;; SetOutput w') s = SetOutput w' s /\
   (SetColor enabled ;;; SetColor enabled') s = SetColor enabled' s /\
   (SetFormatter fn ;;; SetFormatter fn') s = SetFormatter fn' s) /\
  ((SetLevel lvl ;;; SetOutput w) s = (SetOutput w ;;; SetLevel lvl) s /\
   (SetLevel lvl ;;; SetColor enabled) s = (SetColor enabled ;;; SetLevel lvl) s /\
   (SetLevel lvl ;;; SetFormatter fn) s = (SetFormatter fn ;;; SetLevel lvl) s /\
   (SetOutput w ;;; SetColor enabled) s = (SetColor enabled ;;; SetOutput w) s /\
   (SetOutput w ;;; SetFormatter fn) s = (SetFormatter fn ;;; SetOutput w) s /\
   (SetColor enabled ;;; SetFormatter fn) s = (SetFormatter fn ;;; SetColor enabled) s) /\
  logger ((SetLevel lvl ;;; SetOutput w ;;; SetColor enabled ;;; SetFormatter fn) s).2
    = {| name := name (logger s); level := lvl; out := w; color := enabled;
         formatter := fn; mutex := mutex (logger s) |}.
Proof.
  repeat split.
Qed.

(** X14. A logger as [NewLogger] makes it writes to standard output, drops
    debug entries and keeps the colours: a [Debug] call changes nothing, and a
    call at [LevelInfo] or above with the text formatter writes the painted
    line, not stripped, followed by a newline. *)
Theorem NewLogger_defaults nm e callers msg fields heap evs wr :
  heap !! Stdout = Some wr ->
  let s := {| logger := NewLogger nm; sinks := heap; events := evs |} in
  Debug e callers msg fields s = (Returns tt, s) /\
  (forall lvl tag,
     LevelInfo <= lvl ->
     level_style lvl = Some tag ->
     let line := render (NoColor e)
                   (layout tag (Time.FormatRFC3339 (now e)) (ReplaceAll msg LF " ")
                      (fields_for_formatter callers fields)) +:+ String LF "" in
     (Log e callers lvl msg fields s).1 = Returns tt /\
     writes (events (Log e callers lvl msg fields s).2) = writes evs ++ [(Stdout, line)] /\
     sinks (Log e callers lvl msg fields s).2
       = <[Stdout := {| data := (write wr (data wr) line).1; write := write wr |}]> heap).
Proof.
  intros Hsink s. split.
  - unfold Debug. apply Log_suppressed. reflexivity.
  - intros lvl tag Hlvl Htag line.
    rewrite Log_outcomes by exact Hlvl.
    cbn [s logger formatter NewLogger mutex sinks out].
    rewrite (defaultFormatter_layout e lvl _ _ tag Htag), Hsink.
    cbn [fst snd]. split; [reflexivity|]. split; [apply writes_written|reflexivity].
Qed.

Lemma NewLogger_defaults_witness :
  Debug Example.env Example.stack "ready" Example.checkout (Example.fresh "app")
  = (Returns tt, Example.fresh "app").
Proof.
  destruct (NewLogger_defaults "app" Example.env Example.stack "ready" Example.checkout
              {[ Stdout := Buffer ""; Example.buf := Buffer "" ]} [] (Buffer ""))
    as [Hdebug _].
  - reflexivity.
  - exact Hdebug.
Defined.

(** X15. Stripping undoes the painting of the text formatter: for a named
    level and a message and fields without an escape byte, [stripColors] of
    the painted line is the line the formatter gives when colour is switched
    off, and that line is left as it is by a second pass. *)
Theorem defaultFormatter_strip_roundtrip e lvl message fields :
  defined lvl ->
  has_byte ESC message = false ->
  fields_lack ESC fields ->
  exists painted plain,
    defaultFormatter e lvl message fields = Some painted /\
    defaultFormatter {| now := now e; NoColor := true |} lvl message fields = Some plain /\
    stripColors painted = plain /\
    has_byte ESC plain = false /\
    stripColors plain = plain.
Proof.
  intros Hdef Hmsg Hfields.
  destruct (level_style_defined lvl Hdef) as [tag Htag].
  pose proof (layout_lacks ESC lvl tag (now e) message fields Htag (or_introl eq_refl)
                Hmsg Hfields) as Hlack.
  exists (render (NoColor e) (layout tag (Time.FormatRFC3339 (now e)) message fields)),
         (render true (layout tag (Time.FormatRFC3339 (now e)) message fields)).
  split; [apply defaultFormatter_layout; exact Htag|].
  split; [apply (defaultFormatter_layout {| now := now e; NoColor := true |}); exact Htag|].
  split; [apply stripColors_render; exact Hlack|].
  assert (Hplain : has_byte ESC
            (render true (layout tag (Time.FormatRFC3339 (now e)) message fields)) = false).
  { apply render_lacks; [reflexivity | left; reflexivity | exact Hlack]. }
  split; [exact Hplain|].
  apply stripColors_clean, no_esc_no_csi, Hplain.
Qed.

Lemma defaultFormatter_strip_roundtrip_witness :
  exists painted plain,
    defaultFormatter Example.env LevelWarn "cache miss" Example.checkout = Some painted /\
    defaultFormatter Example.plain_env LevelWarn "cache miss" Example.checkout = Some plain /\
    stripColors painted = plain.
Proof.
  destruct (defaultFormatter_strip_roundtrip Example.env LevelWarn "cache miss"
              Example.checkout) as (painted & plain & Hp & Hq & Hs & _).
  - unfold defined, LevelDebug, LevelWarn, LevelFatal. lia.
  - reflexivity.
  - repeat split.
  - exists painted, plain. split; [exact Hp|]. split; [exact Hq | exact Hs].
Defined.

(** X16. The names of the levels.  [String] gives [unknown] exactly for the
    values outside the five named levels, and tells the five apart; the text
    formatter has a tag exactly for the five, and the tag is the upper-case
    form of the name [String] gives. *)
Theorem LogLevel_names lvl :
  (LogLevel_String lvl = "unknown" <-> ~ defined lvl) /\
  (level_style lvl = None <-> ~ defined lvl) /\
  (forall lvl', defined lvl ->
                LogLevel_String lvl' = LogLevel_String lvl -> lvl' = lvl) /\
  (forall tag, level_style lvl = Some tag -> tag.1 = to_upper (LogLevel_String lvl)).
Proof.
  assert (Hcases : lvl = 0 \/ lvl = 1 \/ lvl = 2 \/ lvl = 3 \/ lvl = 4 \/ ~ defined lvl).
  { unfold defined, LevelDebug, LevelFatal. lia. }
  assert (Hout : forall l, ~ defined l -> LogLevel_String l = "unknown").
  { intros l H. destruct (LogLevel_String_cases l)
      as [[-> _]|[[-> _]|[[-> _]|[[-> _]|[[-> _]|[_ E]]]]]];
      try exact E; exfalso; apply H;
      unfold defined, LevelDebug, LevelInfo, LevelWarn, LevelError, LevelFatal; lia. }
  split; [|split; [|split]].
  - split; [|exact (Hout lvl)].
    intros Hname Hdef.
    destruct Hcases as [->|[->|[->|[->|[->|H]]]]]; try discriminate Hname. exact (H Hdef).
  - split; [|apply level_style_undefined].
    intros Hnone Hdef. destruct (level_style_defined lvl Hdef) as [tag Htag]. congruence.
  - intros lvl' Hdef Heq.
    assert (Hcases' : lvl' = 0 \/ lvl' = 1 \/ lvl' = 2 \/ lvl' = 3 \/ lvl' = 4 \/ ~ defined lvl').
    { unfold defined, LevelDebug, LevelFatal. lia. }
    destruct Hcases as [->|[->|[->|[->|[->|H]]]]]; [| | | | |exact (False_ind _ (H Hdef))];
      (destruct Hcases' as [->|[->|[->|[->|[->|H']]]]];
       [try reflexivity; discriminate Heq ..|rewrite (Hout lvl' H') in Heq; discriminate Heq]).
  - intros tag Htag.
    destruct Hcases as [->|[->|[->|[->|[->|H]]]]];
      [injection Htag as <-; reflexivity ..|].
    rewrite (level_style_undefined lvl H) in Htag. discriminate Htag.
Qed.

(** X17. An entry written through [Log] with the JSON formatter is the
    JSON text and a newline whatever the colour setting, and it always
    carries a [caller_info] member: the one supplied, or else the position
    [Log] recorded. *)
Theorem Log_json_entry e callers lvl msg fields s wr :
  formatter (logger s) = JSONFormatter ->
  level (logger s) <= lvl ->
  mutex (logger s) = false ->
  sinks s !! out (logger s) = Some wr ->
  exists rendered members token,
    (Log e callers lvl msg fields s).1 = Returns tt /\
    writes (events (Log e callers lvl msg fields s).2) =
      writes (events s) ++ [(out (logger s), rendered +:+ String LF "")] /\
    Json.parse rendered =
      Some (Json.JObject
              [ ("fields", Json.JObject members);
                ("level", Json.JString (LogLevel_String lvl));
                ("message", Json.JString (Json.text (ReplaceAll msg LF " ")));
                ("timestamp", Json.JString (Time.FormatRFC3339 (now e))) ]) /\
    Json.member "caller_info" members = Some (Json.JString (Json.text token)) /\
    nonempty token = true /\
    (is_empty (CallerInfo fields) = false -> token = CallerInfo fields) /\
    (is_empty (CallerInfo fields) = true ->
     token = caller_token (Runtime.Caller (here 96 :: callers) 2).1.1
                          (Runtime.Caller (here 96 :: callers) 2).1.2).
Proof.
  intros Hfmt Hlvl Hmx Hsink.
  destruct (parse_JSONFormatter e lvl (ReplaceAll msg LF " ")
              (fields_for_formatter callers fields)) as (rendered & Hr & Hp).
  exists rendered, (member_value <$> omitempty (tagged (fields_for_formatter callers fields))),
         (CallerInfo (fields_for_formatter callers fields)).
  assert (Hline : line_of s rendered = rendered +:+ String LF "").
  { unfold line_of. destruct (negb _); [|reflexivity].
    rewrite (stripColors_clean rendered); [reflexivity|].
    apply no_esc_no_csi. exact (JSONFormatter_no_ESC _ _ _ _ _ Hr). }
  assert (Htoken : nonempty (CallerInfo (fields_for_formatter callers fields)) = true).
  { unfold fields_for_formatter. destruct (is_empty (CallerInfo fields)) eqn:Hci.
    - destruct (Runtime.Caller _ _) as [[file ln] ok]. cbn [with_CallerInfo CallerInfo].
      pose proof (caller_token_nonempty file ln) as Hne.
      destruct (caller_token file ln); [congruence | reflexivity].
    - unfold is_empty in Hci. destruct (nonempty _); [reflexivity | discriminate Hci]. }
  rewrite Log_outcomes by assumption. rewrite Hfmt, Hr, Hmx, Hsink. cbn [fst snd].
  split; [reflexivity|].
  split; [rewrite writes_written, Hline; reflexivity|].
  split; [exact Hp|].
  split.
  { destruct (tagged_keys (fields_for_formatter callers fields)) as [Hnd Hkeys].
    rewrite (member_omitempty "caller_info"
               (CallerInfo (fields_for_formatter callers fields))
               (tagged (fields_for_formatter callers fields)) Hnd Hkeys).
    - rewrite Htoken. reflexivity.
    - unfold tagged. do 5 right. left. reflexivity. }
  split; [exact Htoken|].
  unfold fields_for_formatter.
  split; intros Hci; rewrite Hci; [reflexivity|].
  destruct (Runtime.Caller _ _) as [[file ln] ok]. reflexivity.
Qed.

Lemma Log_json_entry_witness :
  exists rendered members token,
    writes (events (Log Example.env Example.stack LevelError "disk full" Example.checkout
                      (Example.st LevelInfo JSONFormatter)).2) =
      [(Example.buf, rendered +:+ String LF "")] /\
    Json.member "caller_info" members = Some (Json.JString (Json.text token)) /\
    nonempty token = true.
Proof.
  destruct (Log_json_entry Example.env Example.stack LevelError "disk full" Example.checkout
              (Example.st LevelInfo JSONFormatter) (Buffer ""))
    as (rendered & members & token & _ & Hw & _ & Hm & Hne & _).
  - reflexivity.
  - vm_compute. discriminate.
  - reflexivity.
  - reflexivity.
  - exists rendered, members, token. split; [exact Hw|]. split; [exact Hm | exact Hne].
Defined.

Section Newlines.

Lemma count_byte_absent c s : has_byte c s = false -> count_byte c s = 0%nat.
Proof.
  induction s as [|d s IH]; [reflexivity|]. cbn [has_byte count_byte].
  intros H. apply orb_false_iff in H as [-> H]. rewrite (IH H). reflexivity.
Qed.

Lemma count_byte_Sprint nc a x : count_byte LF (Color.Sprint nc a x) = count_byte LF x.
Proof.
  unfold Color.Sprint, Color.wrap. destruct nc; [reflexivity|].
  rewrite !count_byte_app.
  assert (Hf : count_byte LF (Color.format a) = 0%nat) by (destruct a; reflexivity).
  rewrite Hf. cbn. lia.
Qed.

Lemma count_byte_Join (elems : list string) :
  count_byte LF (Join elems " ")
  = foldr (fun w n => (count_byte LF w + n)%nat) 0%nat elems.
Proof.
  induction elems as [|a [|b rest] IH]; [reflexivity| |].
  - cbn [Join foldr]. lia.
  - rewrite Join_cons, !count_byte_app, IH. cbn [foldr]. cbn. lia.
Qed.

Lemma count_byte_render nc (pieces : list (Color.Attribute * string)) :
  count_byte LF (render nc pieces)
  = foldr (fun p n => (count_byte LF p.2 + n)%nat) 0%nat pieces.
Proof.
  unfold render. rewrite count_byte_Join.
  induction pieces as [|p pieces IH]; [reflexivity|].
  cbn [fmap list_fmap foldr]. rewrite count_byte_Sprint. f_equal. exact IH.
Qed.

End Newlines.

(** X18. Only the message is made single-line.  The text formatter copies
    every field as it is: the newline bytes of its result are those of the
    message it was given and of the groups it shows, so a newline in a field
    reaches the output. *)
Theorem defaultFormatter_newlines e lvl message fields rendered :
  defaultFormatter e lvl message fields = Some rendered ->
  count_byte LF rendered =
    ((if nonempty (Method fields) && nonempty (Path fields)
      then count_byte LF (Method fields) + count_byte LF (Path fields) else 0)
     + count_byte LF (Status fields) + count_byte LF (Size fields)
     + count_byte LF (Latency fields) + count_byte LF message
     + count_byte LF (CallerInfo fields))%nat.
Proof.
  intros Hfmt.
  destruct (level_style lvl) as [tag|] eqn:Htag;
    [|unfold defaultFormatter in Hfmt; rewrite Htag in Hfmt; discriminate Hfmt].
  rewrite (defaultFormatter_layout e lvl message fields tag Htag) in Hfmt.
  injection Hfmt as <-. rewrite count_byte_render. unfold layout.
  rewrite !foldr_app. cbn [foldr snd].
  rewrite (count_byte_absent LF _ (level_tag_lacks lvl tag LF Htag (or_intror eq_refl))).
  rewrite (count_byte_absent LF _ (FormatRFC3339_lacks LF (now e) eq_refl)).
  assert (Hempty : forall x, nonempty x = false -> count_byte LF x = 0%nat).
  { intros [|c x]; [reflexivity | discriminate]. }
  destruct (nonempty (Method fields) && nonempty (Path fields));
    destruct (nonempty (Status fields)) eqn:Hst;
    destruct (nonempty (Size fields)) eqn:Hsz;
    destruct (nonempty (Latency fields)) eqn:Hla;
    cbn [group foldr snd];
    rewrite ?count_byte_app;
    try rewrite (Hempty _ Hst); try rewrite (Hempty _ Hsz); try rewrite (Hempty _ Hla);
    cbn; lia.
Qed.

Lemma defaultFormatter_newlines_witness :
  let fields := NewLogFields "GET" "/health" ("200" +:+ String LF "OK") "" "" in
  exists rendered,
    defaultFormatter Example.plain_env LevelInfo "ready" fields = Some rendered /\
    count_byte LF rendered = 1%nat.
Proof.
  intros fields.
  pose (rendered := default "" (defaultFormatter Example.plain_env LevelInfo "ready" fields)).
  exists rendered. split; [reflexivity|].
  rewrite (defaultFormatter_newlines Example.plain_env LevelInfo "ready" fields rendered);
    reflexivity.
Defined.

(** X19. Two calls in a row on a logger that writes to a [bytes.Buffer]:
    both return, the mutex is free again after each, and the buffer holds
    what it held followed by the two entries in the order of the calls. *)
Theorem Log_twice_in_order e1 e2 callers1 callers2 lvl1 lvl2 msg1 msg2 fields1 fields2
    s content rendered1 rendered2 :
  sinks s !! out (logger s) = Some (Buffer content) ->
  mutex (logger s) = false ->
  level (logger s) <= lvl1 ->
  level (logger s) <= lvl2 ->
  formatter (logger s) e1 lvl1 (ReplaceAll msg1 LF " ")
            (fields_for_formatter callers1 fields1) = Some rendered1 ->
  formatter (logger s) e2 lvl2 (ReplaceAll msg2 LF " ")
            (fields_for_formatter callers2 fields2) = Some rendered2 ->
  exists s',
    (Log e1 callers1 lvl1 msg1 fields1 ;;; Log e2 callers2 lvl2 msg2 fields2) s
      = (Returns tt, s') /\
    logger s' = logger s /\
    sinks s' !! out (logger s)
      = Some (Buffer (content +:+ line_of s rendered1 +:+ line_of s rendered2)) /\
    writes (events s') =
      writes (events s) ++ [(out (logger s), line_of s rendered1);
                            (out (logger s), line_of s rendered2)].
Proof.
  intros Hsink Hmx Hl1 Hl2 Hf1 Hf2.
  set (s1 := written callers1 lvl1 msg1 fields1 s rendered1
               (content +:+ line_of s rendered1) None (Buffer content)).
  assert (H1 : Log e1 callers1 lvl1 msg1 fields1 s = (Returns tt, s1)).
  { apply Log_run with (rendered := rendered1) (wr := Buffer content) (d := content +:+ line_of s rendered1) (err := None);
      try assumption. reflexivity. }
  assert (Hlg : logger s1 = logger s) by reflexivity.
  assert (Hline : forall r, line_of s1 r = line_of s r) by reflexivity.
  assert (Hsink1 : sinks s1 !! out (logger s1) = Some (Buffer (content +:+ line_of s rendered1))).
  { cbn [s1 written sinks logger]. rewrite lookup_insert_eq. reflexivity. }
  set (s2 := written callers2 lvl2 msg2 fields2 s1 rendered2
               ((content +:+ line_of s rendered1) +:+ line_of s rendered2) None
               (Buffer (content +:+ line_of s rendered1))).
  assert (H2 : Log e2 callers2 lvl2 msg2 fields2 s1 = (Returns tt, s2)).
  { apply Log_run with (rendered := rendered2) (wr := Buffer (content +:+ line_of s rendered1))
                       (d := (content +:+ line_of s rendered1) +:+ line_of s rendered2) (err := None);
      try assumption. reflexivity. }
  exists s2. unfold bind. rewrite H1, H2.
  split; [reflexivity|]. split; [reflexivity|]. split.
  - cbn [s2 written sinks logger]. rewrite Hlg, lookup_insert_eq, sapp_assoc. reflexivity.
  - unfold s2. rewrite writes_written. unfold s1 at 1. rewrite writes_written.
    rewrite Hlg, Hline, <- (assoc_L (++)). reflexivity.
Qed.

Lemma Log_twice_in_order_witness :
  exists s',
    (Log Example.env Example.stack LevelInfo "started" Example.checkout ;;;
     Log Example.env Example.stack LevelError "disk full" Example.checkout)
      (Example.st LevelInfo Example.minimal) = (Returns tt, s') /\
    sinks s' !! Example.buf
      = Some (Buffer ("[info] /api/checkout - started" +:+ String LF ""
                      +:+ "[error] /api/checkout - disk full" +:+ String LF "")).
Proof.
  destruct (Log_twice_in_order Example.env Example.env Example.stack Example.stack
              LevelInfo LevelError "started" "disk full" Example.checkout Example.checkout
              (Example.st LevelInfo Example.minimal) ""
              "[info] /api/checkout - started" "[error] /api/checkout - disk full")
    as (s' & Hrun & _ & Hbuf & _).
  - reflexivity.
  - reflexivity.
  - vm_compute. discriminate.
  - vm_compute. discriminate.
  - reflexivity.
  - reflexivity.
  - exists s'. split; [exact Hrun | exact Hbuf].
Defined.

(** * Part IV: the strip step, the message and the recorded position, through to the sink *)

(** ** Strings in which every ESC starts a sequence *)

Section Matched.

Lemma is_param_not_ESC c : is_param c = true -> Ascii.eqb c ESC = false.
Proof.
  intros H. destruct (Ascii.eqb_spec c ESC) as [->|]; [discriminate H | reflexivity].
Qed.

Lemma is_final_not_ESC c : is_final c = true -> Ascii.eqb c ESC = false.
Proof.
  intros H. destruct (Ascii.eqb_spec c ESC) as [->|]; [discriminate H | reflexivity].
Qed.

Lemma is_final_not_param c : is_final c = true -> is_param c = false.
Proof.
  destruct c as [[] [] [] [] [] [] [] []]; intros H; try reflexivity; discriminate H.
Qed.

(** The bytes of a match after its first hold no ESC. *)
Lemma csi_tail_matched s r :
  csi_tail s = Some r -> escapes_matched s = escapes_matched r.
Proof.
  revert r. induction s as [|c s IH]; intros r; cbn [csi_tail]; [discriminate|].
  destruct (is_param c) eqn:Hp.
  - intros H. cbn [escapes_matched]. rewrite (is_param_not_ESC c Hp). cbn [negb orb andb].
    apply IH. exact H.
  - destruct (is_final c) eqn:Hf; [|discriminate]. intros [= <-].
    cbn [escapes_matched]. rewrite (is_final_not_ESC c Hf). reflexivity.
Qed.

Lemma csi_match_matched s r :
  csi_match s = Some r -> escapes_matched s = escapes_matched r.
Proof.
  intros Hm. destruct s as [|c1 [|c2 s]]; try discriminate Hm.
  cbn [escapes_matched]. rewrite Hm.
  assert (Hd : bool_decide (is_Some (Some r)) = true)
    by (apply bool_decide_eq_true; eexists; reflexivity).
  rewrite Hd, orb_true_r. cbn [andb].
  unfold csi_match in Hm.
  destruct (Ascii.eqb_spec c1 ESC) as [->|]; [|discriminate Hm].
  destruct (Ascii.eqb_spec c2 "[") as [->|]; [|discriminate Hm].
  cbn [andb] in Hm. change (Ascii.eqb "[" ESC) with false. cbn [negb orb andb].
  apply csi_tail_matched. exact Hm.
Qed.

(** What survives the strip step: an ESC is left exactly when some ESC of
    the argument starts no match. *)
Lemma stripColors_escapes (n : nat) : forall s,
  (String.length s <= n)%nat ->
  has_byte ESC (stripColors s) = negb (escapes_matched s).
Proof.
  induction n as [n IH] using lt_wf_ind. intros s Hn.
  rewrite stripColors_step. destruct (csi_match s) as [rest|] eqn:Hm.
  - pose proof (csi_match_shorter _ _ Hm) as Hlt.
    rewrite (csi_match_matched s rest Hm).
    apply (IH (String.length rest)); lia.
  - destruct s as [|c s']; [reflexivity|]. cbn [String.length] in Hn.
    cbn [has_byte escapes_matched]. rewrite Hm.
    rewrite (IH (String.length s') ltac:(lia) s' ltac:(lia)).
    change (bool_decide (is_Some (@None string))) with false.
    destruct (Ascii.eqb c ESC), (escapes_matched s'); reflexivity.
Qed.

Lemma stripColors_no_ESC s :
  escapes_matched s = true -> has_byte ESC (stripColors s) = false.
Proof.
  intros H. rewrite (stripColors_escapes (String.length s) s (le_n _)), H. reflexivity.
Qed.

(** A match at the head of [s] is a match at the head of [s] followed by
    anything. *)
Lemma csi_tail_app s r t : csi_tail s = Some r -> csi_tail (s +:+ t) = Some (r +:+ t).
Proof.
  revert r. induction s as [|c s IH]; intros r; cbn [csi_tail]; [discriminate|].
  rewrite sapp_cons. cbn [csi_tail].
  destruct (is_param c); [apply IH|].
  destruct (is_final c); [|discriminate]. intros [= <-]. reflexivity.
Qed.

Lemma csi_match_app s r t : csi_match s = Some r -> csi_match (s +:+ t) = Some (r +:+ t).
Proof.
  destruct s as [|c1 [|c2 s]]; try discriminate.
  rewrite !sapp_cons. unfold csi_match.
  destruct (_ && _); [apply csi_tail_app | discriminate].
Qed.

Lemma escapes_matched_app s t :
  escapes_matched s = true -> escapes_matched t = true ->
  escapes_matched (s +:+ t) = true.
Proof.
  intros Hs Ht. induction s as [|c s IH]; [exact Ht|].
  cbn [escapes_matched] in Hs. apply andb_true_iff in Hs as [Hc Hs].
  rewrite sapp_cons. cbn [escapes_matched]. rewrite (IH Hs), andb_true_r.
  apply orb_true_iff in Hc as [Hc|Hc]; [rewrite Hc; reflexivity|].
  apply bool_decide_eq_true in Hc as [r Hr].
  rewrite <- sapp_cons, (csi_match_app _ r t Hr).
  apply orb_true_iff. right. apply bool_decide_eq_true. eexists. reflexivity.
Qed.

Lemma escapes_matched_plain s : has_byte ESC s = false -> escapes_matched s = true.
Proof.
  induction s as [|c s IH]; [reflexivity|]. cbn [has_byte escapes_matched].
  intros H. apply orb_false_iff in H as [Hc Hs]. rewrite Hc, (IH Hs). reflexivity.
Qed.

(** Replacing newlines by spaces moves no sequence. *)
Lemma class_ReplaceAll c :
  let c' := if Ascii.eqb c LF then " "%char else c in
  is_param c' = is_param c /\ is_final c' = is_final c /\
  Ascii.eqb c' ESC = Ascii.eqb c ESC /\ Ascii.eqb c' "[" = Ascii.eqb c "[".
Proof.
  destruct (Ascii.eqb_spec c LF) as [->|]; repeat split.
Qed.

Lemma csi_tail_ReplaceAll s :
  csi_tail (ReplaceAll s LF " ") = (fun r => ReplaceAll r LF " ") <$> csi_tail s.
Proof.
  induction s as [|c s IH]; [reflexivity|]. cbn [ReplaceAll csi_tail].
  destruct (class_ReplaceAll c) as (-> & -> & _).
  destruct (is_param c); [exact IH|]. destruct (is_final c); reflexivity.
Qed.

Lemma csi_match_ReplaceAll s :
  csi_match (ReplaceAll s LF " ") = (fun r => ReplaceAll r LF " ") <$> csi_match s.
Proof.
  destruct s as [|c1 [|c2 s]]; try reflexivity. cbn [ReplaceAll]. unfold csi_match.
  destruct (class_ReplaceAll c1) as (_ & _ & -> & _).
  destruct (class_ReplaceAll c2) as (_ & _ & _ & ->).
  destruct (_ && _); [apply csi_tail_ReplaceAll | reflexivity].
Qed.

Lemma escapes_matched_ReplaceAll s :
  escapes_matched (ReplaceAll s LF " ") = escapes_matched s.
Proof.
  induction s as [|c s IH]; [reflexivity|].
  change (ReplaceAll (String c s) LF " ")
    with (String (if Ascii.eqb c LF then " "%char else c) (ReplaceAll s LF " ")).
  cbn [escapes_matched]. rewrite IH.
  change (String (if Ascii.eqb c LF then " "%char else c) (ReplaceAll s LF " "))
    with (ReplaceAll (String c s) LF " ").
  rewrite csi_match_ReplaceAll.
  destruct (class_ReplaceAll c) as (_ & _ & -> & _).
  destruct (csi_match (String c s)); reflexivity.
Qed.

(** The painting of package [color] and the joining of the formatter keep
    every ESC at the head of a sequence. *)
Lemma escapes_matched_Sprint nc a x :
  escapes_matched x = true -> escapes_matched (Color.Sprint nc a x) = true.
Proof.
  intros Hx. unfold Color.Sprint, Color.wrap. destruct nc; [exact Hx|].
  apply escapes_matched_app; [destruct a; reflexivity|].
  apply escapes_matched_app; [exact Hx | reflexivity].
Qed.

Lemma escapes_matched_render nc pieces :
  Forall (fun p => escapes_matched p.2 = true) pieces ->
  escapes_matched (render nc pieces) = true.
Proof.
  unfold render. induction 1 as [|p rest Hp Hrest IH]; [reflexivity|].
  destruct rest as [|q rest].
  - cbn [fmap list_fmap Join]. apply escapes_matched_Sprint. exact Hp.
  - change (Join ((fun p => Color.Sprint nc p.1 p.2) <$> p :: q :: rest) " ")
      with (Color.Sprint nc p.1 p.2 +:+ " " +:+
            Join ((fun p => Color.Sprint nc p.1 p.2) <$> q :: rest) " ").
    apply escapes_matched_app; [apply escapes_matched_Sprint; exact Hp|].
    apply escapes_matched_app; [reflexivity | exact IH].
Qed.

Lemma layout_matched lvl tag t message fields :
  level_style lvl = Some tag ->
  escapes_matched message = true ->
  fields_matched fields ->
  Forall (fun p => escapes_matched p.2 = true)
         (layout tag (Time.FormatRFC3339 t) message fields).
Proof.
  intros Htag Hmsg (Hm & Hp & Hst & Hsz & Hla & Hci).
  assert (escapes_matched (Time.FormatRFC3339 t) = true) as Hts
    by (apply escapes_matched_plain, FormatRFC3339_lacks; reflexivity).
  assert (escapes_matched ("[" +:+ tag.1 +:+ "]") = true) as Htg
    by (apply escapes_matched_plain, (level_tag_lacks lvl tag ESC Htag); left; reflexivity).
  unfold layout, group.
  repeat first
    [ apply Forall_app; split
    | apply Forall_cons; split
    | apply Forall_nil
    | match goal with |- Forall _ (if ?b then _ else _) => destruct b end ];
    cbn [fst snd];
    first [ exact I
          | assumption
          | reflexivity
          | apply escapes_matched_app; [assumption|];
            apply escapes_matched_app; [reflexivity | assumption] ].
Qed.

(** A complete sequence at the head is deleted, and the scan goes on
    behind it. *)
Lemma csi_tail_sequence params final rest :
  all_bytes is_param params = true -> is_final final = true ->
  csi_tail (params +:+ String final "" +:+ rest) = Some rest.
Proof.
  intros Hp Hf. induction params as [|c ps IH].
  - change ("" +:+ String final "" +:+ rest) with (String final rest).
    cbn [csi_tail]. rewrite (is_final_not_param final Hf), Hf. reflexivity.
  - cbn [all_bytes] in Hp. apply andb_true_iff in Hp as [Hc Hp].
    rewrite sapp_cons. cbn [csi_tail]. rewrite Hc. apply IH. exact Hp.
Qed.

Lemma stripColors_pieces pieces :
  Forall (fun p => well_formed p = true) pieces ->
  stripColors (flatten (bytes_of <$> pieces)) = flatten (text_of <$> pieces).
Proof.
  induction 1 as [|p rest Hp Hrest IH]; [reflexivity|].
  cbn [fmap list_fmap flatten foldr]. fold (flatten (bytes_of <$> rest)).
  fold (flatten (text_of <$> rest)). rewrite <- IH.
  destruct p as [t|params final]; cbn [bytes_of text_of well_formed] in *.
  - apply stripColors_plain. apply negb_true_iff. exact Hp.
  - apply andb_true_iff in Hp as [Hps Hf].
    change ("" +:+ stripColors (flatten (bytes_of <$> rest)))
      with (stripColors (flatten (bytes_of <$> rest))).
    apply stripColors_match.
    rewrite sapp_cons. unfold csi_match.
    rewrite sapp_assoc. change (("[" +:+ params +:+ String final "") +:+ ?x)
      with (String "[" ((params +:+ String final "") +:+ x)).
    change (Ascii.eqb ESC ESC && Ascii.eqb "[" "[") with true. cbn iota.
    rewrite sapp_assoc. apply csi_tail_sequence; assumption.
Qed.

End Matched.

(** ** Colour stripping, in full *)

(** C6, amended.  [stripColors] is a function of its argument alone, and a
    single scan from left to right: a match at the head is deleted and the
    scan goes on behind it, any other byte is kept.  So it deletes the
    sequences of a string made of text without ESC and complete sequences and
    keeps the text; it returns a string without match unchanged; it leaves an
    ESC exactly when some ESC of its argument starts no match; and a second
    pass is a no-op exactly when the first left no match, which holds whenever
    every ESC of the argument starts a match, in particular when the argument
    holds no match at all. *)
Theorem stripColors_single_pass s :
  (forall rest, csi_match s = Some rest -> stripColors s = stripColors rest) /\
  (forall c s', s = String c s' -> csi_match s = None ->
     stripColors s = String c (stripColors s')) /\
  (forall pieces,
     s = flatten (bytes_of <$> pieces) ->
     Forall (fun p => well_formed p = true) pieces ->
     stripColors s = flatten (text_of <$> pieces)) /\
  (has_csi s = false ->
   stripColors s = s /\ stripColors (stripColors s) = stripColors s) /\
  (has_byte ESC (stripColors s) = false <-> escapes_matched s = true) /\
  (escapes_matched s = true -> stripColors (stripColors s) = stripColors s) /\
  (stripColors (stripColors s) = stripColors s <-> has_csi (stripColors s) = false).
Proof.
  split; [intros rest; apply stripColors_match|].
  split; [intros c s' -> Hm; apply stripColors_skip; exact Hm|].
  split; [intros pieces -> Hok; apply stripColors_pieces; exact Hok|].
  split.
  { intros H. pose proof (stripColors_clean s H) as Hs.
    split; [exact Hs|]. rewrite Hs. exact Hs. }
  split.
  { rewrite (stripColors_escapes (String.length s) s (le_n _)).
    destruct (escapes_matched s); cbn [negb]; split; intros H;
      first [reflexivity | discriminate H]. }
  split.
  { intros H. apply stripColors_clean, no_esc_no_csi, stripColors_no_ESC. exact H. }
  split; [apply stripColors_fixed | apply stripColors_clean].
Qed.

Lemma stripColors_single_pass_witness :
  let painted := String ESC "[31mred " +:+ String ESC "[0m" in
  stripColors painted = flatten (text_of <$> [Sequence "31" "m"; Text "red "; Sequence "0" "m"]) /\
  stripColors (stripColors painted) = stripColors painted.
Proof.
  intros painted.
  destruct (stripColors_single_pass painted) as (_ & _ & Hpieces & _ & _ & Hidem & _).
  split.
  - apply Hpieces; [reflexivity|]. repeat (apply Forall_cons; split; [reflexivity|]).
    apply Forall_nil. exact I.
  - apply Hidem. reflexivity.
Defined.

(** ** Colour disabled *)

(** C5, amended.  With colour disabled, a call that is not suppressed
    writes the formatter's result stripped, and a newline.  The line holds no
    ESC byte, hence no escape sequence,
    - with the JSON formatter, always: the encoder escapes control bytes;
    - with the text formatter and one of the five levels, when every ESC byte
      of the message and of the fields handed to the formatter starts a
      complete sequence (in particular when they hold none);
    - with any formatter, when every ESC byte of its result starts a
      complete sequence. *)
Theorem no_escape_sequence_written e callers lvl msg fields s wr :
  color (logger s) = false ->
  level (logger s) <= lvl ->
  mutex (logger s) = false ->
  sinks s !! out (logger s) = Some wr ->
  formatter (logger s) = JSONFormatter \/
  (formatter (logger s) = defaultFormatter /\ defined lvl /\
   escapes_matched msg = true /\
   fields_matched (fields_for_formatter callers fields)) \/
  (exists result,
     formatter (logger s) e lvl (ReplaceAll msg LF " ")
               (fields_for_formatter callers fields) = Some result /\
     escapes_matched result = true) ->
  exists rendered line s',
    formatter (logger s) e lvl (ReplaceAll msg LF " ")
              (fields_for_formatter callers fields) = Some rendered /\
    line = stripColors rendered +:+ String LF "" /\
    Log e callers lvl msg fields s = (Returns tt, s') /\
    writes (events s') = writes (events s) ++ [(out (logger s), line)] /\
    has_byte ESC line = false /\
    has_csi line = false.
Proof.
  intros Hcol Hlvl Hmx Hsink Hcases.
  assert (exists rendered,
            formatter (logger s) e lvl (ReplaceAll msg LF " ")
                      (fields_for_formatter callers fields) = Some rendered /\
            escapes_matched rendered = true) as (rendered & Hr & Hem).
  { destruct Hcases as [Hjson | [(Htext & Hdef & Hmsg & Hfields) | Hany]]; [| |exact Hany].
    - destruct (JSONFormatter_plain e lvl (ReplaceAll msg LF " ")
                  (fields_for_formatter callers fields)) as (rendered & Hr & _).
      exists rendered. rewrite Hjson. split; [exact Hr|].
      apply escapes_matched_plain. exact (JSONFormatter_no_ESC _ _ _ _ _ Hr).
    - destruct (level_style_defined lvl Hdef) as [tag Htag].
      eexists. rewrite Htext. split; [apply defaultFormatter_layout; exact Htag|].
      apply escapes_matched_render. apply (layout_matched lvl); try assumption.
      rewrite escapes_matched_ReplaceAll. exact Hmsg. }
  assert (Hline : line_of s rendered = stripColors rendered +:+ String LF "")
    by (unfold line_of; rewrite Hcol; reflexivity).
  assert (Hno : has_byte ESC (stripColors rendered +:+ String LF "") = false)
    by (rewrite has_byte_app, (stripColors_no_ESC rendered Hem); reflexivity).
  exists rendered, (stripColors rendered +:+ String LF ""),
         (written callers lvl msg fields s rendered
            (write wr (data wr) (line_of s rendered)).1
            (write wr (data wr) (line_of s rendered)).2 wr).
  split; [exact Hr|]. split; [reflexivity|].
  split; [rewrite Log_outcomes by assumption; rewrite Hr, Hmx, Hsink; reflexivity|].
  split; [rewrite writes_written, Hline; reflexivity|].
  split; [exact Hno | apply no_esc_no_csi; exact Hno].
Qed.

Lemma no_escape_sequence_written_witness :
  let painted := String ESC "[31mred " +:+ String ESC "[0m" in
  (exists rendered line s',
     JSONFormatter Example.env LevelError painted
       (fields_for_formatter Example.stack Example.checkout) = Some rendered /\
     line = stripColors rendered +:+ String LF "" /\
     Log Example.env Example.stack LevelError painted Example.checkout
       (Example.st LevelInfo JSONFormatter) = (Returns tt, s') /\
     writes (events s') = [] ++ [(Example.buf, line)] /\
     has_byte ESC line = false /\
     has_csi line = false) /\
  (exists rendered line s',
     defaultFormatter Example.env LevelError painted
       (fields_for_formatter Example.stack Example.checkout) = Some rendered /\
     line = stripColors rendered +:+ String LF "" /\
     Log Example.env Example.stack LevelError painted Example.checkout
       (Example.st LevelInfo defaultFormatter) = (Returns tt, s') /\
     writes (events s') = [] ++ [(Example.buf, line)] /\
     has_byte ESC line = false /\
     has_csi line = false).
Proof.
  intros painted. split.
  - apply (no_escape_sequence_written Example.env Example.stack LevelError
             painted Example.checkout
             (Example.st LevelInfo JSONFormatter) (Buffer "")).
    + reflexivity.
    + vm_compute. discriminate.
    + reflexivity.
    + reflexivity.
    + left. reflexivity.
  - apply (no_escape_sequence_written Example.env Example.stack LevelError
             painted Example.checkout
             (Example.st LevelInfo defaultFormatter) (Buffer "")).
    + reflexivity.
    + vm_compute. discriminate.
    + reflexivity.
    + reflexivity.
    + right. left. split; [reflexivity|]. split; [|split].
      * unfold defined, LevelDebug, LevelError, LevelFatal. lia.
      * reflexivity.
      * vm_compute. repeat split.
Defined.

(** ** Newlines in the message *)

Section MessageLine.

(** The newline bytes of a line of the text formatter are those of its
    message and of the groups it shows. *)
Lemma render_layout_newlines nc lvl tag t message fields :
  level_style lvl = Some tag ->
  count_byte LF (render nc (layout tag (Time.FormatRFC3339 t) message fields)) =
    ((if nonempty (Method fields) && nonempty (Path fields)
      then count_byte LF (Method fields) + count_byte LF (Path fields) else 0)
     + count_byte LF (Status fields) + count_byte LF (Size fields)
     + count_byte LF (Latency fields) + count_byte LF message
     + count_byte LF (CallerInfo fields))%nat.
Proof.
  intros Htag. rewrite count_byte_render. unfold layout.
  rewrite !foldr_app. cbn [foldr snd].
  rewrite (count_byte_absent LF _ (level_tag_lacks lvl tag LF Htag (or_intror eq_refl))).
  rewrite (count_byte_absent LF _ (FormatRFC3339_lacks LF t eq_refl)).
  assert (Hempty : forall x, nonempty x = false -> count_byte LF x = 0%nat).
  { intros [|c x]; [reflexivity | discriminate]. }
  destruct (nonempty (Method fields) && nonempty (Path fields));
    destruct (nonempty (Status fields)) eqn:Hst;
    destruct (nonempty (Size fields)) eqn:Hsz;
    destruct (nonempty (Latency fields)) eqn:Hla;
    cbn [group foldr snd];
    rewrite ?count_byte_app;
    try rewrite (Hempty _ Hst); try rewrite (Hempty _ Hsz); try rewrite (Hempty _ Hla);
    cbn; lia.
Qed.

(** The strip step and the closing newline, counted. *)
Lemma line_newlines (strip : bool) rendered :
  count_byte LF ((if strip then rendered else stripColors rendered) +:+ String LF "")
  = S (count_byte LF rendered).
Proof.
  rewrite count_byte_app. change (count_byte LF (String LF "")) with 1%nat.
  destruct strip; [lia|].
  rewrite (stripColors_count (String.length rendered) LF rendered (le_n _) eq_refl). lia.
Qed.

End MessageLine.

(** C7. In every call that is not suppressed the formatter is called, and
    the message it is given is the caller's with each newline byte replaced
    by a space: same length, same bytes elsewhere, no newline left.  What the
    formatter returns for that message is what the call writes, stripped when
    colour is off and followed by a newline.  With the text formatter the
    message piece of the line is that message, and the newline bytes of the
    line written are the closing one and those of the fields shown: none
    comes from the message.  With the JSON formatter the line written holds
    the closing newline only, and its [message] member reads as that
    message. *)
Theorem Log_message_single_line e callers lvl msg fields s :
  level (logger s) <= lvl ->
  let msg' := ReplaceAll msg LF " " in
  let fields' := fields_for_formatter callers fields in
  (exists rest,
     events (Log e callers lvl msg fields s).2 =
     events s ++ capture_events fields ++ EvFormat lvl msg' fields' :: rest) /\
  has_byte LF msg' = false /\
  String.length msg' = String.length msg /\
  (forall i, String.get i msg' =
             (fun c => if Ascii.eqb c LF then " "%char else c) <$> String.get i msg) /\
  (forall rendered wr,
     mutex (logger s) = false ->
     sinks s !! out (logger s) = Some wr ->
     formatter (logger s) e lvl msg' fields' = Some rendered ->
     let line := (if color (logger s) then rendered else stripColors rendered)
                 +:+ String LF "" in
     Log e callers lvl msg fields s =
       (Returns tt,
        {| logger := logger s;
           sinks := <[out (logger s) := {| data := (write wr (data wr) line).1;
                                           write := write wr |}]> (sinks s);
           events := events s ++ capture_events fields ++
                     [EvFormat lvl msg' fields'; EvLock;
                      EvWrite (out (logger s)) line (write wr (data wr) line).2;
                      EvUnlock] |}) /\
     (formatter (logger s) = defaultFormatter ->
      exists tag,
        level_style lvl = Some tag /\
        rendered = render (NoColor e)
                     (layout tag (Time.FormatRFC3339 (now e)) msg' fields') /\
        count_byte LF line =
          (1 + (if nonempty (Method fields') && nonempty (Path fields')
                then count_byte LF (Method fields') + count_byte LF (Path fields') else 0)
           + count_byte LF (Status fields') + count_byte LF (Size fields')
           + count_byte LF (Latency fields') + count_byte LF (CallerInfo fields'))%nat) /\
     (formatter (logger s) = JSONFormatter ->
      count_byte LF line = 1%nat /\
      exists members,
        Json.parse rendered =
          Some (Json.JObject
                  [ ("fields", Json.JObject members);
                    ("level", Json.JString (LogLevel_String lvl));
                    ("message", Json.JString (Json.text msg'));
                    ("timestamp", Json.JString (Time.FormatRFC3339 (now e))) ]))).
Proof.
  intros H msg' fields'.
  assert (Hgone : has_byte LF msg' = false) by (apply ReplaceAll_gone; discriminate).
  split; [apply Log_events_extend; assumption|].
  split; [exact Hgone|].
  split; [apply ReplaceAll_length|].
  split; [intros i; apply ReplaceAll_get|].
  intros rendered wr Hmx Hsink Hr line.
  assert (Hline : line_of s rendered = line).
  { unfold line_of, line. destruct (color (logger s)); reflexivity. }
  split; [|split].
  - rewrite Log_outcomes by assumption. fold msg' fields'. rewrite Hr, Hmx, Hsink.
    unfold written, formatted. cbn [events]. fold msg' fields'.
    rewrite !Hline, <- !(assoc_L (++)). reflexivity.
  - intros Hfmt. rewrite Hfmt in Hr.
    destruct (level_style lvl) as [tag|] eqn:Htag;
      [|unfold defaultFormatter in Hr; rewrite Htag in Hr; discriminate Hr].
    rewrite (defaultFormatter_layout e lvl msg' fields' tag Htag) in Hr.
    injection Hr as <-. exists tag. split; [reflexivity|]. split; [reflexivity|].
    unfold line. rewrite line_newlines, (render_layout_newlines _ lvl tag _ _ _ Htag).
    rewrite (count_byte_absent LF msg' Hgone). lia.
  - intros Hfmt. rewrite Hfmt in Hr. split.
    + unfold line. rewrite line_newlines. f_equal.
      destruct (JSONFormatter_plain e lvl msg' fields') as (rendered' & Hr' & Hplain).
      rewrite Hr in Hr'. injection Hr' as <-.
      apply (count_byte_foreign json_plain LF rendered eq_refl Hplain).
    + destruct (parse_JSONFormatter e lvl msg' fields') as (rendered' & Hr' & Hp).
      rewrite Hr in Hr'. injection Hr' as <-.
      eexists. exact Hp.
Qed.

Lemma Log_message_single_line_witness :
  let msg := "line one" +:+ String LF "line two" in
  let s := Example.fresh "app" in
  let fields := with_CallerInfo Example.checkout "cmd/main.go:12" in
  let line := "[ERROR] 2025-06-14T12:30:25Z POST /api/checkout 200 OK 51KB 120ms - "
              +:+ "line one line two - cmd/main.go:12" +:+ String LF "" in
  has_byte LF (ReplaceAll msg LF " ") = false /\
  Log Example.plain_env Example.stack LevelError msg fields s =
    (Returns tt,
     {| logger := logger s;
        sinks := <[Stdout := Buffer line]> (sinks s);
        events := [EvFormat LevelError "line one line two" fields; EvLock;
                   EvWrite Stdout line None; EvUnlock] |}).
Proof.
  intros msg s fields line.
  destruct (Log_message_single_line Example.plain_env Example.stack LevelError msg fields s)
    as (_ & Hnl & _ & _ & Hrun).
  - vm_compute. discriminate.
  - split; [exact Hnl|].
    destruct (Hrun ("[ERROR] 2025-06-14T12:30:25Z POST /api/checkout 200 OK 51KB 120ms - "
                    +:+ "line one line two - cmd/main.go:12")
                (Buffer "") eq_refl eq_refl eq_refl) as [Hlog _].
    exact Hlog.
Defined.

(** ** The position recorded by [Log] *)

Section Recorded.

Variables (e : Env) (lvl : LogLevel) (msg : string) (fields : LogFields) (s : State).

(** A call that is not suppressed and finds no caller info calls the
    formatter with the position [runtime.Caller(2)] gave. *)
Lemma Log_hands_position callers file ln ok :
  CallerInfo fields = "" ->
  Runtime.Caller (here 96 :: callers) 2 = (file, ln, ok) ->
  level (logger s) <= lvl ->
  exists rest,
    events (Log e callers lvl msg fields s).2 =
    events s ++ EvCaller 2 ::
    EvFormat lvl (ReplaceAll msg LF " ") (with_CallerInfo fields (caller_token file ln))
    :: rest.
Proof.
  intros Hci Hc Hlvl.
  destruct (Log_events_extend e callers lvl msg fields s Hlvl) as [rest Hrest].
  exists rest. rewrite Hrest. unfold capture_events, fields_for_formatter.
  rewrite Hci, Hc. reflexivity.
Qed.

(** The run of such a call is the run of a call that is given the position
    as caller info, the look at the stack apart. *)
Lemma Log_as_supplied callers callers' file ln ok :
  CallerInfo fields = "" ->
  Runtime.Caller (here 96 :: callers) 2 = (file, ln, ok) ->
  same_effect (Log e callers lvl msg fields s)
              (Log e callers' lvl msg (with_CallerInfo fields (caller_token file ln)) s).
Proof.
  intros Hci Hc.
  destruct (Z.lt_ge_cases lvl (level (logger s))) as [Hlow|Hlvl].
  { rewrite !Log_suppressed by assumption. repeat split. }
  assert (Hf : fields_for_formatter callers fields
               = with_CallerInfo fields (caller_token file ln)).
  { unfold fields_for_formatter. rewrite Hci, Hc. reflexivity. }
  assert (Hf' : fields_for_formatter callers' (with_CallerInfo fields (caller_token file ln))
                = with_CallerInfo fields (caller_token file ln)).
  { unfold fields_for_formatter. cbn [with_CallerInfo CallerInfo].
    pose proof (caller_token_nonempty file ln) as Hne.
    destruct (caller_token file ln); [congruence | reflexivity]. }
  rewrite !Log_outcomes by assumption. rewrite Hf, Hf'.
  destruct (formatter _ _ _ _ _) as [rendered|]; [|unfold same_effect; cbn [fst snd formatted
    logger sinks events]; repeat split; rewrite !writes_app, !writes_capture; reflexivity].
  destruct (mutex _); [unfold same_effect; cbn [fst snd formatted logger sinks events];
    repeat split; rewrite !writes_app, !writes_capture; reflexivity|].
  destruct (sinks s !! out (logger s)) as [wr|]; unfold same_effect;
    cbn [fst snd formatted written logger sinks events]; repeat split;
    rewrite !writes_app, !writes_capture; reflexivity.
Qed.

(** With the JSON formatter, what is written and how it reads. *)
Lemma Log_json_run callers wr :
  formatter (logger s) = JSONFormatter ->
  level (logger s) <= lvl ->
  mutex (logger s) = false ->
  sinks s !! out (logger s) = Some wr ->
  exists rendered,
    Json.parse rendered =
      Some (Json.JObject
              [ ("fields", Json.JObject (member_value <$>
                             omitempty (tagged (fields_for_formatter callers fields))));
                ("level", Json.JString (LogLevel_String lvl));
                ("message", Json.JString (Json.text (ReplaceAll msg LF " ")));
                ("timestamp", Json.JString (Time.FormatRFC3339 (now e))) ]) /\
    (Log e callers lvl msg fields s).1 = Returns tt /\
    writes (events (Log e callers lvl msg fields s).2) =
      writes (events s) ++ [(out (logger s), rendered +:+ String LF "")].
Proof.
  intros Hfmt Hlvl Hmx Hsink.
  destruct (parse_JSONFormatter e lvl (ReplaceAll msg LF " ")
              (fields_for_formatter callers fields)) as (rendered & Hr & Hp).
  exists rendered. split; [exact Hp|].
  assert (Hline : line_of s rendered = rendered +:+ String LF "").
  { unfold line_of. destruct (negb _); [|reflexivity].
    rewrite (stripColors_clean rendered); [reflexivity|].
    apply no_esc_no_csi. exact (JSONFormatter_no_ESC _ _ _ _ _ Hr). }
  rewrite Log_outcomes by assumption. rewrite Hfmt, Hr, Hmx, Hsink. cbn [fst snd].
  split; [reflexivity|]. rewrite writes_written, Hline. reflexivity.
Qed.

End Recorded.

(** X4. When the stack is too shallow for [runtime.Caller(2)] (the call
    reports [ok = false], which [Log] does not look at), a call of [Log] that
    is not suppressed and is given no caller info calls the formatter with
    the token of the zero position, [":0"], and writes what the formatter
    returns for it; with the JSON formatter the entry written has the member
    [caller_info] equal to [":0"]. *)
Theorem Log_shallow_stack e callers lvl msg fields s :
  (length callers <= 1)%nat ->
  CallerInfo fields = "" ->
  level (logger s) <= lvl ->
  let recorded := with_CallerInfo fields ":0" in
  (exists rest,
     events (Log e callers lvl msg fields s).2 =
     events s ++ EvCaller 2 :: EvFormat lvl (ReplaceAll msg LF " ") recorded :: rest) /\
  (forall rendered wr,
     mutex (logger s) = false ->
     sinks s !! out (logger s) = Some wr ->
     formatter (logger s) e lvl (ReplaceAll msg LF " ") recorded = Some rendered ->
     (Log e callers lvl msg fields s).1 = Returns tt /\
     writes (events (Log e callers lvl msg fields s).2) =
       writes (events s) ++
       [(out (logger s),
         (if color (logger s) then rendered else stripColors rendered) +:+ String LF "")]) /\
  (forall wr,
     formatter (logger s) = JSONFormatter ->
     mutex (logger s) = false ->
     sinks s !! out (logger s) = Some wr ->
     exists rendered members,
       writes (events (Log e callers lvl msg fields s).2) =
         writes (events s) ++ [(out (logger s), rendered +:+ String LF "")] /\
       Json.parse rendered =
         Some (Json.JObject
                 [ ("fields", Json.JObject members);
                   ("level", Json.JString (LogLevel_String lvl));
                   ("message", Json.JString (Json.text (ReplaceAll msg LF " ")));
                   ("timestamp", Json.JString (Time.FormatRFC3339 (now e))) ]) /\
       Json.member "caller_info" members = Some (Json.JString ":0")).
Proof.
  intros Hlen Hci Hlvl recorded.
  assert (Hc : Runtime.Caller (here 96 :: callers) 2 = ("", 0, false)).
  { destruct callers as [|f [|g rest]]; cbn [length] in Hlen; try lia; reflexivity. }
  assert (Hf : fields_for_formatter callers fields = recorded).
  { unfold fields_for_formatter. rewrite Hci, Hc. reflexivity. }
  split; [exact (Log_hands_position e lvl msg fields s callers "" 0 false Hci Hc Hlvl)|].
  split.
  - intros rendered wr Hmx Hsink Hr.
    rewrite Log_outcomes by assumption. rewrite Hf, Hr, Hmx, Hsink. cbn [fst snd].
    split; [reflexivity|]. rewrite writes_written. unfold line_of.
    destruct (color (logger s)); reflexivity.
  - intros wr Hfmt Hmx Hsink.
    destruct (Log_json_run e lvl msg fields s callers wr Hfmt Hlvl Hmx Hsink)
      as (rendered & Hp & _ & Hw).
    rewrite Hf in Hp. exists rendered. eexists. split; [exact Hw|]. split; [exact Hp|].
    destruct (tagged_keys recorded) as [Hnd Hkeys].
    rewrite (member_omitempty "caller_info" ":0" (tagged recorded) Hnd Hkeys);
      [reflexivity|].
    unfold tagged. do 5 right. left. reflexivity.
Qed.

Lemma Log_shallow_stack_witness :
  let goexit := Runtime.mkFrame "/usr/local/go/src/runtime/asm_amd64.s" 1700 in
  exists rest,
    events (Log Example.env [goexit] LevelError "disk full" Example.checkout
              (Example.st LevelInfo JSONFormatter)).2 =
    [] ++ EvCaller 2 ::
    EvFormat LevelError (ReplaceAll "disk full" LF " ")
      (with_CallerInfo Example.checkout ":0") :: rest.
Proof.
  intros goexit.
  destruct (Log_shallow_stack Example.env [goexit] LevelError "disk full" Example.checkout
              (Example.st LevelInfo JSONFormatter)) as [Hev _].
  - cbn. lia.
  - reflexivity.
  - vm_compute. discriminate.
  - exact Hev.
Defined.

(** X12. Every level method, every package-level helper and [LogCtx]
    record the position of their own caller.  Called from a site with fields
    that carry no caller info, each of them runs as a call of [Log] that is
    given the token of that site as caller info (same outcome, logger,
    writers and writes), and when the level is not suppressed the formatter
    is called with that token.  A package-level helper runs the same call as
    the method of the same name. *)
Theorem wrappers_record_their_caller e site above msg fields s :
  CallerInfo fields = "" ->
  let callers := site :: above in
  let recorded :=
    with_CallerInfo fields (caller_token (Runtime.file site) (Runtime.line site)) in
  let handed (lvl : LogLevel) (run : outcome unit * State) :=
    exists rest,
      events run.2 =
      events s ++ EvCaller 2 :: EvFormat lvl (ReplaceAll msg LF " ") recorded :: rest in
  (forall direct,
     same_effect (Debug e callers msg fields s) (Log e direct LevelDebug msg recorded s) /\
     same_effect (Info e callers msg fields s) (Log e direct LevelInfo msg recorded s) /\
     same_effect (Warn e callers msg fields s) (Log e direct LevelWarn msg recorded s) /\
     same_effect (Error e callers msg fields s) (Log e direct LevelError msg recorded s)) /\
  (forall direct ctx lvl,
     same_effect (LogCtx e callers ctx lvl msg fields s) (Log e direct lvl msg recorded s)) /\
  (level (logger s) <= LevelDebug -> handed LevelDebug (Debug e callers msg fields s)) /\
  (level (logger s) <= LevelInfo -> handed LevelInfo (Info e callers msg fields s)) /\
  (level (logger s) <= LevelWarn -> handed LevelWarn (Warn e callers msg fields s)) /\
  (level (logger s) <= LevelError -> handed LevelError (Error e callers msg fields s)) /\
  (forall ctx lvl,
     level (logger s) <= lvl -> handed lvl (LogCtx e callers ctx lvl msg fields s)) /\
  (Default.Debug e callers msg fields s = Debug e callers msg fields s /\
   Default.Info e callers msg fields s = Info e callers msg fields s /\
   Default.Warn e callers msg fields s = Warn e callers msg fields s /\
   Default.Error e callers msg fields s = Error e callers msg fields s).
Proof.
  intros Hci callers recorded handed.
  assert (Hc : forall ln, Runtime.Caller (here 96 :: here ln :: callers) 2
                          = (Runtime.file site, Runtime.line site, true))
    by reflexivity.
  assert (Hsame : forall ln lvl direct,
            same_effect (Log e (here ln :: callers) lvl msg fields s)
                        (Log e direct lvl msg recorded s)).
  { intros ln lvl direct.
    exact (Log_as_supplied e lvl msg fields s (here ln :: callers) direct _ _ _ Hci (Hc ln)). }
  assert (Hhanded : forall ln lvl, level (logger s) <= lvl ->
            handed lvl (Log e (here ln :: callers) lvl msg fields s)).
  { intros ln lvl Hlvl.
    exact (Log_hands_position e lvl msg fields s (here ln :: callers) _ _ _ Hci (Hc ln) Hlvl). }
  split; [intros direct; repeat split; apply Hsame|].
  split; [intros direct ctx lvl; apply Hsame|].
  split; [apply Hhanded|]. split; [apply Hhanded|].
  split; [apply Hhanded|]. split; [apply Hhanded|].
  split; [intros ctx lvl; apply Hhanded|].
  unfold Default.Debug, Default.Info, Default.Warn, Default.Error, Debug, Info, Warn, Error.
  repeat split; apply Log_stack_frame; reflexivity.
Qed.

Lemma wrappers_record_their_caller_witness :
  exists rest,
    events (Info Example.env Example.stack "ready" Example.checkout
              (Example.st LevelInfo JSONFormatter)).2 =
    [] ++ EvCaller 2 ::
    EvFormat LevelInfo (ReplaceAll "ready" LF " ")
      (with_CallerInfo Example.checkout
         (caller_token "/home/dev/shop/cmd/api/main.go" 12)) :: rest.
Proof.
  destruct (wrappers_record_their_caller Example.env
              (Runtime.mkFrame "/home/dev/shop/cmd/api/main.go" 12)
              [Runtime.mkFrame "/usr/local/go/src/runtime/proc.go" 283]
              "ready" Example.checkout (Example.st LevelInfo JSONFormatter) eq_refl)
    as (_ & _ & _ & Hinfo & _).
  apply Hinfo. vm_compute. discriminate.
Defined.

(** X20. Fields built by [NewLogFields] carry no caller information: a
    call of [Log] with them that is not suppressed inspects the stack and
    calls the formatter with the position found, and a suppressed call does
    nothing.  Given to the JSON formatter as they are, they read back as the
    five arguments under the keys of their tags, an empty argument giving no
    member, and there is no [caller_info] member. *)
Theorem NewLogFields_round_trip e lvl message method path status size latency :
  let fields := NewLogFields method path status size latency in
  let read (x : string) :=
    if nonempty x then Some (Json.JString (Json.text x)) else None in
  (forall callers s,
     level (logger s) <= lvl ->
     exists rest,
       events (Log e callers lvl message fields s).2 =
       events s ++ EvCaller 2 ::
       EvFormat lvl (ReplaceAll message LF " ")
         (with_CallerInfo fields
            (caller_token (Runtime.Caller (here 96 :: callers) 2).1.1
                          (Runtime.Caller (here 96 :: callers) 2).1.2)) :: rest) /\
  (forall callers s,
     lvl < level (logger s) -> Log e callers lvl message fields s = (Returns tt, s)) /\
  exists output members,
    JSONFormatter e lvl message fields = Some output /\
    Json.parse output =
      Some (Json.JObject
              [ ("fields", Json.JObject members);
                ("level", Json.JString (LogLevel_String lvl));
                ("message", Json.JString (Json.text message));
                ("timestamp", Json.JString (Time.FormatRFC3339 (now e))) ]) /\
    Json.member "method" members = read method /\
    Json.member "path" members = read path /\
    Json.member "status" members = read status /\
    Json.member "size" members = read size /\
    Json.member "latency" members = read latency /\
    Json.member "caller_info" members = None.
Proof.
  intros fields read. split; [|split].
  - intros callers s Hlvl.
    destruct (Runtime.Caller (here 96 :: callers) 2) as [[file ln] ok] eqn:Hc.
    exact (Log_hands_position e lvl message fields s callers file ln ok eq_refl Hc Hlvl).
  - intros callers s. apply Log_suppressed.
  - destruct (parse_JSONFormatter e lvl message fields) as (output & Hr & Hp).
    exists output, (member_value <$> omitempty (tagged fields)).
    destruct (tagged_keys fields) as [Hnd Hkeys].
    split; [exact Hr|]. split; [exact Hp|].
    repeat split.
    + apply (member_omitempty "method" method (tagged fields) Hnd Hkeys). left. reflexivity.
    + apply (member_omitempty "path" path (tagged fields) Hnd Hkeys).
      right. left. reflexivity.
    + apply (member_omitempty "status" status (tagged fields) Hnd Hkeys).
      do 2 right. left. reflexivity.
    + apply (member_omitempty "size" size (tagged fields) Hnd Hkeys).
      do 3 right. left. reflexivity.
    + apply (member_omitempty "latency" latency (tagged fields) Hnd Hkeys).
      do 4 right. left. reflexivity.
    + apply (member_omitempty "caller_info" "" (tagged fields) Hnd Hkeys).
      do 5 right. left. reflexivity.
Qed.
